(** * creatorpilot-api: the gateway's handlers, the MCP client, the OAuth
      state store and the request-id middleware, embedded and verified.

    The Python sources are embedded shallowly.  A function that may raise
    returns a [res]; the in-memory [_pending_states] dict is a
    [gmap string string] threaded through the functions that touch it;
    the outbound HTTP call of a handler is the value of a function [send]
    (the network) at the request the handler builds. *)

From Stdlib Require Import Ascii String QArith.
From stdpp Require Import gmap strings list.

Local Open Scope string_scope.
Local Open Scope Z_scope.

Set Warnings "-register-all".

(** ** Python string operations used by the sources *)

Module PyStr.

(** [c in chars] for a one-character [c]. *)
Fixpoint mem (c : ascii) (chars : string) : bool :=
  match chars with
  | EmptyString => false
  | String d r => if Ascii.eqb c d then true else mem c r
  end.

(** [sub in s] for a one-character [sub]. *)
Definition contains (c : ascii) (s : string) : bool := mem c s.

(** [s.startswith(p)] *)
Fixpoint startswith (p s : string) : bool :=
  match p, s with
  | EmptyString, _ => true
  | String a p', String b s' => if Ascii.eqb a b then startswith p' s' else false
  | String _ _, EmptyString => false
  end.

(** [s.rstrip(chars)] *)
Fixpoint rstrip (chars s : string) : string :=
  match s with
  | EmptyString => EmptyString
  | String c r =>
      match rstrip chars r with
      | EmptyString => if mem c chars then EmptyString else String c EmptyString
      | String _ _ as t => String c t
      end
  end.

(** [s.lstrip(chars)] *)
Fixpoint lstrip (chars s : string) : string :=
  match s with
  | EmptyString => EmptyString
  | String c r => if mem c chars then lstrip chars r else s
  end.

(** [s.strip(chars)] *)
Definition strip (chars s : string) : string := rstrip chars (lstrip chars s).

(** [s.replace(pat, "")] for a nonempty [pat]: the occurrences are removed
    from left to right, without overlap; [skip] counts the characters of a
    match that are still to be dropped. *)
Fixpoint remove_from (pat : string) (skip : nat) (s : string) : string :=
  match s with
  | EmptyString => EmptyString
  | String c r =>
      match skip with
      | S k => remove_from pat k r
      | O =>
          if startswith pat s
          then remove_from pat (Nat.pred (String.length pat)) r
          else String c (remove_from pat O r)
      end
  end.

Definition remove (pat s : string) : string := remove_from pat O s.

(** [s.split(sep, 1)] for a one-character [sep] that occurs in [s]: the text
    before the first [sep] and the text after it.  Without an occurrence the
    whole string is the first part. *)
Fixpoint split_first (sep : ascii) (s : string) : string * option string :=
  match s with
  | EmptyString => (EmptyString, None)
  | String c r =>
      if Ascii.eqb c sep then (EmptyString, Some r)
      else let '(a, b) := split_first sep r in (String c a, b)
  end.

(** [c.lower()] and [s.lower()] on ASCII. *)
Definition lower_ascii (c : ascii) : ascii :=
  let n := nat_of_ascii c in
  if (Nat.leb 65 n && Nat.leb n 90)%bool then ascii_of_nat (n + 32) else c.

Fixpoint lower (s : string) : string :=
  match s with
  | EmptyString => EmptyString
  | String c r => String (lower_ascii c) (lower r)
  end.

(** [all(p(c) for c in s)] *)
Fixpoint all (p : ascii -> bool) (s : string) : bool :=
  match s with
  | EmptyString => true
  | String c r => p c && all p r
  end.

(** [sep.join(l)] *)
Fixpoint join (sep : string) (l : list string) : string :=
  match l with
  | [] => EmptyString
  | [x] => x
  | x :: r => x ++ sep ++ join sep r
  end.

Definition is_digit (c : ascii) : bool :=
  let n := nat_of_ascii c in (Nat.leb 48 n && Nat.leb n 57)%bool.
Definition is_upper (c : ascii) : bool :=
  let n := nat_of_ascii c in (Nat.leb 65 n && Nat.leb n 90)%bool.
Definition is_lower (c : ascii) : bool :=
  let n := nat_of_ascii c in (Nat.leb 97 n && Nat.leb n 122)%bool.
Definition is_alnum (c : ascii) : bool := is_digit c || is_upper c || is_lower c.

(** The value of a hexadecimal digit. *)
Definition hex_value (c : ascii) : option N :=
  let n := nat_of_ascii c in
  if is_digit c then Some (N.of_nat (n - 48))
  else if (Nat.leb 65 n && Nat.leb n 70)%bool then Some (N.of_nat (n - 55))
  else if (Nat.leb 97 n && Nat.leb n 102)%bool then Some (N.of_nat (n - 87))
  else None.

Definition is_hex (c : ascii) : bool :=
  match hex_value c with Some _ => true | None => false end.

(** [s.split(sep)] for a one-character [sep]. *)
Fixpoint split (sep : ascii) (s : string) : list string :=
  match s with
  | EmptyString => [EmptyString]
  | String c r =>
      if Ascii.eqb c sep then EmptyString :: split sep r
      else match split sep r with
           | h :: t => String c h :: t
           | [] => [String c EmptyString]
           end
  end.

(** The ASCII characters [str.strip()] removes: codes 9 to 13, 28 to 32. *)
Definition is_space (c : ascii) : bool :=
  let n := nat_of_ascii c in
  (Nat.leb 9 n && Nat.leb n 13) || (Nat.leb 28 n && Nat.leb n 32).

Fixpoint lstrip_space (s : string) : string :=
  match s with
  | EmptyString => EmptyString
  | String c r => if is_space c then lstrip_space r else s
  end.

Fixpoint rstrip_space (s : string) : string :=
  match s with
  | EmptyString => EmptyString
  | String c r =>
      match rstrip_space r with
      | EmptyString => if is_space c then EmptyString else String c EmptyString
      | String _ _ as t => String c t
      end
  end.

(** [s.strip()] *)
Definition strip_space (s : string) : string := rstrip_space (lstrip_space s).

(** The hexadecimal digit of a value below 16, in upper or lower case. *)
Definition hex_digit (upper : bool) (d : N) : ascii :=
  let n := N.to_nat d in
  if Nat.ltb n 10 then ascii_of_nat (48 + n)
  else ascii_of_nat ((if upper then 55 else 87) + n).

End PyStr.

(** ** Values parsed from JSON

    [response.json()] yields Python values built from [None], [bool],
    numbers, [str], [list] and [dict] with string keys.  Numbers are kept
    as rationals (every finite float and every int is one), so that the
    comparisons pydantic makes with [0] and [1] are exact.  A dict is the
    list of its items in document order, keys distinct. *)

Inductive json : Type :=
| JNull
| JBool (b : bool)
| JNum (q : Q)
| JStr (s : string)
| JArr (l : list json)
| JObj (d : list (string * json)).

Abbreviation dict := (list (string * json)).

(** [d[k]] when present: the item of key [k]. *)
Fixpoint dict_lookup (k : string) (d : dict) : option json :=
  match d with
  | [] => None
  | (k', v) :: r => if String.eqb k k' then Some v else dict_lookup k r
  end.

(** [bool(v)]: Python truthiness. *)
Definition truthy (v : json) : bool :=
  match v with
  | JNull => false
  | JBool b => b
  | JNum q => negb (Qeq_bool q 0)
  | JStr s => negb (String.eqb s "")
  | JArr l => match l with [] => false | _ => true end
  | JObj d => match d with [] => false | _ => true end
  end.

(** [isinstance(v, dict)] *)
Definition is_dict (v : json) : bool :=
  match v with JObj _ => true | _ => false end.

(** [v == s] for a string literal [s]. *)
Definition eq_str (v : json) (s : string) : bool :=
  match v with JStr t => String.eqb t s | _ => false end.

(** ** Exceptions and results *)

(** The exception classes that occur.  [TimeoutException] and
    [RequestError] stand for httpx's request errors (the second for every
    request error that is not a timeout: connection refused, protocol
    errors, ...); [HTTPStatusError] carries the status of the response it
    was raised for. *)
Inductive exn : Type :=
| MCPClientError (msg : string)
| HTTPException (status_code : Z) (detail : string)
| HTTPStatusError (status_code : Z) (msg : string)
| TimeoutException (msg : string)
| RequestError (msg : string)
| ValueError (msg : string)
| JSONDecodeError (msg : string)
| AttributeError (msg : string)
| ValidationError (fields : list string)
| OtherError (cls msg : string).

(** httpx: [TimeoutException <: TransportError <: RequestError <: HTTPError]
    and [HTTPStatusError <: HTTPError]. *)
Definition is_TimeoutException (e : exn) : bool :=
  match e with TimeoutException _ => true | _ => false end.
Definition is_RequestError (e : exn) : bool :=
  match e with TimeoutException _ | RequestError _ => true | _ => false end.
Definition is_HTTPStatusError (e : exn) : bool :=
  match e with HTTPStatusError _ _ => true | _ => false end.
Definition is_HTTPError (e : exn) : bool :=
  is_RequestError e || is_HTTPStatusError e.
(** [json.JSONDecodeError] and pydantic's [ValidationError] derive from
    [ValueError]. *)
Definition is_ValueError (e : exn) : bool :=
  match e with
  | ValueError _ | JSONDecodeError _ | ValidationError _ => true
  | _ => false
  end.

(** [str(e)] for the exceptions whose text the sources use. *)
Definition str_exn (e : exn) : string :=
  match e with
  | MCPClientError m | HTTPStatusError _ m | TimeoutException m
  | RequestError m | ValueError m | JSONDecodeError m | AttributeError m
  | OtherError _ m => m
  | HTTPException _ d => d
  | ValidationError _ => "validation error"
  end.

Inductive res (A : Type) : Type :=
| Ok (a : A)
| Raise (e : exn).
Arguments Ok {A} a.
Arguments Raise {A} e.

(** Sequencing: the first exception raised ends the computation. *)
#[global] Instance res_bind : MBind res := fun A B k m =>
  match m with
  | Ok a => k a
  | Raise e => Raise e
  end.
#[global] Instance res_ret : MRet res := fun A a => Ok a.

(** [try: body  except C1: h1  except C2: h2 ...]: each class is given by
    its test; the first clause whose class matches handles the exception,
    and what a handler raises is not handled again. *)
Fixpoint handle {A} (clauses : list ((exn -> bool) * (exn -> res A)))
    (e : exn) : res A :=
  match clauses with
  | [] => Raise e
  | (cls, handler) :: rest => if cls e then handler e else handle rest e
  end.

Definition try_except {A} (body : res A)
    (clauses : list ((exn -> bool) * (exn -> res A))) : res A :=
  match body with
  | Ok a => Ok a
  | Raise e => handle clauses e
  end.

(** [except Exception]: every exception of [exn] derives from it. *)
Definition is_Exception (e : exn) : bool := true.

(** [v.get(k, default)]: defined on dicts only. *)
Definition py_get (v : json) (k : string) (default : json) : res json :=
  match v with
  | JObj d => Ok (from_option id default (dict_lookup k d))
  | _ => Raise (AttributeError "object has no attribute 'get'")
  end.

(** ** The outbound HTTP call *)

Inductive http_method := GET | POST.

Record http_request := {
  req_method : http_method;
  req_url : string;
  req_params : list (string * string);
  req_json : option json;
  req_data : list (string * string);
  req_headers : list (string * string);
  req_timeout : Q
}.

(** The response of the peer: its status, its body as text, and what
    [response.json()] makes of the body: [None] when it is not JSON. *)
Record http_response := {
  status_code : Z;
  text : string;
  json_body : option json
}.

(** What the sources take from outside: the network, and the text the
    libraries produce. *)
Record world := {
  (** the peer's answer to a request, or the request error httpx raises *)
  send : http_request -> res http_response;
  (** the message of the [HTTPStatusError] that [raise_for_status] builds *)
  status_error_text : http_response -> string;
  (** [repr(v)] of a value that is not a [str] *)
  py_repr : json -> string;
  (** pydantic's lax conversion to [float] of a [bool] or a [str] *)
  lax_float_of : json -> option Q
}.

(** [response.is_success] *)
Definition is_success (r : http_response) : bool :=
  (200 <=? status_code r) && (status_code r <=? 299).

(** [response.raise_for_status()] *)
Definition raise_for_status (w : world) (r : http_response) : res unit :=
  if is_success r then Ok tt
  else Raise (HTTPStatusError (status_code r) (status_error_text w r)).

(** [response.json()] *)
Definition response_json (r : http_response) : res json :=
  match json_body r with
  | Some v => Ok v
  | None => Raise (JSONDecodeError "Expecting value")
  end.

(** [f"{v}"]: [str(v)], which is [v] itself for a [str]. *)
Definition py_format (w : world) (v : json) : string :=
  match v with
  | JStr s => s
  | _ => py_repr w v
  end.

(** ** app/config.py *)

Record Settings := {
  mcp_base_url : string;
  mcp_timeout : Q;
  google_client_id : string;
  google_client_secret : string;
  google_redirect_uri : string;
  google_auth_url : string;
  google_token_url : string;
  youtube_channels_api : string;
  youtube_scopes : string
}.

(** The defaults of [Settings]. *)
Definition default_settings : Settings := {|
  mcp_base_url := "http://context-hub-mcp:8001";
  mcp_timeout := 30;
  google_client_id := "";
  google_client_secret := "";
  google_redirect_uri := "http://localhost:3000/auth/youtube/callback";
  google_auth_url := "https://accounts.google.com/o/oauth2/v2/auth";
  google_token_url := "https://oauth2.googleapis.com/token";
  youtube_channels_api := "https://www.googleapis.com/youtube/v3/channels";
  youtube_scopes :=
    "https://www.googleapis.com/auth/youtube.readonly,https://www.googleapis.com/auth/yt-analytics.readonly"
|}.

(** ** app/schemas/response.py *)

Record ExecuteResponse := {
  answer : string;
  confidence : Q;
  tools_used : list string;
  content_type : option string;
  tool_outputs : option dict;
  metadata : option dict;
  success : option bool;
  error : option dict
}.

Module Pydantic.

(** Field validation of a pydantic model in its default (lax) mode, on the
    values a JSON document can hold: [None] when the value is refused. *)

(** [str] *)
Definition as_str (v : json) : option string :=
  match v with JStr s => Some s | _ => None end.

(** [float] with [ge=0, le=1] *)
Definition as_unit_float (w : world) (v : json) : option Q :=
  let f := match v with
           | JNum q => Some q
           | JBool _ | JStr _ => lax_float_of w v
           | _ => None
           end in
  match f with
  | Some q => if Qle_bool 0 q && Qle_bool q 1 then Some q else None
  | None => None
  end.

(** [List[str]] *)
Definition as_str_list (v : json) : option (list string) :=
  match v with
  | JArr l => mapM as_str l
  | _ => None
  end.

(** [Optional[str]] *)
Definition as_opt_str (v : json) : option (option string) :=
  match v with
  | JNull => Some None
  | JStr s => Some (Some s)
  | _ => None
  end.

(** [Optional[Dict[str, Any]]] *)
Definition as_opt_dict (v : json) : option (option dict) :=
  match v with
  | JNull => Some None
  | JObj d => Some (Some d)
  | _ => None
  end.

(** The name of a field whose value was refused. *)
Definition failed {A} (name : string) (o : option A) : list string :=
  match o with Some _ => [] | None => [name] end.

End Pydantic.

(** [ExecuteResponse(answer=.., confidence=.., tools_used=.., content_type=..,
    tool_outputs=.., metadata=.., success=.., error=..)]: every field is
    validated, and one [ValidationError] names all the refused ones. *)
Definition ExecuteResponse_init (w : world)
    (answer confidence tools_used content_type tool_outputs metadata : json)
    (success : option bool) (error : json) : res ExecuteResponse :=
  let a := Pydantic.as_str answer in
  let c := Pydantic.as_unit_float w confidence in
  let t := Pydantic.as_str_list tools_used in
  let ct := Pydantic.as_opt_str content_type in
  let o := Pydantic.as_opt_dict tool_outputs in
  let m := Pydantic.as_opt_dict metadata in
  let e := Pydantic.as_opt_dict error in
  match a, c, t, ct, o, m, e with
  | Some a, Some c, Some t, Some ct, Some o, Some m, Some e =>
      Ok {| answer := a; confidence := c; tools_used := t; content_type := ct;
            tool_outputs := o; metadata := m; success := success; error := e |}
  | _, _, _, _, _, _, _ =>
      Raise (ValidationError
               (Pydantic.failed "answer" a ++ Pydantic.failed "confidence" c ++
                Pydantic.failed "tools_used" t ++ Pydantic.failed "content_type" ct ++
                Pydantic.failed "tool_outputs" o ++ Pydantic.failed "metadata" m ++
                Pydantic.failed "error" e))
  end.

(** ** app/clients/mcp_client.py *)

Module MCPClient.

Record t := { base_url : string; timeout : Q }.

(** [MCPClient.__init__] *)
Definition init (settings : Settings) : t := {|
  base_url := PyStr.rstrip "/" (mcp_base_url settings);
  timeout := mcp_timeout settings
|}.

(** The request [execute] posts. *)
Definition execute_request (self : t) (user_id channel_id message : string)
    (metadata : option dict) : http_request := {|
  req_method := POST;
  req_url := base_url self ++ "/execute";
  req_params := [];
  req_json := Some (JObj [("user_id", JStr user_id);
                          ("channel_id", JStr channel_id);
                          ("message", JStr message);
                          ("metadata", match metadata with
                                       | Some m => JObj m
                                       | None => JObj []
                                       end)]);
  req_data := [];
  req_headers := [];
  req_timeout := timeout self
|}.

(** The body of the [try] in [execute], from the response on. *)
Definition transform (w : world) (response : http_response) : res ExecuteResponse :=
  _ ← raise_for_status w response;
  data ← response_json response;
  success ← py_get data "success" (JBool false);
  if negb (truthy success) then
    error ← py_get data "error" (JObj []);
    error_code ← (if is_dict error then py_get error "code" (JStr "")
                  else Ok (JStr ""));
    if eq_str error_code "PLAN_LIMIT_REACHED" then
      message ← py_get error "message" (JStr "Plan limit reached");
      metadata ← py_get data "metadata" JNull;
      ExecuteResponse_init w message (JNum 0) (JArr []) JNull JNull metadata
        (Some false) error
    else
      e ← py_get data "error" (JStr "Unknown error");
      Raise (MCPClientError ("MCP execution failed: " ++ py_format w e))
  else
    content ← py_get data "content" JNull;
    md ← py_get data "metadata" (JObj []);
    confidence ← py_get md "confidence" (JNum 0);
    tools_used ← py_get data "tools_used" (JArr []);
    content_type ← py_get data "content_type" JNull;
    tool_outputs ← py_get data "tool_outputs" JNull;
    metadata ← py_get data "metadata" JNull;
    ExecuteResponse_init w
      (if truthy content then content else JStr "")
      confidence tools_used content_type tool_outputs metadata
      (Some true) JNull.

(** [MCPClient.execute] *)
Definition execute (w : world) (self : t) (user_id channel_id message : string)
    (metadata : option dict) : res ExecuteResponse :=
  let body :=
    response ← send w (execute_request self user_id channel_id message metadata);
    transform w response in
  try_except body
    [(is_TimeoutException, fun e =>
        Raise (MCPClientError ("MCP server request timed out after "
                               ++ py_format w (JNum (timeout self)) ++ " seconds")));
     (is_HTTPError, fun exc =>
        Raise (MCPClientError ("MCP server request failed: " ++ str_exn exc)))].

End MCPClient.

(** ** app/api/v1/execute.py *)

Record ExecuteRequest := {
  user_id : string;
  channel_id : string;
  message : string;
  request_metadata : option dict
}.

Definition is_MCPClientError (e : exn) : bool :=
  match e with MCPClientError _ => true | _ => false end.

Module ExecuteRoute.

(** [POST /api/v1/execute] *)
Definition execute (w : world) (settings : Settings) (request : ExecuteRequest)
    : res ExecuteResponse :=
  let mcp_client := MCPClient.init settings in
  try_except
    (response ← MCPClient.execute w mcp_client (user_id request)
                  (channel_id request) (message request) (request_metadata request);
     Ok response)
    [(is_MCPClientError, fun e => Raise (HTTPException 503 (str_exn e)));
     (is_Exception, fun e => Raise (HTTPException 500 "An unexpected error occurred"))].

End ExecuteRoute.

(** ** app/api/v1/channel.py *)

Module Channel.

Definition TEMP_USER_ID : string := "00000000-0000-0000-0000-000000000001".

Definition stats_request (settings : Settings) (user_id period : string)
    : http_request := {|
  req_method := GET;
  req_url := PyStr.rstrip "/" (mcp_base_url settings) ++ "/channels/" ++ user_id ++ "/stats";
  req_params := [("period", period)];
  req_json := None;
  req_data := [];
  req_headers := [];
  req_timeout := mcp_timeout settings
|}.

(** [GET /api/v1/channel/stats] *)
Definition get_channel_stats (w : world) (settings : Settings)
    (user_id period : string) : res json :=
  try_except
    (response ← send w (stats_request settings user_id period);
     if status_code response =? 404 then
       Raise (HTTPException 404 "No connected YouTube channel found")
     else
       _ ← raise_for_status w response;
       response_json response)
    [(is_HTTPStatusError, fun e =>
        match e with
        | HTTPStatusError code _ => Raise (HTTPException code "Failed to fetch channel stats")
        | _ => Raise e
        end);
     (is_RequestError, fun e =>
        Raise (HTTPException 503 "Could not reach analytics service"))].

Definition top_video_request (settings : Settings) (user_id period : string)
    : http_request := {|
  req_method := GET;
  req_url := PyStr.rstrip "/" (mcp_base_url settings) ++ "/analytics/top-video";
  req_params := [("user_id", user_id); ("period", period)];
  req_json := None;
  req_data := [];
  req_headers := [];
  req_timeout := mcp_timeout settings
|}.

(** The fail-open payload of [get_top_video]. *)
Definition top_video_fallback : json :=
  JObj [("video_id", JNull); ("title", JNull); ("thumbnail_url", JNull);
        ("views", JNum 0); ("growth_percentage", JNum 0)].

(** [GET /api/v1/channel/top-video] *)
Definition get_top_video (w : world) (settings : Settings)
    (user_id period : string) : res json :=
  try_except
    (response ← send w (top_video_request settings user_id period);
     _ ← raise_for_status w response;
     response_json response)
    [(is_RequestError, fun e => Ok top_video_fallback)].

End Channel.

(** ** app/api/v1/user.py *)

Module User.

Definition status_request (settings : Settings) (user_id : string)
    : http_request := {|
  req_method := GET;
  req_url := PyStr.rstrip "/" (mcp_base_url settings) ++ "/api/v1/user/status";
  req_params := [("user_id", user_id)];
  req_json := None;
  req_data := [];
  req_headers := [];
  req_timeout := 5
|}.

(** The fail-open payload of [get_user_status]. *)
Definition status_fallback : json :=
  JObj [("user_plan", JStr "free");
        ("usage", JObj [("used", JNum 0); ("limit", JNum 3);
                        ("exhausted", JBool false)])].

(** [GET /api/v1/user/status] *)
Definition get_user_status (w : world) (settings : Settings) (user_id : string)
    : res json :=
  try_except
    (response ← send w (status_request settings user_id);
     _ ← raise_for_status w response;
     response_json response)
    [(is_Exception, fun e => Ok status_fallback)].

End User.

(** ** Requests and responses of the gateway itself *)

(** Header lists as Starlette keeps them: raw (name, value) pairs, names in
    lower case. *)
Abbreviation headers := (list (string * string)).

(** [Headers.get(key)]: the value of the first header of that name. *)
Fixpoint headers_get_raw (k : string) (h : headers) : option string :=
  match h with
  | [] => None
  | (k', v) :: r => if String.eqb k' k then Some v else headers_get_raw k r
  end.

Definition headers_get (key : string) (h : headers) : option string :=
  headers_get_raw (PyStr.lower key) h.

(** [MutableHeaders.__setitem__]: the first header of that name takes the
    value and the later ones are deleted; without one, the header is
    appended. *)
Fixpoint headers_set_raw (k v : string) (h : headers) : headers :=
  match h with
  | [] => [(k, v)]
  | (k', v') :: r =>
      if String.eqb k' k
      then (k, v) :: List.filter (fun p => negb (String.eqb (fst p) k)) r
      else (k', v') :: headers_set_raw k v r
  end.

Definition headers_set (key value : string) (h : headers) : headers :=
  headers_set_raw (PyStr.lower key) value h.

Record Request := {
  request_method : string;
  request_path : string;
  request_headers : headers;
  (** [request.state.request_id], once set *)
  request_state_id : option string
}.

(** The body of a response: none, a JSON document, or plain text. *)
Inductive body : Type :=
| Empty
| Json (v : json)
| Text (s : string).

Record Response := {
  response_status : Z;
  response_headers : headers;
  response_content : body
}.

Definition set_header (key value : string) (r : Response) : Response := {|
  response_status := response_status r;
  response_headers := headers_set key value (response_headers r);
  response_content := response_content r
|}.

(** ** app/middleware/request_id.py *)

Module RequestIDMiddleware.

Definition REQUEST_ID_HEADER : string := "X-Request-ID".

(** [request.headers.get(REQUEST_ID_HEADER) or str(uuid.uuid4())], where
    [uuid4] is the text [str(uuid.uuid4())] would give in this call. *)
Definition request_id (request : Request) (uuid4 : string) : string :=
  match headers_get REQUEST_ID_HEADER (request_headers request) with
  | Some v => if negb (String.eqb v "") then v else uuid4
  | None => uuid4
  end.

(** [RequestIDMiddleware.dispatch] *)
Definition dispatch (uuid4 : string) (request : Request)
    (call_next : Request -> res Response) : res Response :=
  let request_id := request_id request uuid4 in
  let request := {| request_method := request_method request;
                    request_path := request_path request;
                    request_headers := request_headers request;
                    request_state_id := Some request_id |} in
  response ← call_next request;
  Ok (set_header REQUEST_ID_HEADER request_id response).

End RequestIDMiddleware.

(** ** app/middleware/security_headers.py *)

Module SecurityHeadersMiddleware.

(** [SecurityHeadersMiddleware.dispatch] *)
Definition dispatch (request : Request) (call_next : Request -> res Response)
    : res Response :=
  response ← call_next request;
  let response := set_header "X-Content-Type-Options" "nosniff" response in
  let response := set_header "X-Frame-Options" "DENY" response in
  let response := set_header "X-XSS-Protection" "1; mode=block" response in
  let response := set_header "Referrer-Policy" "strict-origin-when-cross-origin" response in
  let response := set_header "Permissions-Policy"
                    "geolocation=(), microphone=(), camera=()" response in
  Ok response.

End SecurityHeadersMiddleware.

(** ** The framework around the handlers (FastAPI on Starlette)

    What the sources rely on without spelling it out.  A value a handler
    returns is answered with status 200; an [HTTPException] is answered by
    the exception handler that sits inside the middlewares, with the
    exception's status and [{"detail": ...}]; any other exception travels
    out through the middlewares to the server-error handler, which answers
    500.  Headers that the gateway's middlewares do not set are left out. *)

Module Framework.

Definition JSONResponse (status : Z) (content : json) : Response := {|
  response_status := status;
  response_headers := [];
  response_content := Json content
|}.

(** A status below 200, and 204, 205 and 304, go without a body. *)
Definition body_allowed (status : Z) : bool :=
  negb ((status <? 200) || (status =? 204) || (status =? 205) || (status =? 304)).

(** The answer to an [HTTPException]. *)
Definition http_exception_handler (status : Z) (detail : string) : Response :=
  if body_allowed status then JSONResponse status (JObj [("detail", JStr detail)])
  else {| response_status := status; response_headers := [];
          response_content := Empty |}.

(** The route with its exception handler. *)
Definition route (handler : Request -> res json) (request : Request) : res Response :=
  match handler request with
  | Ok v => Ok (JSONResponse 200 v)
  | Raise (HTTPException status detail) => Ok (http_exception_handler status detail)
  | Raise e => Raise e
  end.

(** The outermost handler. *)
Definition server_error (r : res Response) : Response :=
  match r with
  | Ok response => response
  | Raise _ => {| response_status := 500; response_headers := [];
                  response_content := Text "Internal Server Error" |}
  end.

End Framework.

(** ** app/main.py *)

(** [create_app]: the middlewares added in [create_app] around a route;
    the one added last is the outer one.  The CORS layer is not part of
    this model. *)
Definition app (uuid4 : string) (handler : Request -> res json)
    (request : Request) : Response :=
  Framework.server_error
    (SecurityHeadersMiddleware.dispatch request
       (fun request =>
          RequestIDMiddleware.dispatch uuid4 request (Framework.route handler))).

(** ** urllib.parse, as the sources use it *)

Module Urllib.

(** The characters [quote] never escapes. *)
Definition always_safe (c : ascii) : bool :=
  PyStr.is_alnum c || PyStr.mem c "_.-~".

(** ["%XX"] *)
Definition percent (c : ascii) : string :=
  let n := N.of_nat (nat_of_ascii c) in
  String "%" (String (PyStr.hex_digit true (n / 16))
                (String (PyStr.hex_digit true (n mod 16)) EmptyString)).

(** [quote(s, safe)] on the bytes of [s]. *)
Fixpoint quote (safe : string) (s : string) : string :=
  match s with
  | EmptyString => EmptyString
  | String c r =>
      (if always_safe c || PyStr.mem c safe then String c EmptyString else percent c)
      ++ quote safe r
  end.

(** [s.replace(" ", "+")] *)
Fixpoint space_to_plus (s : string) : string :=
  match s with
  | EmptyString => EmptyString
  | String c r => String (if Ascii.eqb c " " then "+"%char else c) (space_to_plus r)
  end.

(** [quote_plus(s)] *)
Definition quote_plus (s : string) : string := space_to_plus (quote " " s).

(** [urlencode(params)] for string keys and values. *)
Definition urlencode (params : list (string * string)) : string :=
  PyStr.join "&" (map (fun kv => quote_plus (fst kv) ++ "=" ++ quote_plus (snd kv)) params).

(** [unquote_plus(s)]: what the receiver of a query string does; an
    escape that is not two hexadecimal digits is left as it is. *)
Fixpoint unquote_plus (s : string) : string :=
  match s with
  | EmptyString => EmptyString
  | String c r =>
      if Ascii.eqb c "+" then String " " (unquote_plus r)
      else if Ascii.eqb c "%" then
        match r with
        | String h (String l r') =>
            match PyStr.hex_value h, PyStr.hex_value l with
            | Some a, Some b =>
                String (ascii_of_nat (N.to_nat (16 * a + b))) (unquote_plus r')
            | _, _ => String c (unquote_plus r)
            end
        | _ => String c (unquote_plus r)
        end
      else String c (unquote_plus r)
  end.

End Urllib.

(** ** uuid.UUID, as the sources use it *)

Module UUID.

(** A UUID is its 128-bit integer. *)
Definition t := N.

(** [int(s, 16)] on a string of hexadecimal digits.  The other spellings
    Python's [int] reads (a sign, a [0x] prefix, underscores between
    digits, blanks around) are refused here. *)
Fixpoint int16 (acc : N) (s : string) : option N :=
  match s with
  | EmptyString => Some acc
  | String c r =>
      match PyStr.hex_value c with
      | Some d => int16 (16 * acc + d)%N r
      | None => None
      end
  end.

(** The text [UUID(hex)] reads its digits from. *)
Definition digits (hex : string) : string :=
  PyStr.remove "-"
    (PyStr.strip "{}" (PyStr.remove "uuid:" (PyStr.remove "urn:" hex))).

(** [uuid.UUID(hex)] *)
Definition parse (hex : string) : res t :=
  let h := digits hex in
  if negb (Nat.eqb (String.length h) 32) then
    Raise (ValueError "badly formed hexadecimal UUID string")
  else
    match int16 0 h with
    | Some n => Ok n
    | None => Raise (ValueError ("invalid literal for int() with base 16: '" ++ h ++ "'"))
    end.

(** ['%032x' % n] *)
Fixpoint hex_of (k : nat) (n : N) : string :=
  match k with
  | O => EmptyString
  | S k' => hex_of k' (n / 16)%N ++ String (PyStr.hex_digit false (n mod 16)%N) EmptyString
  end.

(** [str(u)] *)
Definition to_str (u : t) : string :=
  let hex := hex_of 32 u in
  substring 0 8 hex ++ "-" ++ substring 8 4 hex ++ "-" ++ substring 12 4 hex
  ++ "-" ++ substring 16 4 hex ++ "-" ++ substring 20 12 hex.

(** The usual spelling of a UUID: 8, 4, 4, 4 and 12 hexadecimal digits
    with a dash between the groups.  [hex_run n s] reads [n] digits. *)
Fixpoint hex_run (n : nat) (s : string) : option string :=
  match n with
  | O => Some s
  | S n' =>
      match s with
      | String c r => if PyStr.is_hex c then hex_run n' r else None
      | EmptyString => None
      end
  end.

Definition dash_then (n : nat) (o : option string) : option string :=
  match o with
  | Some (String c r) => if Ascii.eqb c "-" then hex_run n r else None
  | _ => None
  end.

Definition well_formed (s : string) : bool :=
  match dash_then 12 (dash_then 4 (dash_then 4 (dash_then 4 (hex_run 8 s)))) with
  | Some EmptyString => true
  | _ => false
  end.

End UUID.

(** [v[k]] for a string key. *)
Definition py_item (v : json) (k : string) : res json :=
  match v with
  | JObj d =>
      match dict_lookup k d with
      | Some x => Ok x
      | None => Raise (OtherError "KeyError" k)
      end
  | _ => Raise (OtherError "TypeError" "indices must be integers or the object is not subscriptable")
  end.

(** [v[0]] *)
Definition py_first (v : json) : res json :=
  match v with
  | JArr (x :: _) => Ok x
  | JArr [] => Raise (OtherError "IndexError" "list index out of range")
  | JStr (String c _) => Ok (JStr (String c EmptyString))
  | JStr EmptyString => Raise (OtherError "IndexError" "string index out of range")
  | JObj _ => Raise (OtherError "KeyError" "0")
  | _ => Raise (OtherError "TypeError" "object is not subscriptable")
  end.

(** [RedirectResponse(url, status_code)] *)
Definition RedirectResponse (url : string) (status : Z) : Response := {|
  response_status := status;
  response_headers := [("location", Urllib.quote ":/%#?=@[]!$&'()*+,;" url)];
  response_content := Empty
|}.

(** ** app/api/v1/auth/youtube.py *)

Module YouTubeAuth.

(** [_pending_states]: state token to user id. *)
Abbreviation pending_states := (gmap string string).

Definition MOBILE_DEEP_LINK : string := "creatorpilot://auth/callback".

Record AuthUrlResponse := { auth_url : string }.

(** The [params] of [_build_google_auth_url]. *)
Definition auth_params (user_id : string) (settings : Settings)
    (state_token : string) : list (string * string) :=
  let state_value := user_id ++ ":" ++ state_token in
  let scopes := map PyStr.strip_space (PyStr.split "," (youtube_scopes settings)) in
  [("client_id", google_client_id settings);
   ("redirect_uri", google_redirect_uri settings);
   ("response_type", "code");
   ("scope", PyStr.join " " scopes);
   ("access_type", "offline");
   ("prompt", "consent");
   ("state", state_value)].

(** [_build_google_auth_url]; [state_token] is the value
    [secrets.token_urlsafe(16)] takes in this call. *)
Definition _build_google_auth_url (user_id : string) (settings : Settings)
    (state_token : string) (pending : pending_states) : string * pending_states :=
  let pending := <[state_token := user_id]> pending in
  (google_auth_url settings ++ "?" ++ Urllib.urlencode (auth_params user_id settings state_token),
   pending).

(** [_validate_state] *)
Definition _validate_state (state : string) (pending : pending_states)
    : res UUID.t * pending_states :=
  if negb (PyStr.contains ":" state) then
    (UUID.parse state, pending)
  else
    let '(user_id_str, rest) := PyStr.split_first ":" state in
    let state_token := default EmptyString rest in
    match UUID.parse user_id_str with
    | Raise e => (Raise e, pending)
    | Ok user_uuid =>
        let stored_user_id := pending !! state_token in
        let pending := delete state_token pending in
        match stored_user_id with
        | None => (Raise (ValueError "Unknown or expired state token"), pending)
        | Some stored =>
            if negb (String.eqb stored user_id_str) then
              (Raise (ValueError "State token user_id mismatch"), pending)
            else (Ok user_uuid, pending)
        end
    end.

(** [GET /auth/youtube/start] *)
Definition youtube_auth_start (settings : Settings) (user_id : string)
    (state_token : string) (pending : pending_states)
    : res AuthUrlResponse * pending_states :=
  if String.eqb (google_client_id settings) "" then
    (Raise (HTTPException 500 "Google OAuth is not configured"), pending)
  else if String.eqb (google_redirect_uri settings) "" then
    (Raise (HTTPException 500 "Google OAuth redirect URI is not configured"), pending)
  else
    match try_except (UUID.parse user_id)
            [(is_ValueError, fun _ =>
                Raise (HTTPException 400 "Invalid user_id format. Expected UUID."))] with
    | Raise e => (Raise e, pending)
    | Ok _ =>
        let '(url, pending) := _build_google_auth_url user_id settings state_token pending in
        (Ok {| auth_url := url |}, pending)
    end.

(** [_exchange_code_for_tokens]; [httpx.AsyncClient()] has a timeout of
    five seconds. *)
Definition _exchange_code_for_tokens (w : world) (code : string)
    (settings : Settings) : res json :=
  response ← send w {|
      req_method := POST;
      req_url := google_token_url settings;
      req_params := [];
      req_json := None;
      req_data := [("code", code);
                   ("client_id", google_client_id settings);
                   ("client_secret", google_client_secret settings);
                   ("redirect_uri", google_redirect_uri settings);
                   ("grant_type", "authorization_code")];
      req_headers := [("Content-Type", "application/x-www-form-urlencoded")];
      req_timeout := 5 |};
  if negb (status_code response =? 200) then
    let error_detail :=
      match (error_json ← response_json response;
             inner ← py_get error_json "error" (JStr "Unknown error");
             py_get error_json "error_description" inner) with
      | Ok d => d
      | Raise _ => JStr "Token exchange failed"
      end in
    Raise (OtherError "Exception" ("Token exchange failed: " ++ py_format w error_detail))
  else response_json response.

(** [_fetch_youtube_channel]: the [id] and the [title] of the channel. *)
Definition _fetch_youtube_channel (w : world) (access_token : json)
    (settings : Settings) : res (json * json) :=
  response ← send w {|
      req_method := GET;
      req_url := youtube_channels_api settings;
      req_params := [("part", "snippet,statistics"); ("mine", "true")];
      req_json := None;
      req_data := [];
      req_headers := [("Authorization", "Bearer " ++ py_format w access_token)];
      req_timeout := 5 |};
  if negb (status_code response =? 200) then
    body ← response_json response;
    err ← py_get body "error" (JObj []);
    error_detail ← py_get err "message" (JStr (text response));
    Raise (OtherError "Exception" ("YouTube API error: " ++ py_format w error_detail))
  else
    data ← response_json response;
    items ← py_get data "items" (JArr []);
    if negb (truthy items) then
      Raise (OtherError "Exception" "No YouTube channel found for this account")
    else
      channel ← py_first items;
      id ← py_item channel "id";
      snippet ← py_item channel "snippet";
      title ← py_item snippet "title";
      Ok (id, title).

(** [_forward_channel_to_mcp]; the [ChannelConnectRequest] is validated
    first, and its JSON form is what is posted. *)
Definition _forward_channel_to_mcp (w : world) (settings : Settings)
    (user_id : UUID.t) (youtube_channel_id channel_name access_token refresh_token : json)
    : res unit :=
  let mcp_url := mcp_base_url settings ++ "/channels/connect" in
  let c := Pydantic.as_str youtube_channel_id in
  let n := Pydantic.as_str channel_name in
  let a := Pydantic.as_str access_token in
  let r := Pydantic.as_opt_str refresh_token in
  match c, n, a, r with
  | Some c, Some n, Some a, Some r =>
      response ← send w {|
          req_method := POST;
          req_url := mcp_url;
          req_params := [];
          req_json := Some (JObj [("user_id", JStr (UUID.to_str user_id));
                                  ("youtube_channel_id", JStr c);
                                  ("channel_name", JStr n);
                                  ("access_token", JStr a);
                                  ("refresh_token",
                                   match r with Some x => JStr x | None => JNull end)]);
          req_data := [];
          req_headers := [("Content-Type", "application/json")];
          req_timeout := mcp_timeout settings |};
      if negb ((status_code response =? 200) || (status_code response =? 201)) then
        Raise (OtherError "Exception"
                 ("MCP channel connect failed with status "
                  ++ py_format w (JNum (inject_Z (status_code response)))))
      else Ok tt
  | _, _, _, _ =>
      Raise (ValidationError
               (Pydantic.failed "youtube_channel_id" c ++ Pydantic.failed "channel_name" n ++
                Pydantic.failed "access_token" a ++ Pydantic.failed "refresh_token" r))
  end.

Definition error_redirect (detail : string) : Response :=
  RedirectResponse (MOBILE_DEEP_LINK ++ "?status=error&detail=" ++ Urllib.quote "/" detail) 302.

(** [youtube_auth_callback], from the token exchange on: what the callback
    does for the user its state named. *)
Definition connect_channel (w : world) (settings : Settings) (code : string)
    (user_uuid : UUID.t) : res Response :=
  match _exchange_code_for_tokens w code settings with
  | Raise _ => Ok (error_redirect "Token exchange failed")
  | Ok tokens =>
      access_token ← py_get tokens "access_token" JNull;
      refresh_token ← py_get tokens "refresh_token" JNull;
      if negb (truthy access_token) then
        Ok (error_redirect "No access token received")
      else
        match _fetch_youtube_channel w access_token settings with
        | Raise _ => Ok (error_redirect "Failed to fetch channel info")
        | Ok (youtube_channel_id, channel_name) =>
            match _forward_channel_to_mcp w settings user_uuid youtube_channel_id
                    channel_name access_token refresh_token with
            | Raise _ => Ok (error_redirect "Failed to save connection")
            | Ok _ =>
                let params := Urllib.urlencode
                  [("status", "success");
                   ("user_id", UUID.to_str user_uuid);
                   ("channel_id", py_format w youtube_channel_id);
                   ("channel_name", py_format w channel_name)] in
                Ok (RedirectResponse (MOBILE_DEEP_LINK ++ "?" ++ params) 302)
            end
        end
  end.

(** [GET /auth/youtube/callback] *)
Definition youtube_auth_callback (w : world) (settings : Settings)
    (code state : string) (pending : pending_states)
    : res Response * pending_states :=
  let '(validated, pending) := _validate_state state pending in
  match validated with
  | Raise e =>
      if is_ValueError e then (Ok (error_redirect (str_exn e)), pending)
      else (Raise e, pending)
  | Ok user_uuid => (connect_channel w settings code user_uuid, pending)
  end.

End YouTubeAuth.

(** The shape of a [secrets.token_urlsafe(n)]: a text that is not empty,
    over the alphabet of URL-safe base64. *)
Definition is_urlsafe_token (tok : string) : bool :=
  negb (String.eqb tok "")
  && PyStr.all (fun c => PyStr.is_alnum c || PyStr.mem c "-_") tok.

(** ** What FastAPI sends for the models the handlers return *)

#[global] Instance res_fmap : FMap res := fun A B f m =>
  match m with
  | Ok a => Ok (f a)
  | Raise e => Raise e
  end.

Definition opt_json {A} (f : A -> json) (o : option A) : json :=
  match o with Some a => f a | None => JNull end.

(** [ExecuteResponse] as JSON. *)
Definition ExecuteResponse_json (r : ExecuteResponse) : json :=
  JObj [("answer", JStr (answer r));
        ("confidence", JNum (confidence r));
        ("tools_used", JArr (JStr <$> tools_used r));
        ("content_type", opt_json JStr (content_type r));
        ("tool_outputs", opt_json JObj (tool_outputs r));
        ("metadata", opt_json JObj (metadata r));
        ("success", opt_json JBool (success r));
        ("error", opt_json JObj (error r))].

(** [AuthUrlResponse] as JSON. *)
Definition AuthUrlResponse_json (r : YouTubeAuth.AuthUrlResponse) : json :=
  JObj [("auth_url", JStr (YouTubeAuth.auth_url r))].

(** ** Sample peers, for running the handlers *)

Module Sample.

(** A peer that answers every request with [status] and [body]. *)
Definition answers (status : Z) (body : option json) : world := {|
  send := fun _ => Ok {| status_code := status; text := ""; json_body := body |};
  status_error_text := fun r => "status error";
  py_repr := fun _ => "<repr>";
  lax_float_of := fun _ => None
|}.

(** A peer no request reaches. *)
Definition fails (e : exn) : world := {|
  send := fun _ => Raise e;
  status_error_text := fun r => "status error";
  py_repr := fun _ => "<repr>";
  lax_float_of := fun _ => None
|}.

Definition unreachable : world := fails (RequestError "All connection attempts failed").

Definition plan_limit_error : dict :=
  [("code", JStr "PLAN_LIMIT_REACHED"); ("message", JStr "Plan limit reached")].

Definition plan_limit_body : json :=
  JObj [("success", JBool false); ("error", JObj plan_limit_error)].

Definition success_data : dict :=
  [("success", JBool true);
   ("content", JStr "Here is your channel performance data.");
   ("content_type", JStr "analytics");
   ("tools_used", JArr [JStr "fetch_analytics"; JStr "compute_metrics"]);
   ("metadata", JObj [("confidence", JNum (67 # 100)); ("intent", JStr "analytics")])].

Definition request : ExecuteRequest := {|
  user_id := "550e8400-e29b-41d4-a716-446655440000";
  channel_id := "660e8400-e29b-41d4-a716-446655440001";
  message := "Show me my channel performance for last week";
  request_metadata := None
|}.

Definition get (path : string) (h : headers) : Request := {|
  request_method := "GET";
  request_path := path;
  request_headers := h;
  request_state_id := None
|}.

Definition configured : Settings := {|
  mcp_base_url := "http://context-hub-mcp:8001/";
  mcp_timeout := 30;
  google_client_id := "client-id.apps.googleusercontent.com";
  google_client_secret := "secret";
  google_redirect_uri := "http://localhost:3000/auth/youtube/callback";
  google_auth_url := "https://accounts.google.com/o/oauth2/v2/auth";
  google_token_url := "https://oauth2.googleapis.com/token";
  youtube_channels_api := "https://www.googleapis.com/youtube/v3/channels";
  youtube_scopes :=
    "https://www.googleapis.com/auth/youtube.readonly, https://www.googleapis.com/auth/yt-analytics.readonly"
|}.

End Sample.

(** ** The routes as HTTP, and the shapes the properties speak of *)

(** What the route answers, as HTTP. *)
Definition execute_reply (w : world) (settings : Settings)
    (request : ExecuteRequest) (rq : Request) : res Response :=
  Framework.route
    (fun _ => ExecuteResponse_json <$> ExecuteRoute.execute w settings request) rq.

(** What [stats] answers, as HTTP. *)
Definition stats_reply (w : world) (settings : Settings) (user_id period : string)
    (rq : Request) : res Response :=
  Framework.route (fun _ => Channel.get_channel_stats w settings user_id period) rq.

(** The whole application around [top-video]. *)
Definition top_video_app (w : world) (settings : Settings) (user_id period : string)
    (uuid4 : string) (rq : Request) : Response :=
  app uuid4 (fun _ => Channel.get_top_video w settings user_id period) rq.

(** The whole application around [user/status]. *)
Definition user_status_app (w : world) (settings : Settings) (user_id : string)
    (uuid4 : string) (rq : Request) : Response :=
  app uuid4 (fun _ => User.get_user_status w settings user_id) rq.

(** The body says the call failed: [success] is absent or falsy. *)
Definition reports_failure (data : dict) : bool :=
  negb (truthy (default (JBool false) (dict_lookup "success" data))).

(** The [error] of a body, when it is an object whose [code] is
    ["PLAN_LIMIT_REACHED"]. *)
Definition plan_limit_error (data : dict) : option dict :=
  match dict_lookup "error" data with
  | Some (JObj err) =>
      if eq_str (default (JStr "") (dict_lookup "code" err)) "PLAN_LIMIT_REACHED"
      then Some err else None
  | _ => None
  end.

(** The request as the handler sees it. *)
Definition with_request_id (request : Request) (id : string) : Request := {|
  request_method := request_method request;
  request_path := request_path request;
  request_headers := request_headers request;
  request_state_id := Some id
|}.

(** The handler returns, or raises an [HTTPException]: the outcomes that
    the route and its exception handler answer. *)
Definition answered {A} (r : res A) : bool :=
  match r with
  | Ok _ | Raise (HTTPException _ _) => true
  | Raise _ => false
  end.

(** A hexadecimal digit or a dash. *)
Definition plain (c : ascii) : bool := PyStr.is_hex c || Ascii.eqb c "-".

(** ** app/config.py, the settings of the application itself *)

Record AppSettings := {
  app_name : string;
  app_version : string;
  environment : string;
  llm_provider : string;
  cors_origins : string
}.

Definition default_app_settings : AppSettings := {|
  app_name := "Context Hub API";
  app_version := "1.0.0";
  environment := "development";
  llm_provider := "gemini-flash-latest";
  cors_origins := "http://localhost:3000,http://localhost:8080"
|}.

(** [Settings.debug] *)
Definition debug (info : AppSettings) : bool :=
  String.eqb (environment info) "development".

(** ** app/clients/mcp_client.py, the reachability probe *)

Module MCPProbe.

Definition ping_request (self : MCPClient.t) : http_request := {|
  req_method := POST;
  req_url := MCPClient.base_url self ++ "/execute";
  req_params := [];
  req_json := Some (JObj [("user_id", JStr "health_check");
                          ("channel_id", JStr "health_check");
                          ("message", JStr "ping")]);
  req_data := [];
  req_headers := [];
  req_timeout := 2
|}.

(** [MCPClient.ping] *)
Definition ping (w : world) (self : MCPClient.t) : res bool :=
  try_except
    (response ← send w (ping_request self);
     Ok (status_code response =? 200))
    [(is_Exception, fun _ => Ok false)].

End MCPProbe.

(** ** app/api/v1/health.py *)

Record HealthResponse := {
  health_status : string;
  health_version : string;
  health_llm_provider : string;
  health_dependencies : gmap string string
}.

Module Health.

(** [GET /health] *)
Definition health_check (w : world) (settings : Settings) (info : AppSettings)
    : res HealthResponse :=
  let mcp_client := MCPClient.init settings in
  let dependencies : gmap string string := {["mcp" := "unknown"]} in
  dependencies ←
    try_except
      (is_mcp_reachable ← MCPProbe.ping w mcp_client;
       Ok (<["mcp" := if is_mcp_reachable : bool then "ok" else "degraded"]> dependencies))
      [(is_Exception, fun _ => Ok (<["mcp" := "degraded"]> dependencies))];
  Ok {| health_status := "healthy";
        health_version := app_version info;
        health_llm_provider := llm_provider info;
        health_dependencies := dependencies |}.

End Health.

(** ** app/api/v1/feedback.py *)

Record FeedbackRequest := {
  message_id : string;
  feedback : string
}.

Module Feedback.

(** [POST /api/v1/feedback/] *)
Definition submit_feedback (request : FeedbackRequest) : res json :=
  if negb (String.eqb (feedback request) "positive"
           || String.eqb (feedback request) "negative") then
    Raise (HTTPException 400 "Invalid feedback type. Must be 'positive' or 'negative'.")
  else
    Ok (JObj [("success", JBool true); ("message", JStr "Feedback received")]).

End Feedback.

(** ** app/api/v1/auth/youtube.py, the mobile entry points *)

Module YouTubeLogin.

(** [GET /auth/youtube/login] *)
Definition youtube_auth_login (settings : Settings) (user_id : string)
    (state_token : string) (pending : YouTubeAuth.pending_states)
    : res Response * YouTubeAuth.pending_states :=
  if String.eqb (google_client_id settings) "" then
    (Raise (HTTPException 500 "Google OAuth is not configured"), pending)
  else if String.eqb (google_redirect_uri settings) "" then
    (Raise (HTTPException 500 "Google OAuth redirect URI is not configured"), pending)
  else
    match try_except (UUID.parse user_id)
            [(is_ValueError, fun _ =>
                Raise (HTTPException 400 "Invalid user_id format. Expected UUID."))] with
    | Raise e => (Raise e, pending)
    | Ok _ =>
        let '(url, pending) :=
          YouTubeAuth._build_google_auth_url user_id settings state_token pending in
        (Ok (RedirectResponse url 302), pending)
    end.

End YouTubeLogin.

Module YouTubeMobile.

Definition IOS_CLIENT_ID : string :=
  "697429001294-2mrf5v637ash0uj522spsoill1r9oqpq.apps.googleusercontent.com".
Definition IOS_REDIRECT_URI : string :=
  "com.googleusercontent.apps.697429001294-2mrf5v637ash0uj522spsoill1r9oqpq:/oauthredirect".
Definition DEFAULT_USER_ID : string := "00000000-0000-0000-0000-000000000001".

Record MobileExchangeRequest := {
  code : string;
  code_verifier : option string;
  mobile_user_id : string
}.

Record MobileExchangeResponse := {
  mobile_success : bool;
  response_user_id : string;
  response_channel_id : string;
  response_channel_name : string
}.

(** The form [_exchange_mobile_code_for_tokens] posts. *)
Definition exchange_data (code : string) (code_verifier : option string)
    : list (string * string) :=
  [("code", code);
   ("client_id", IOS_CLIENT_ID);
   ("redirect_uri", IOS_REDIRECT_URI);
   ("grant_type", "authorization_code")]
  ++ match code_verifier with
     | Some v => if negb (String.eqb v "") then [("code_verifier", v)] else []
     | None => []
     end.

Definition exchange_request (code : string) (settings : Settings)
    (code_verifier : option string) : http_request := {|
  req_method := POST;
  req_url := google_token_url settings;
  req_params := [];
  req_json := None;
  req_data := exchange_data code code_verifier;
  req_headers := [("Content-Type", "application/x-www-form-urlencoded")];
  req_timeout := 5
|}.

(** [_exchange_mobile_code_for_tokens] *)
Definition _exchange_mobile_code_for_tokens (w : world) (code : string)
    (settings : Settings) (code_verifier : option string) : res json :=
  response ← send w (exchange_request code settings code_verifier);
  if negb (status_code response =? 200) then
    let error_detail :=
      match (error_json ← response_json response;
             inner ← py_get error_json "error" (JStr "Unknown error");
             py_get error_json "error_description" inner) with
      | Ok d => d
      | Raise _ => JStr "Token exchange failed"
      end in
    Raise (OtherError "Exception" (py_format w error_detail))
  else response_json response.

(** [POST /auth/youtube/mobile/exchange] *)
Definition mobile_exchange (w : world) (settings : Settings)
    (body : MobileExchangeRequest) : res MobileExchangeResponse :=
  user_uuid ← try_except (UUID.parse (mobile_user_id body))
                 [(is_ValueError, fun _ =>
                     Raise (HTTPException 400 "Invalid user_id format"))];
  tokens ← try_except
              (_exchange_mobile_code_for_tokens w (code body) settings (code_verifier body))
              [(is_Exception, fun e =>
                  Raise (HTTPException 400 ("Token exchange failed: " ++ str_exn e)))];
  access_token ← py_get tokens "access_token" JNull;
  refresh_token ← py_get tokens "refresh_token" JNull;
  if negb (truthy access_token) then
    Raise (HTTPException 500 "Google did not return an access token")
  else
    channel_info ← try_except
                      (YouTubeAuth._fetch_youtube_channel w access_token settings)
                      [(is_Exception, fun e =>
                          Raise (HTTPException 500
                                   ("Failed to fetch YouTube channel: " ++ str_exn e)))];
    let '(youtube_channel_id, channel_name) := channel_info in
    _ ← try_except
          (YouTubeAuth._forward_channel_to_mcp w settings user_uuid youtube_channel_id
             channel_name access_token refresh_token)
          [(is_Exception, fun e =>
              Raise (HTTPException 500 "Failed to save channel connection"))];
    match Pydantic.as_str youtube_channel_id, Pydantic.as_str channel_name with
    | Some c, Some n =>
        Ok {| mobile_success := true;
              response_user_id := UUID.to_str user_uuid;
              response_channel_id := c;
              response_channel_name := n |}
    | c, n =>
        Raise (ValidationError
                 (Pydantic.failed "channel_id" c ++ Pydantic.failed "channel_name" n))
    end.

End YouTubeMobile.

(** ** app/main.py, the origins and the root endpoint *)

Module Main.

(** The [cors_origins] list of [create_app]. *)
Definition cors_origins_list (info : AppSettings) : list string :=
  map PyStr.strip_space
    (List.filter (fun origin => negb (String.eqb (PyStr.strip_space origin) ""))
       (PyStr.split "," (cors_origins info))).

(** Whether [create_app] adds the CORS middleware. *)
Definition cors_enabled (info : AppSettings) : bool :=
  match cors_origins_list info with [] => false | _ => true end.

(** [docs_url] of the application. *)
Definition docs_url (info : AppSettings) : option string :=
  if debug info then Some "/docs" else None.

(** [GET /] *)
Definition root (info : AppSettings) : json :=
  JObj [("name", JStr (app_name info));
        ("version", JStr (app_version info));
        ("environment", JStr (environment info));
        ("docs", JStr (if debug info then "/docs" else "Not available"))].

End Main.

(** ** More shapes the properties speak of *)

(** The five headers of [SecurityHeadersMiddleware], set on a response. *)
Definition secured (response : Response) : Response :=
  set_header "Permissions-Policy" "geolocation=(), microphone=(), camera=()"
    (set_header "Referrer-Policy" "strict-origin-when-cross-origin"
       (set_header "X-XSS-Protection" "1; mode=block"
          (set_header "X-Frame-Options" "DENY"
             (set_header "X-Content-Type-Options" "nosniff" response)))).

(** The names of the headers the two middlewares set, in lower case. *)
Definition middleware_headers : list string :=
  ["x-request-id"; "x-content-type-options"; "x-frame-options"; "x-xss-protection";
   "referrer-policy"; "permissions-policy"].

(** The characters [RedirectResponse] leaves as they are. *)
Definition redirect_safe (c : ascii) : bool :=
  Urllib.always_safe c || PyStr.mem c ":/%#?=@[]!$&'()*+,;".

(** The last character of a text is [c]. *)
Fixpoint ends_with (c : ascii) (s : string) : bool :=
  match s with
  | EmptyString => false
  | String x EmptyString => Ascii.eqb x c
  | String _ r => ends_with c r
  end.

(** [c * n] *)
Fixpoint repeat_char (c : ascii) (n : nat) : string :=
  match n with
  | O => EmptyString
  | S n' => String c (repeat_char c n')
  end.

(** The requests the helpers of the OAuth flow send. *)
Definition token_request (code : string) (settings : Settings) : http_request := {|
  req_method := POST;
  req_url := google_token_url settings;
  req_params := [];
  req_json := None;
  req_data := [("code", code);
               ("client_id", google_client_id settings);
               ("client_secret", google_client_secret settings);
               ("redirect_uri", google_redirect_uri settings);
               ("grant_type", "authorization_code")];
  req_headers := [("Content-Type", "application/x-www-form-urlencoded")];
  req_timeout := 5
|}.

Definition channels_request (w : world) (access_token : json) (settings : Settings)
    : http_request := {|
  req_method := GET;
  req_url := youtube_channels_api settings;
  req_params := [("part", "snippet,statistics"); ("mine", "true")];
  req_json := None;
  req_data := [];
  req_headers := [("Authorization", "Bearer " ++ py_format w access_token)];
  req_timeout := 5
|}.

Definition connect_request (settings : Settings) (user_id : UUID.t)
    (youtube_channel_id channel_name access_token : string)
    (refresh_token : option string) : http_request := {|
  req_method := POST;
  req_url := mcp_base_url settings ++ "/channels/connect";
  req_params := [];
  req_json := Some (JObj [("user_id", JStr (UUID.to_str user_id));
                          ("youtube_channel_id", JStr youtube_channel_id);
                          ("channel_name", JStr channel_name);
                          ("access_token", JStr access_token);
                          ("refresh_token",
                           match refresh_token with Some x => JStr x | None => JNull end)]);
  req_data := [];
  req_headers := [("Content-Type", "application/json")];
  req_timeout := mcp_timeout settings
|}.

(** What the token endpoint's refusal says: [error_description], else
    [error], else "Unknown error", of an object body; the fixed text for
    any other body. *)
Definition refusal_detail (r : http_response) : json :=
  match json_body r with
  | Some (JObj d) =>
      default (default (JStr "Unknown error") (dict_lookup "error" d))
        (dict_lookup "error_description" d)
  | _ => JStr "Token exchange failed"
  end.

(** Peers for a whole connection: Google's token endpoint hands out
    tokens, the channels API lists one channel, and MCP answers the
    request to store it with [stored]. *)
Module SampleFlow.

Definition tokens : json :=
  JObj [("access_token", JStr "ya29.a0Af"); ("expires_in", JNum 3599);
        ("refresh_token", JStr "1//0gLr")].

Definition channels : json :=
  JObj [("items",
         JArr [JObj [("id", JStr "UC_x5XG1OV2P6uZZ5FSM9Ttw");
                     ("snippet", JObj [("title", JStr "Cooking & Co")])]])].

Definition peers (stored : Z) : world := {|
  send := fun request =>
    if String.eqb (req_url request) "https://oauth2.googleapis.com/token" then
      Ok {| status_code := 200; text := ""; json_body := Some tokens |}
    else if String.eqb (req_url request) "https://www.googleapis.com/youtube/v3/channels" then
      Ok {| status_code := 200; text := ""; json_body := Some channels |}
    else if String.eqb (req_url request) "http://context-hub-mcp:8001/channels/connect" then
      Ok {| status_code := stored; text := ""; json_body := None |}
    else Raise (RequestError "All connection attempts failed");
  status_error_text := fun r => "status error";
  py_repr := fun _ => "<repr>";
  lax_float_of := fun _ => None
|}.

Definition user : string := "550e8400-e29b-41d4-a716-446655440000".

End SampleFlow.

(** * Properties *)

(** ** Running the definitions on small inputs *)

Example uuid_examples :
  UUID.parse "00000000-0000-0000-0000-000000000001" = Ok 1%N
  /\ UUID.well_formed "00000000-0000-0000-0000-000000000001" = true
  /\ UUID.to_str 1%N = "00000000-0000-0000-0000-000000000001"
  /\ UUID.parse "urn:uuid:{550E8400-e29b-41d4-a716-446655440000}"
     = UUID.parse "550e8400e29b41d4a716446655440000"
  /\ UUID.parse "not-a-uuid" = Raise (ValueError "badly formed hexadecimal UUID string").
Proof. vm_compute. repeat split. Qed.

Example string_examples :
  Urllib.quote_plus "a b:c/d" = "a+b%3Ac%2Fd"
  /\ Urllib.unquote_plus "a+b%3Ac%2Fd" = "a b:c/d"
  /\ PyStr.split "," "a, b,,c" = ["a"; " b"; ""; "c"]
  /\ PyStr.rstrip "/" "http://x//" = "http://x"
  /\ PyStr.split_first ":" "u:t:x" = ("u", Some "t:x")
  /\ headers_set "X-Request-ID" "1" [("a", "b"); ("x-request-id", "0"); ("x-request-id", "2")]
     = [("a", "b"); ("x-request-id", "1")].
Proof. vm_compute. repeat split. Qed.

Example execute_examples :
  MCPClient.execute (Sample.answers 200 (Some Sample.plan_limit_body))
    (MCPClient.init default_settings) "u" "c" "m" None
  = Ok {| answer := "Plan limit reached"; confidence := 0; tools_used := [];
          content_type := None; tool_outputs := None; metadata := None;
          success := Some false; error := Some Sample.plan_limit_error |}
  /\ ExecuteRoute.execute
       (Sample.answers 200 (Some (JObj [("success", JBool false); ("error", JStr "boom")])))
       default_settings Sample.request
     = Raise (HTTPException 503 "MCP execution failed: boom")
  /\ ExecuteRoute.execute (Sample.fails (TimeoutException "timed out"))
       default_settings Sample.request
     = Raise (HTTPException 503 "MCP server request timed out after <repr> seconds").
Proof. vm_compute. repeat split. Qed.

(** ** The execute route *)

(** C5. [POST /api/v1/execute]: when the MCP client raises
    [MCPClientError], the route answers 503 and the detail is the text of
    that error; when it raises anything else, the route answers 500 with
    the detail "An unexpected error occurred"; when it returns, the route
    returns the same response, answered with 200. *)
Theorem execute_route_maps_client_outcome
    (w : world) (settings : Settings) (request : ExecuteRequest) (rq : Request) :
  let client := MCPClient.execute w (MCPClient.init settings) (user_id request)
                  (channel_id request) (message request) (request_metadata request) in
  (forall msg, client = Raise (MCPClientError msg) ->
     ExecuteRoute.execute w settings request = Raise (HTTPException 503 msg)
     /\ execute_reply w settings request rq
        = Ok (Framework.JSONResponse 503 (JObj [("detail", JStr msg)])))
  /\ (forall e, client = Raise e -> is_MCPClientError e = false ->
        ExecuteRoute.execute w settings request
        = Raise (HTTPException 500 "An unexpected error occurred")
        /\ execute_reply w settings request rq
           = Ok (Framework.JSONResponse 500
                   (JObj [("detail", JStr "An unexpected error occurred")])))
  /\ (forall r, client = Ok r ->
        ExecuteRoute.execute w settings request = Ok r
        /\ execute_reply w settings request rq
           = Ok (Framework.JSONResponse 200 (ExecuteResponse_json r))).
Proof.
  intros client. unfold execute_reply, Framework.route, ExecuteRoute.execute.
  fold client. repeat split.
  - rewrite H. reflexivity.
  - rewrite H. reflexivity.
  - rewrite H. destruct e; try discriminate; reflexivity.
  - rewrite H. destruct e; try discriminate; reflexivity.
  - rewrite H. reflexivity.
  - rewrite H. reflexivity.
Qed.

Lemma execute_route_maps_client_outcome_witness :
  execute_reply (Sample.answers 503 None) default_settings Sample.request
    (Sample.get "/api/v1/execute" [])
  = Ok (Framework.JSONResponse 503
          (JObj [("detail", JStr "MCP server request failed: status error")]))
  /\ execute_reply (Sample.answers 200 None) default_settings Sample.request
       (Sample.get "/api/v1/execute" [])
     = Ok (Framework.JSONResponse 500
             (JObj [("detail", JStr "An unexpected error occurred")]))
  /\ response_status <$> execute_reply (Sample.answers 200 (Some Sample.plan_limit_body))
       default_settings Sample.request (Sample.get "/api/v1/execute" [])
     = Ok 200.
Proof.
  split; [|split].
  - apply (proj1 (execute_route_maps_client_outcome (Sample.answers 503 None)
                    default_settings Sample.request (Sample.get "/api/v1/execute" []))
             "MCP server request failed: status error").
    reflexivity.
  - apply (proj1 (proj2 (execute_route_maps_client_outcome (Sample.answers 200 None)
                    default_settings Sample.request (Sample.get "/api/v1/execute" [])))
             (JSONDecodeError "Expecting value")); reflexivity.
  - destruct (execute_route_maps_client_outcome
                (Sample.answers 200 (Some Sample.plan_limit_body))
                default_settings Sample.request (Sample.get "/api/v1/execute" []))
      as (_ & _ & H).
    destruct (H _ eq_refl) as [_ ->]. reflexivity.
Defined.

(** ** The channel routes *)

Lemma is_success_bounds (r : http_response) :
  is_success r = true <-> 200 <= status_code r <= 299.
Proof.
  unfold is_success. rewrite andb_true_iff, !Z.leb_le. tauto.
Qed.



(** C4. [GET /api/v1/channel/top-video]: on a request error (MCP not
    reached) the handler returns the fallback payload, answered with 200.
    On a status outside 2xx the [HTTPStatusError] of [raise_for_status] is
    caught by no clause: it leaves the handler, no exception handler
    answers it, and the caller gets 500 whatever the status of MCP was. *)
Theorem top_video_outcomes
    (w : world) (settings : Settings) (user_id period uuid4 : string) (rq : Request) :
  let outcome := send w (Channel.top_video_request settings user_id period) in
  (forall e, outcome = Raise e -> is_RequestError e = true ->
     Channel.get_top_video w settings user_id period = Ok Channel.top_video_fallback
     /\ response_status (top_video_app w settings user_id period uuid4 rq) = 200
     /\ response_content (top_video_app w settings user_id period uuid4 rq)
        = Json Channel.top_video_fallback)
  /\ (forall r, outcome = Ok r -> is_success r = false ->
        Channel.get_top_video w settings user_id period
        = Raise (HTTPStatusError (status_code r) (status_error_text w r))
        /\ response_status (top_video_app w settings user_id period uuid4 rq) = 500).
Proof.
  intros outcome.
  unfold top_video_app, app, SecurityHeadersMiddleware.dispatch,
    RequestIDMiddleware.dispatch, Framework.route, Channel.get_top_video.
  fold outcome. split.
  - intros e -> He. destruct e; try discriminate; cbn; auto.
  - intros r -> Hfail. cbn. unfold raise_for_status. rewrite Hfail. cbn. auto.
Qed.

Lemma top_video_outcomes_witness :
  response_status (top_video_app Sample.unreachable default_settings
                     Channel.TEMP_USER_ID "7d" "generated"
                     (Sample.get "/api/v1/channel/top-video" [])) = 200
  /\ response_status (top_video_app (Sample.answers 404 None) default_settings
                        Channel.TEMP_USER_ID "7d" "generated"
                        (Sample.get "/api/v1/channel/top-video" [])) = 500
  /\ stats_reply (Sample.answers 404 None) default_settings Channel.TEMP_USER_ID "7d"
       (Sample.get "/api/v1/channel/stats" [])
     = Ok (Framework.JSONResponse 404
             (JObj [("detail", JStr "No connected YouTube channel found")])).
Proof.
  split; [|split].
  - destruct (top_video_outcomes Sample.unreachable default_settings
                Channel.TEMP_USER_ID "7d" "generated"
                (Sample.get "/api/v1/channel/top-video" [])) as (H & _).
    apply (H _ eq_refl). reflexivity.
  - destruct (top_video_outcomes (Sample.answers 404 None) default_settings
                Channel.TEMP_USER_ID "7d" "generated"
                (Sample.get "/api/v1/channel/top-video" [])) as (_ & H).
    apply (H _ eq_refl). reflexivity.
  - reflexivity.
Defined.

(** ** The user status route *)



(** ** The MCP client *)

Lemma py_get_dict (d : dict) (k : string) (v : json) :
  py_get (JObj d) k v = Ok (default v (dict_lookup k d)).
Proof. reflexivity. Qed.

Lemma bind_ok {A B} (a : A) (k : A -> res B) : (Ok a ≫= k) = k a.
Proof. reflexivity. Qed.

Lemma bind_raise {A B} (e : exn) (k : A -> res B) : (Raise e ≫= k) = Raise e.
Proof. reflexivity. Qed.

(** What [transform] does with a 2xx response whose body is an object. *)
Lemma transform_object (w : world) (r : http_response) (data : dict) :
  is_success r = true -> json_body r = Some (JObj data) ->
  MCPClient.transform w r =
  if reports_failure data then
    match plan_limit_error data with
    | Some err =>
        ExecuteResponse_init w
          (default (JStr "Plan limit reached") (dict_lookup "message" err))
          (JNum 0) (JArr []) JNull JNull
          (default JNull (dict_lookup "metadata" data)) (Some false) (JObj err)
    | None =>
        Raise (MCPClientError
                 ("MCP execution failed: "
                  ++ py_format w (default (JStr "Unknown error") (dict_lookup "error" data))))
    end
  else
    md ← py_get (default (JObj []) (dict_lookup "metadata" data)) "confidence" (JNum 0);
    ExecuteResponse_init w
      (let content := default JNull (dict_lookup "content" data) in
       if truthy content then content else JStr "")
      md
      (default (JArr []) (dict_lookup "tools_used" data))
      (default JNull (dict_lookup "content_type" data))
      (default JNull (dict_lookup "tool_outputs" data))
      (default JNull (dict_lookup "metadata" data))
      (Some true) JNull.
Proof.
  intros Hr Hbody.
  unfold MCPClient.transform, raise_for_status, response_json.
  rewrite Hr, Hbody. cbn.
  unfold reports_failure, plan_limit_error.
  destruct (negb (truthy (default (JBool false) (dict_lookup "success" data))));
    [|reflexivity].
  destruct (dict_lookup "error" data) as [[| | | |l|err]|]; cbn; try reflexivity.
  destruct (eq_str _ _); reflexivity.
Qed.

(** [execute] once the peer has answered. *)
Lemma execute_answered (w : world) (self : MCPClient.t)
    (user_id channel_id message : string) (metadata : option dict) (r : http_response) :
  send w (MCPClient.execute_request self user_id channel_id message metadata) = Ok r ->
  MCPClient.execute w self user_id channel_id message metadata =
  match MCPClient.transform w r with
  | Ok x => Ok x
  | Raise e =>
      if is_TimeoutException e then
        Raise (MCPClientError ("MCP server request timed out after "
                               ++ py_format w (JNum (MCPClient.timeout self)) ++ " seconds"))
      else if is_HTTPError e then
        Raise (MCPClientError ("MCP server request failed: " ++ str_exn e))
      else Raise e
  end.
Proof.
  intros Hsend. unfold MCPClient.execute. rewrite Hsend. cbn.
  destruct (MCPClient.transform w r); reflexivity.
Qed.

Lemma as_str_list_strings (l : list string) :
  Pydantic.as_str_list (JArr (JStr <$> l)) = Some l.
Proof.
  unfold Pydantic.as_str_list.
  induction l as [|s l IH]; [reflexivity|].
  cbn. cbn in IH. rewrite IH. reflexivity.
Qed.

(** C1, as amended.  A 2xx response whose body is an object with a falsy
    or absent [success]: when its [error] is an object of code
    "PLAN_LIMIT_REACHED" (with a [message] that is a string or absent, and
    a [metadata] that is an object, null or absent), [execute] returns a
    response with [success=False], confidence 0, no tools, the message (or
    "Plan limit reached") as answer and the error object attached;
    otherwise it raises [MCPClientError] with the upstream error.  On a
    status outside 2xx it raises [MCPClientError] with the text of the
    status error, whatever the body holds. *)
Theorem mcp_execute_failures
    (w : world) (self : MCPClient.t) (user_id channel_id message : string)
    (metadata : option dict) :
  let outcome :=
    send w (MCPClient.execute_request self user_id channel_id message metadata) in
  let result := MCPClient.execute w self user_id channel_id message metadata in
  (forall r data err text meta,
     outcome = Ok r -> is_success r = true -> json_body r = Some (JObj data) ->
     reports_failure data = true -> plan_limit_error data = Some err ->
     default (JStr "Plan limit reached") (dict_lookup "message" err) = JStr text ->
     Pydantic.as_opt_dict (default JNull (dict_lookup "metadata" data)) = Some meta ->
     result = Ok {| answer := text; confidence := 0; tools_used := [];
                    content_type := None; tool_outputs := None; metadata := meta;
                    success := Some false; error := Some err |})
  /\ (forall r data,
        outcome = Ok r -> is_success r = true -> json_body r = Some (JObj data) ->
        reports_failure data = true -> plan_limit_error data = None ->
        result = Raise (MCPClientError
                          ("MCP execution failed: "
                           ++ py_format w (default (JStr "Unknown error")
                                             (dict_lookup "error" data)))))
  /\ (forall r,
        outcome = Ok r -> is_success r = false ->
        result = Raise (MCPClientError
                          ("MCP server request failed: " ++ status_error_text w r))).
Proof.
  intros outcome result. subst outcome result. split; [|split].
  - intros r data err text meta Hsend Hr Hbody Hfail Hplan Htext Hmeta.
    rewrite (execute_answered _ _ _ _ _ _ _ Hsend), (transform_object _ _ _ Hr Hbody).
    rewrite Hfail, Hplan, Htext.
    unfold ExecuteResponse_init. rewrite Hmeta. reflexivity.
  - intros r data Hsend Hr Hbody Hfail Hplan.
    rewrite (execute_answered _ _ _ _ _ _ _ Hsend), (transform_object _ _ _ Hr Hbody).
    rewrite Hfail, Hplan. reflexivity.
  - intros r Hsend Hr.
    rewrite (execute_answered _ _ _ _ _ _ _ Hsend).
    unfold MCPClient.transform, raise_for_status. rewrite Hr. reflexivity.
Qed.

Lemma mcp_execute_failures_witness :
  MCPClient.execute (Sample.answers 200 (Some Sample.plan_limit_body))
    (MCPClient.init default_settings) "u" "c" "m" None
  = Ok {| answer := "Plan limit reached"; confidence := 0; tools_used := [];
          content_type := None; tool_outputs := None; metadata := None;
          success := Some false; error := Some Sample.plan_limit_error |}
  /\ MCPClient.execute
       (Sample.answers 200 (Some (JObj [("success", JBool false); ("error", JStr "boom")])))
       (MCPClient.init default_settings) "u" "c" "m" None
     = Raise (MCPClientError "MCP execution failed: boom")
  /\ MCPClient.execute (Sample.answers 429 (Some Sample.plan_limit_body))
       (MCPClient.init default_settings) "u" "c" "m" None
     = Raise (MCPClientError "MCP server request failed: status error").
Proof.
  split; [|split].
  - destruct (mcp_execute_failures (Sample.answers 200 (Some Sample.plan_limit_body))
                (MCPClient.init default_settings) "u" "c" "m" None) as (H & _).
    eapply H; reflexivity.
  - destruct (mcp_execute_failures
                (Sample.answers 200
                   (Some (JObj [("success", JBool false); ("error", JStr "boom")])))
                (MCPClient.init default_settings) "u" "c" "m" None) as (_ & H & _).
    apply (H _ [("success", JBool false); ("error", JStr "boom")] eq_refl); reflexivity.
  - destruct (mcp_execute_failures (Sample.answers 429 (Some Sample.plan_limit_body))
                (MCPClient.init default_settings) "u" "c" "m" None) as (_ & _ & H).
    apply (H _ eq_refl); reflexivity.
Defined.

(** C1, as stated, fails: the plan-limit body behind a status outside 2xx
    (here 429) makes [execute] raise, not return. *)
Lemma plan_limit_behind_error_status_raises :
  is_success {| status_code := 429; text := ""; json_body := Some Sample.plan_limit_body |}
  = false
  /\ plan_limit_error [("success", JBool false); ("error", JObj Sample.plan_limit_error)]
     = Some Sample.plan_limit_error
  /\ MCPClient.execute (Sample.answers 429 (Some Sample.plan_limit_body))
       (MCPClient.init default_settings) "u" "c" "m" None
     = Raise (MCPClientError "MCP server request failed: status error")
  /\ ~ (exists r, MCPClient.execute (Sample.answers 429 (Some Sample.plan_limit_body))
                    (MCPClient.init default_settings) "u" "c" "m" None = Ok r).
Proof.
  repeat split. intros [r Hr]. discriminate Hr.
Qed.




(** A [metadata] that is null: [data.get("metadata", {})] is [None] and
    reading its confidence raises [AttributeError]. *)
Lemma metadata_null_raises :
  MCPClient.execute
    (Sample.answers 200
       (Some (JObj [("success", JBool true); ("content", JStr "hi");
                    ("metadata", JNull)])))
    (MCPClient.init default_settings) "u" "c" "m" None
  = Raise (AttributeError "object has no attribute 'get'").
Proof. reflexivity. Qed.

(** ** The request-id middleware *)

Lemma headers_get_raw_filter (k k' : string) (h : headers) :
  k <> k' ->
  headers_get_raw k (List.filter (fun p => negb (String.eqb (fst p) k')) h)
  = headers_get_raw k h.
Proof.
  intros Hne. induction h as [|[a v] h IH]; [reflexivity|].
  cbn. destruct (String.eqb_spec a k') as [->|Ha]; cbn.
  - destruct (String.eqb_spec k' k) as [->|_]; [congruence|]. exact IH.
  - destruct (String.eqb_spec a k); [reflexivity|]. exact IH.
Qed.

Lemma headers_get_raw_set_same (k v : string) (h : headers) :
  headers_get_raw k (headers_set_raw k v h) = Some v.
Proof.
  induction h as [|[a x] h IH]; cbn.
  - rewrite String.eqb_refl. reflexivity.
  - destruct (String.eqb_spec a k) as [->|Ha]; cbn.
    + rewrite String.eqb_refl. reflexivity.
    + destruct (String.eqb_spec a k); [congruence|]. exact IH.
Qed.

Lemma headers_get_raw_set_other (k k' v : string) (h : headers) :
  k <> k' ->
  headers_get_raw k (headers_set_raw k' v h) = headers_get_raw k h.
Proof.
  intros Hne. induction h as [|[a x] h IH]; cbn.
  - destruct (String.eqb_spec k' k); [congruence|reflexivity].
  - destruct (String.eqb_spec a k') as [->|Ha]; cbn.
    + destruct (String.eqb_spec k' k); [congruence|].
      apply headers_get_raw_filter, Hne.
    + destruct (String.eqb_spec a k); [reflexivity|]. exact IH.
Qed.

(** Setting a header and reading it back; setting another one. *)
Lemma headers_get_set_same (key v : string) (h : headers) :
  headers_get key (headers_set key v h) = Some v.
Proof. apply headers_get_raw_set_same. Qed.

Lemma headers_get_set_other (key key' v : string) (h : headers) :
  PyStr.lower key <> PyStr.lower key' ->
  headers_get key (headers_set key' v h) = headers_get key h.
Proof. apply headers_get_raw_set_other. Qed.

(** [dispatch] puts the request id on the response it is handed. *)
Lemma dispatch_sets_request_id (uuid4 : string) (request : Request)
    (call_next : Request -> res Response) (response : Response) :
  let id := RequestIDMiddleware.request_id request uuid4 in
  call_next (with_request_id request id) = Ok response ->
  RequestIDMiddleware.dispatch uuid4 request call_next
  = Ok (set_header RequestIDMiddleware.REQUEST_ID_HEADER id response).
Proof.
  intros id H. unfold RequestIDMiddleware.dispatch. fold id.
  unfold with_request_id in H. rewrite H. reflexivity.
Qed.




(** An exception that is not an [HTTPException] passes [dispatch], which
    sets no header; the 500 that answers it carries no [X-Request-ID]. *)
Lemma unhandled_exception_has_no_request_id
    (uuid4 : string) (handler : Request -> res json) (request : Request) :
  answered (handler (with_request_id request
                       (RequestIDMiddleware.request_id request uuid4))) = false ->
  response_status (app uuid4 handler request) = 500
  /\ headers_get "X-Request-ID" (response_headers (app uuid4 handler request)) = None.
Proof.
  intros H. unfold app, SecurityHeadersMiddleware.dispatch,
    RequestIDMiddleware.dispatch, Framework.route.
  unfold with_request_id in H.
  destruct (handler _) as [v|[]]; try discriminate; split; reflexivity.
Qed.

(** ** The OAuth state *)

(** [uuid.UUID] raises nothing but [ValueError]. *)
Lemma parse_raises_ValueError (s : string) (e : exn) :
  UUID.parse s = Raise e -> exists msg, e = ValueError msg.
Proof.
  unfold UUID.parse.
  destruct (negb _); [intros [= <-]; eauto|].
  destruct (UUID.int16 _ _); [discriminate|]. intros [= <-]. eauto.
Qed.

#[local] Arguments Ascii.eqb : simpl never.
#[local] Arguments String.eqb : simpl never.

Lemma app_cons (x : ascii) (a b : string) : String x a ++ b = String x (a ++ b).
Proof. reflexivity. Qed.

Lemma app_nil_l (b : string) : "" ++ b = b.
Proof. reflexivity. Qed.

Lemma contains_app (c : ascii) (a b : string) :
  PyStr.contains c (a ++ b) = PyStr.contains c a || PyStr.contains c b.
Proof.
  unfold PyStr.contains. induction a as [|x a IH]; [reflexivity|].
  rewrite app_cons. cbn. destruct (Ascii.eqb c x); [reflexivity|]. exact IH.
Qed.

(** Splitting ["u:t"] at the first colon, for a [u] without colon. *)
Lemma split_first_colon (u t : string) :
  PyStr.contains ":" u = false ->
  PyStr.split_first ":" (u ++ ":" ++ t) = (u, Some t).
Proof.
  unfold PyStr.contains. induction u as [|x u IH]; [reflexivity|].
  rewrite app_cons. cbn.
  destruct (Ascii.eqb_spec ":" x) as [<-|Hx]; [discriminate|].
  intros H. destruct (Ascii.eqb_spec x ":") as [->|_]; [congruence|].
  rewrite (IH H). reflexivity.
Qed.

Lemma contains_colon_state (u t : string) :
  PyStr.contains ":" (u ++ ":" ++ t) = true.
Proof. rewrite contains_app. apply orb_true_r. Qed.

(** [_validate_state] on ["u:t"], for a [u] without colon that is a UUID. *)
Lemma validate_state_token (u t : string) (v : UUID.t)
    (pending : YouTubeAuth.pending_states) :
  PyStr.contains ":" u = false -> UUID.parse u = Ok v ->
  YouTubeAuth._validate_state (u ++ ":" ++ t) pending =
  (match pending !! t with
   | None => Raise (ValueError "Unknown or expired state token")
   | Some stored =>
       if String.eqb stored u then Ok v
       else Raise (ValueError "State token user_id mismatch")
   end, delete t pending).
Proof.
  intros Hu Hv. unfold YouTubeAuth._validate_state.
  rewrite contains_colon_state, (split_first_colon _ _ Hu). cbn [negb default from_option id].
  rewrite Hv. destruct (pending !! t) as [stored|]; [|reflexivity].
  destruct (String.eqb stored u); reflexivity.
Qed.

(** C9. A [state] without colon is read as a bare user id: the pending
    states are neither consulted nor changed; when it parses as a UUID the
    callback goes on for that user, and when it does not, the callback
    stops with the error redirect. *)
Theorem legacy_state_is_bare_user_id
    (w : world) (settings : Settings) (code state : string)
    (pending : YouTubeAuth.pending_states) :
  PyStr.contains ":" state = false ->
  YouTubeAuth._validate_state state pending = (UUID.parse state, pending)
  /\ (forall u, UUID.parse state = Ok u ->
        YouTubeAuth.youtube_auth_callback w settings code state pending
        = (YouTubeAuth.connect_channel w settings code u, pending))
  /\ (forall e, UUID.parse state = Raise e ->
        YouTubeAuth.youtube_auth_callback w settings code state pending
        = (Ok (YouTubeAuth.error_redirect (str_exn e)), pending)).
Proof.
  intros Hcolon.
  assert (Hv : YouTubeAuth._validate_state state pending = (UUID.parse state, pending)).
  { unfold YouTubeAuth._validate_state. rewrite Hcolon. reflexivity. }
  split; [exact Hv|]. unfold YouTubeAuth.youtube_auth_callback. rewrite Hv. split.
  - intros u ->. reflexivity.
  - intros e He. rewrite He.
    destruct (parse_raises_ValueError _ _ He) as [msg ->]. reflexivity.
Qed.

Lemma legacy_state_is_bare_user_id_witness :
  YouTubeAuth._validate_state "00000000-0000-0000-0000-000000000001" ∅ = (Ok 1%N, ∅)
  /\ YouTubeAuth.youtube_auth_callback Sample.unreachable default_settings "code"
       "not a uuid" ∅
     = (Ok (YouTubeAuth.error_redirect "badly formed hexadecimal UUID string"), ∅).
Proof.
  split.
  - apply (legacy_state_is_bare_user_id Sample.unreachable default_settings "code"
             "00000000-0000-0000-0000-000000000001" ∅ eq_refl).
  - destruct (legacy_state_is_bare_user_id Sample.unreachable default_settings "code"
                "not a uuid" ∅ eq_refl) as (_ & _ & H).
    apply (H _ eq_refl).
Defined.

(** C10. Redeeming ["u:t"] when [t] is pending for another user than [u]:
    the call fails with the mismatch error, and [t] is gone from the
    pending states all the same; redeeming any ["u':t"] afterwards fails
    with "Unknown or expired state token". *)
Theorem mismatch_consumes_token
    (u t stored : string) (v : UUID.t) (pending : YouTubeAuth.pending_states) :
  PyStr.contains ":" u = false -> UUID.parse u = Ok v ->
  pending !! t = Some stored -> stored <> u ->
  let '(result, pending') := YouTubeAuth._validate_state (u ++ ":" ++ t) pending in
  result = Raise (ValueError "State token user_id mismatch")
  /\ pending' = delete t pending
  /\ pending' !! t = None
  /\ (forall u' v', PyStr.contains ":" u' = false -> UUID.parse u' = Ok v' ->
        (YouTubeAuth._validate_state (u' ++ ":" ++ t) pending').1
        = Raise (ValueError "Unknown or expired state token")).
Proof.
  intros Hu Hv Hstored Hne.
  rewrite (validate_state_token _ _ _ _ Hu Hv), Hstored.
  destruct (String.eqb_spec stored u); [congruence|].
  split; [reflexivity|]. split; [reflexivity|]. split; [apply lookup_delete_eq|].
  intros u' v' Hu' Hv'.
  rewrite (validate_state_token _ _ _ _ Hu' Hv'), lookup_delete_eq. reflexivity.
Qed.

Lemma mismatch_consumes_token_witness :
  let '(result, pending') :=
    YouTubeAuth._validate_state
      ("00000000-0000-0000-0000-000000000002" ++ ":" ++ "tok")
      {["tok" := "00000000-0000-0000-0000-000000000001"]} in
  result = Raise (ValueError "State token user_id mismatch")
  /\ pending' = delete "tok" {["tok" := "00000000-0000-0000-0000-000000000001"]}
  /\ pending' !! "tok" = None
  /\ (forall u' v', PyStr.contains ":" u' = false -> UUID.parse u' = Ok v' ->
        (YouTubeAuth._validate_state (u' ++ ":" ++ "tok") pending').1
        = Raise (ValueError "Unknown or expired state token")).
Proof.
  apply (mismatch_consumes_token "00000000-0000-0000-0000-000000000002" "tok"
           "00000000-0000-0000-0000-000000000001" 2%N
           {["tok" := "00000000-0000-0000-0000-000000000001"]}).
  - reflexivity.
  - reflexivity.
  - apply lookup_singleton_eq.
  - discriminate.
Defined.

(** ** Well-formed UUIDs *)

Lemma app_assoc (a b c : string) : (a ++ b) ++ c = a ++ b ++ c.
Proof.
  induction a as [|x a IH]; [reflexivity|].
  rewrite !app_cons, IH. reflexivity.
Qed.

Lemma app_nil_r (a : string) : a ++ "" = a.
Proof.
  induction a as [|x a IH]; [reflexivity|]. rewrite app_cons, IH. reflexivity.
Qed.

Lemma length_app (a b : string) :
  String.length (a ++ b) = (String.length a + String.length b)%nat.
Proof.
  induction a as [|x a IH]; [reflexivity|].
  rewrite app_cons. cbn. rewrite IH. reflexivity.
Qed.

Lemma all_app (p : ascii -> bool) (a b : string) :
  PyStr.all p (a ++ b) = PyStr.all p a && PyStr.all p b.
Proof.
  induction a as [|x a IH]; [reflexivity|].
  rewrite app_cons. cbn. rewrite IH. apply andb_assoc.
Qed.

Lemma all_impl (p q : ascii -> bool) (s : string) :
  (forall c, p c = true -> q c = true) ->
  PyStr.all p s = true -> PyStr.all q s = true.
Proof.
  intros Hpq. induction s as [|x s IH]; [reflexivity|].
  cbn. rewrite !andb_true_iff. intros [Hx Hs]. auto.
Qed.

(** What the characters of a well-formed UUID are not, and that [quote]
    leaves them alone. *)
Lemma plain_facts (c : ascii) :
  plain c = true ->
  Ascii.eqb "u" c = false /\ Ascii.eqb ":" c = false /\ PyStr.mem c "{}" = false
  /\ Urllib.always_safe c = true /\ Ascii.eqb c "+" = false /\ Ascii.eqb c "%" = false
  /\ Ascii.eqb c " " = false.
Proof.
  destruct c as [[] [] [] [] [] [] [] []]; vm_compute; intros H;
    try discriminate H; repeat split.
Qed.

Lemma hex_not_dash (c : ascii) : PyStr.is_hex c = true -> Ascii.eqb "-" c = false.
Proof.
  destruct c as [[] [] [] [] [] [] [] []]; vm_compute; intros H;
    try discriminate H; reflexivity.
Qed.

Lemma token_char_facts (c : ascii) :
  PyStr.is_alnum c || PyStr.mem c "-_" = true ->
  Urllib.always_safe c = true /\ Ascii.eqb c "+" = false /\ Ascii.eqb c "%" = false
  /\ Ascii.eqb c " " = false.
Proof.
  destruct c as [[] [] [] [] [] [] [] []]; vm_compute; intros H;
    try discriminate H; repeat split.
Qed.

Lemma hex_run_split (n : nat) (s r : string) :
  UUID.hex_run n s = Some r ->
  exists h, s = h ++ r /\ String.length h = n /\ PyStr.all PyStr.is_hex h = true.
Proof.
  revert s. induction n as [|n IH]; intros s; cbn.
  - intros [= ->]. exists "". auto.
  - destruct s as [|c s]; [discriminate|].
    destruct (PyStr.is_hex c) eqn:Hc; [|discriminate].
    intros H. destruct (IH _ H) as (h & -> & Hlen & Hall).
    exists (String c h). cbn. rewrite Hc, Hlen, Hall. auto.
Qed.

Lemma dash_then_split (n : nat) (o : option string) (r : string) :
  UUID.dash_then n o = Some r ->
  exists s h, o = Some s /\ s = "-" ++ h ++ r /\ String.length h = n
              /\ PyStr.all PyStr.is_hex h = true.
Proof.
  unfold UUID.dash_then. destruct o as [[|c s]|]; try discriminate.
  destruct (Ascii.eqb_spec c "-") as [->|]; [|discriminate].
  intros H. destruct (hex_run_split _ _ _ H) as (h & -> & Hlen & Hall).
  exists (String "-" (h ++ r)), h. auto.
Qed.

(** The five groups of a well-formed UUID. *)
Lemma well_formed_groups (u : string) :
  UUID.well_formed u = true ->
  exists a b c d e,
    u = a ++ "-" ++ b ++ "-" ++ c ++ "-" ++ d ++ "-" ++ e
    /\ String.length (a ++ b ++ c ++ d ++ e) = 32%nat
    /\ PyStr.all PyStr.is_hex (a ++ b ++ c ++ d ++ e) = true.
Proof.
  unfold UUID.well_formed.
  destruct (UUID.dash_then 12 _) as [[|]|] eqn:H5; try discriminate. intros _.
  destruct (dash_then_split _ _ _ H5) as (s4 & e & H4 & -> & Le & He).
  destruct (dash_then_split _ _ _ H4) as (s3 & d & H3 & -> & Ld & Hd).
  destruct (dash_then_split _ _ _ H3) as (s2 & c & H2 & -> & Lc & Hc).
  destruct (dash_then_split _ _ _ H2) as (s1 & b & H1 & -> & Lb & Hb).
  destruct (hex_run_split _ _ _ H1) as (a & -> & La & Ha).
  exists a, b, c, d, e. split; [|split].
  - rewrite app_nil_r. reflexivity.
  - rewrite !length_app, La, Lb, Lc, Ld, Le. reflexivity.
  - rewrite !all_app, Ha, Hb, Hc, Hd, He. reflexivity.
Qed.

Lemma remove_absent (a : ascii) (p s : string) :
  PyStr.all (fun c => negb (Ascii.eqb a c)) s = true ->
  PyStr.remove (String a p) s = s.
Proof.
  unfold PyStr.remove. induction s as [|c s IH]; [reflexivity|].
  cbn. destruct (Ascii.eqb a c); [discriminate|].
  cbn. intros H. rewrite (IH H). reflexivity.
Qed.

Lemma rstrip_absent (chars s : string) :
  PyStr.all (fun c => negb (PyStr.mem c chars)) s = true ->
  PyStr.rstrip chars s = s.
Proof.
  induction s as [|c s IH]; [reflexivity|].
  cbn. destruct (PyStr.mem c chars); [discriminate|].
  cbn. intros H. rewrite (IH H). destruct s; reflexivity.
Qed.

Lemma strip_absent (chars s : string) :
  PyStr.all (fun c => negb (PyStr.mem c chars)) s = true ->
  PyStr.strip chars s = s.
Proof.
  intros H. unfold PyStr.strip.
  assert (Hl : PyStr.lstrip chars s = s).
  { destruct s as [|c s]; [reflexivity|]. cbn in H |- *.
    destruct (PyStr.mem c chars); [discriminate|reflexivity]. }
  rewrite Hl. apply rstrip_absent, H.
Qed.

Lemma remove_dash_cons (c : ascii) (s : string) :
  PyStr.remove "-" (String c s)
  = if Ascii.eqb "-" c then PyStr.remove "-" s else String c (PyStr.remove "-" s).
Proof.
  unfold PyStr.remove. cbn. destruct (Ascii.eqb "-" c); reflexivity.
Qed.

Lemma remove_dash_app (a b : string) :
  PyStr.remove "-" (a ++ b) = PyStr.remove "-" a ++ PyStr.remove "-" b.
Proof.
  induction a as [|c a IH]; [reflexivity|].
  rewrite app_cons, !remove_dash_cons, IH.
  destruct (Ascii.eqb "-" c); reflexivity.
Qed.

Lemma remove_dash_hex (h : string) :
  PyStr.all PyStr.is_hex h = true -> PyStr.remove "-" h = h.
Proof.
  intros H. apply remove_absent. revert H. apply all_impl.
  intros c Hc. rewrite (hex_not_dash c Hc). reflexivity.
Qed.

Lemma int16_hex (s : string) (acc : N) :
  PyStr.all PyStr.is_hex s = true -> exists n, UUID.int16 acc s = Some n.
Proof.
  revert acc. induction s as [|c s IH]; intros acc; cbn; [eauto|].
  unfold PyStr.is_hex at 1. destruct (PyStr.hex_value c); [|discriminate].
  cbn. intros H. apply IH, H.
Qed.

Lemma hex_plain (h : string) :
  PyStr.all PyStr.is_hex h = true -> PyStr.all plain h = true.
Proof.
  apply all_impl. intros x Hx. unfold plain. rewrite Hx. reflexivity.
Qed.

Lemma groups_plain (a b c d e : string) :
  PyStr.all PyStr.is_hex (a ++ b ++ c ++ d ++ e) = true ->
  PyStr.all plain (a ++ "-" ++ b ++ "-" ++ c ++ "-" ++ d ++ "-" ++ e) = true.
Proof.
  intros H. rewrite !all_app, !andb_true_iff in H.
  destruct H as (Ha & Hb & Hc & Hd & He).
  rewrite !all_app, (hex_plain a Ha), (hex_plain b Hb), (hex_plain c Hc),
    (hex_plain d Hd), (hex_plain e He).
  reflexivity.
Qed.

Lemma well_formed_plain (u : string) :
  UUID.well_formed u = true -> PyStr.all plain u = true.
Proof.
  intros H. destruct (well_formed_groups u H) as (a & b & c & d & e & -> & _ & Hall).
  apply groups_plain, Hall.
Qed.

(** The digits [UUID] reads from a well-formed UUID are its five groups. *)
Lemma well_formed_digits (a b c d e : string) :
  PyStr.all PyStr.is_hex (a ++ b ++ c ++ d ++ e) = true ->
  UUID.digits (a ++ "-" ++ b ++ "-" ++ c ++ "-" ++ d ++ "-" ++ e)
  = a ++ b ++ c ++ d ++ e.
Proof.
  intros Hall. pose proof (groups_plain _ _ _ _ _ Hall) as Hplain.
  unfold UUID.digits.
  rewrite (remove_absent "u" "rn:"), (remove_absent "u" "uid:"), strip_absent.
  - rewrite !all_app in Hall. rewrite !andb_true_iff in Hall.
    destruct Hall as (Ha & Hb & Hc & Hd & He).
    rewrite !remove_dash_app, (remove_dash_hex a Ha), (remove_dash_hex b Hb),
      (remove_dash_hex c Hc), (remove_dash_hex d Hd), (remove_dash_hex e He).
    reflexivity.
  - revert Hplain. apply all_impl. intros x Hx.
    destruct (plain_facts x Hx) as (_ & _ & -> & _). reflexivity.
  - revert Hplain. apply all_impl. intros x Hx.
    destruct (plain_facts x Hx) as (-> & _). reflexivity.
  - revert Hplain. apply all_impl. intros x Hx.
    destruct (plain_facts x Hx) as (-> & _). reflexivity.
Qed.

(** [uuid.UUID] accepts every well-formed UUID. *)
Lemma well_formed_parses (u : string) :
  UUID.well_formed u = true -> exists v, UUID.parse u = Ok v.
Proof.
  intros H. destruct (well_formed_groups u H) as (a & b & c & d & e & -> & Hlen & Hall).
  unfold UUID.parse. rewrite (well_formed_digits _ _ _ _ _ Hall), Hlen.
  destruct (int16_hex _ 0%N Hall) as [n ->]. cbn. eauto.
Qed.

Lemma mem_all_false (c : ascii) (s : string) :
  PyStr.all (fun x => negb (Ascii.eqb c x)) s = true -> PyStr.mem c s = false.
Proof.
  induction s as [|x s IH]; [reflexivity|].
  cbn. destruct (Ascii.eqb c x); [discriminate|]. exact IH.
Qed.

(** A well-formed UUID holds no colon. *)
Lemma well_formed_no_colon (u : string) :
  UUID.well_formed u = true -> PyStr.contains ":" u = false.
Proof.
  intros H. apply mem_all_false. generalize (well_formed_plain u H).
  apply all_impl. intros x Hx.
  destruct (plain_facts x Hx) as (_ & -> & _). reflexivity.
Qed.

(** ** Query strings *)

Lemma quote_app (safe a b : string) :
  Urllib.quote safe (a ++ b) = Urllib.quote safe a ++ Urllib.quote safe b.
Proof.
  induction a as [|c a IH]; [reflexivity|].
  rewrite app_cons. cbn [Urllib.quote]. rewrite IH, app_assoc. reflexivity.
Qed.

Lemma space_to_plus_app (a b : string) :
  Urllib.space_to_plus (a ++ b) = Urllib.space_to_plus a ++ Urllib.space_to_plus b.
Proof.
  induction a as [|c a IH]; [reflexivity|].
  rewrite app_cons. cbn [Urllib.space_to_plus]. rewrite IH. reflexivity.
Qed.

Lemma quote_plus_app (a b : string) :
  Urllib.quote_plus (a ++ b) = Urllib.quote_plus a ++ Urllib.quote_plus b.
Proof. unfold Urllib.quote_plus. rewrite quote_app. apply space_to_plus_app. Qed.

Lemma always_safe_facts (c : ascii) :
  Urllib.always_safe c = true ->
  Ascii.eqb c "+" = false /\ Ascii.eqb c "%" = false /\ Ascii.eqb c " " = false.
Proof.
  destruct c as [[] [] [] [] [] [] [] []]; vm_compute; intros H;
    try discriminate H; repeat split.
Qed.

(** [quote_plus] leaves a text of safe characters as it is. *)
Lemma quote_plus_safe (s : string) :
  PyStr.all Urllib.always_safe s = true -> Urllib.quote_plus s = s.
Proof.
  unfold Urllib.quote_plus. induction s as [|c s IH]; [reflexivity|].
  cbn [PyStr.all Urllib.quote]. rewrite andb_true_iff. intros [Hc Hs].
  rewrite Hc. cbn [orb]. rewrite app_cons, app_nil_l. cbn [Urllib.space_to_plus].
  destruct (always_safe_facts c Hc) as (_ & _ & ->). rewrite (IH Hs). reflexivity.
Qed.

(** [unquote_plus] leaves a text of safe characters as it is. *)
Lemma unquote_plus_safe_app (s r : string) :
  PyStr.all Urllib.always_safe s = true ->
  Urllib.unquote_plus (s ++ r) = s ++ Urllib.unquote_plus r.
Proof.
  induction s as [|c s IH]; [reflexivity|].
  cbn [PyStr.all]. rewrite andb_true_iff. intros [Hc Hs].
  rewrite !app_cons. cbn [Urllib.unquote_plus].
  destruct (always_safe_facts c Hc) as (-> & -> & _). rewrite (IH Hs). reflexivity.
Qed.

(** One character through [quote_plus] and back. *)
Lemma unquote_quote_plus_cons (c : ascii) (r : string) :
  Urllib.unquote_plus (Urllib.quote_plus (String c r))
  = String c (Urllib.unquote_plus (Urllib.quote_plus r)).
Proof.
  destruct c as [[] [] [] [] [] [] [] []]; reflexivity.
Qed.

(** What [quote_plus] writes, [unquote_plus] reads back. *)
Lemma unquote_quote_plus (s : string) :
  Urllib.unquote_plus (Urllib.quote_plus s) = s.
Proof.
  induction s as [|c s IH]; [reflexivity|].
  rewrite unquote_quote_plus_cons, IH. reflexivity.
Qed.

Lemma join_snoc (sep : string) (l : list string) (x y : string) :
  PyStr.join sep ((x :: l) ++ [y]) = PyStr.join sep (x :: l) ++ sep ++ y.
Proof.
  revert x. induction l as [|z l IH]; intros x; [reflexivity|].
  change (PyStr.join sep ((x :: z :: l) ++ [y]))
    with (x ++ sep ++ PyStr.join sep ((z :: l) ++ [y])).
  change (PyStr.join sep (x :: z :: l)) with (x ++ sep ++ PyStr.join sep (z :: l)).
  rewrite IH, !app_assoc. reflexivity.
Qed.

(** The query string of the authorization URL ends with the state. *)
Lemma auth_query_ends_with_state (user_id state_token : string) (settings : Settings) :
  exists params,
    Urllib.urlencode (YouTubeAuth.auth_params user_id settings state_token)
    = params ++ "&state=" ++ Urllib.quote_plus (user_id ++ ":" ++ state_token).
Proof.
  unfold YouTubeAuth.auth_params, Urllib.urlencode.
  match goal with
  | |- context [PyStr.join _ (map ?f [?a; ?b; ?c; ?d; ?e; ?g; ?h])] =>
      exists (PyStr.join "&" (map f [a; b; c; d; e; g]));
      change (map f [a; b; c; d; e; g; h])
        with ((f a :: map f [b; c; d; e; g]) ++ [f h])%list
  end.
  rewrite join_snoc. reflexivity.
Qed.

(** ** Starting the OAuth flow *)

(** The text of the state in the query string, for a well-formed UUID and
    a URL-safe token. *)
Lemma quoted_state (u tok : string) :
  UUID.well_formed u = true -> is_urlsafe_token tok = true ->
  Urllib.quote_plus (u ++ ":" ++ tok) = u ++ "%3A" ++ tok.
Proof.
  intros Hu Htok.
  change (u ++ ":" ++ tok) with (u ++ (":" ++ tok)).
  rewrite !quote_plus_app, (quote_plus_safe tok), (quote_plus_safe u); [reflexivity| |].
  - generalize (well_formed_plain u Hu). apply all_impl. intros c Hc.
    destruct (plain_facts c Hc) as (_ & _ & _ & -> & _). reflexivity.
  - unfold is_urlsafe_token in Htok. apply andb_true_iff in Htok as [_ Htok].
    revert Htok. apply all_impl. intros c Hc.
    destruct (token_char_facts c Hc) as (-> & _). reflexivity.
Qed.

(** C2. For a well-formed UUID [u], with the client id and the redirect
    URI configured, [/auth/youtube/start] answers 200 with an [auth_url]
    whose [state] parameter is [u], a colon and the token, which is not
    empty; redeeming that state once succeeds and gives the user [u];
    redeeming it again fails with "Unknown or expired state token". *)
Theorem start_state_redeemed_once
    (settings : Settings) (u tok : string) (pending : YouTubeAuth.pending_states)
    (rq : Request) :
  UUID.well_formed u = true ->
  google_client_id settings <> "" ->
  google_redirect_uri settings <> "" ->
  is_urlsafe_token tok = true ->
  let state := u ++ ":" ++ tok in
  let url := google_auth_url settings ++ "?"
             ++ Urllib.urlencode (YouTubeAuth.auth_params u settings tok) in
  let p1 := <[tok := u]> pending in
  let p2 := delete tok p1 in
  YouTubeAuth.youtube_auth_start settings u tok pending
  = (Ok {| YouTubeAuth.auth_url := url |}, p1)
  /\ Framework.route
       (fun _ => AuthUrlResponse_json
                   <$> (YouTubeAuth.youtube_auth_start settings u tok pending).1) rq
     = Ok (Framework.JSONResponse 200 (JObj [("auth_url", JStr url)]))
  /\ (exists front, url = front ++ "&state=" ++ u ++ "%3A" ++ tok)
  /\ Urllib.unquote_plus (u ++ "%3A" ++ tok) = state
  /\ tok <> ""
  /\ exists v,
       UUID.parse u = Ok v
       /\ YouTubeAuth._validate_state state p1 = (Ok v, p2)
       /\ YouTubeAuth._validate_state state p2
          = (Raise (ValueError "Unknown or expired state token"), p2).
Proof.
  intros Hu Hid Huri Htok state url p1 p2.
  destruct (well_formed_parses u Hu) as [v Hv].
  pose proof (well_formed_no_colon u Hu) as Hcolon.
  assert (Hstart : YouTubeAuth.youtube_auth_start settings u tok pending
                   = (Ok {| YouTubeAuth.auth_url := url |}, p1)).
  { unfold YouTubeAuth.youtube_auth_start.
    apply String.eqb_neq in Hid, Huri. rewrite Hid, Huri, Hv. reflexivity. }
  split; [exact Hstart|]. split; [rewrite Hstart; reflexivity|].
  split; [|split; [|split]].
  - destruct (auth_query_ends_with_state u tok settings) as [params Hq].
    exists (google_auth_url settings ++ "?" ++ params).
    subst url. rewrite Hq, (quoted_state u tok Hu Htok), !app_assoc. reflexivity.
  - rewrite <- (quoted_state u tok Hu Htok). apply unquote_quote_plus.
  - intros ->. discriminate Htok.
  - exists v. split; [exact Hv|]. subst state p2 p1. split.
    + rewrite (validate_state_token _ _ _ _ Hcolon Hv), lookup_insert_eq, String.eqb_refl.
      reflexivity.
    + rewrite (validate_state_token _ _ _ _ Hcolon Hv), lookup_delete_eq, delete_delete_eq.
      reflexivity.
Qed.

Lemma start_state_redeemed_once_witness :
  exists url,
    YouTubeAuth.youtube_auth_start Sample.configured
      "550e8400-e29b-41d4-a716-446655440000" "q1w2e3r4t5y6u7i8o9p0Az" ∅
    = (Ok {| YouTubeAuth.auth_url := url |},
       {["q1w2e3r4t5y6u7i8o9p0Az" := "550e8400-e29b-41d4-a716-446655440000"]})
    /\ exists front,
         url = front ++ "&state=550e8400-e29b-41d4-a716-446655440000%3Aq1w2e3r4t5y6u7i8o9p0Az".
Proof.
  destruct (start_state_redeemed_once Sample.configured
              "550e8400-e29b-41d4-a716-446655440000" "q1w2e3r4t5y6u7i8o9p0Az" ∅
              (Sample.get "/auth/youtube/start" []))
    as (Hstart & _ & Hfront & _).
  - reflexivity.
  - discriminate.
  - discriminate.
  - reflexivity.
  - eexists. split; [exact Hstart|]. exact Hfront.
Defined.

Example start_example :
  (YouTubeAuth.youtube_auth_start Sample.configured
     "550e8400-e29b-41d4-a716-446655440000" "q1w2e3r4t5y6u7i8o9p0Az" ∅).1
  = Ok {| YouTubeAuth.auth_url :=
            "https://accounts.google.com/o/oauth2/v2/auth?client_id=client-id.apps.googleusercontent.com&redirect_uri=http%3A%2F%2Flocalhost%3A3000%2Fauth%2Fyoutube%2Fcallback&response_type=code&scope=https%3A%2F%2Fwww.googleapis.com%2Fauth%2Fyoutube.readonly+https%3A%2F%2Fwww.googleapis.com%2Fauth%2Fyt-analytics.readonly&access_type=offline&prompt=consent&state=550e8400-e29b-41d4-a716-446655440000%3Aq1w2e3r4t5y6u7i8o9p0Az" |}.
Proof. vm_compute. reflexivity. Qed.

(** * Further properties *)

(** ** The MCP client and the execute route, on errors *)

(** X1. [MCPClient.execute] lets no httpx error out: a timeout becomes the
    [MCPClientError] that names the configured timeout, every other request
    error the [MCPClientError] that wraps its text, and whatever [execute]
    raises is no httpx error. *)
Theorem mcp_execute_wraps_httpx_errors
    (w : world) (self : MCPClient.t) (user_id channel_id message : string)
    (metadata : option dict) :
  let outcome :=
    send w (MCPClient.execute_request self user_id channel_id message metadata) in
  let result := MCPClient.execute w self user_id channel_id message metadata in
  (forall e, outcome = Raise e -> is_TimeoutException e = true ->
     result = Raise (MCPClientError
                       ("MCP server request timed out after "
                        ++ py_format w (JNum (MCPClient.timeout self)) ++ " seconds")))
  /\ (forall e, outcome = Raise e -> is_TimeoutException e = false ->
        is_HTTPError e = true ->
        result = Raise (MCPClientError ("MCP server request failed: " ++ str_exn e)))
  /\ (forall e, result = Raise e -> is_HTTPError e = false).
Proof.
  intros outcome result. subst outcome result. unfold MCPClient.execute.
  split; [|split].
  - intros e -> He. cbn. rewrite He. reflexivity.
  - intros e -> Ht He. cbn. rewrite Ht, He. reflexivity.
  - intros e.
    destruct (send w _) as [r|e0]; cbn.
    + destruct (MCPClient.transform w r) as [x|e1]; cbn; [discriminate|].
      destruct (is_TimeoutException e1); [intros [= <-]; reflexivity|].
      destruct (is_HTTPError e1) eqn:H1; intros [= <-]; [reflexivity|exact H1].
    + destruct (is_TimeoutException e0); [intros [= <-]; reflexivity|].
      destruct (is_HTTPError e0) eqn:H0; intros [= <-]; [reflexivity|exact H0].
Qed.

Lemma mcp_execute_wraps_httpx_errors_witness :
  MCPClient.execute (Sample.fails (TimeoutException "read timed out"))
    (MCPClient.init default_settings) "u" "c" "m" None
  = Raise (MCPClientError "MCP server request timed out after <repr> seconds")
  /\ MCPClient.execute Sample.unreachable (MCPClient.init default_settings) "u" "c" "m" None
     = Raise (MCPClientError "MCP server request failed: All connection attempts failed")
  /\ is_HTTPError (MCPClientError "MCP server request failed: status error") = false.
Proof.
  split; [|split].
  - destruct (mcp_execute_wraps_httpx_errors (Sample.fails (TimeoutException "read timed out"))
                (MCPClient.init default_settings) "u" "c" "m" None) as (H & _).
    apply (H _ eq_refl eq_refl).
  - destruct (mcp_execute_wraps_httpx_errors Sample.unreachable
                (MCPClient.init default_settings) "u" "c" "m" None) as (_ & H & _).
    apply (H _ eq_refl eq_refl eq_refl).
  - destruct (mcp_execute_wraps_httpx_errors (Sample.answers 429 None)
                (MCPClient.init default_settings) "u" "c" "m" None) as (_ & _ & H).
    apply (H _ eq_refl).
Defined.

(** X2. A 2xx answer of MCP whose body is not JSON, or is JSON but no
    object, is no client error: the execute route answers it with 500 and
    the fixed detail, not with 503. *)
Theorem execute_route_malformed_body
    (w : world) (settings : Settings) (request : ExecuteRequest) (r : http_response) :
  send w (MCPClient.execute_request (MCPClient.init settings) (user_id request)
            (channel_id request) (message request) (request_metadata request)) = Ok r ->
  is_success r = true ->
  match json_body r with Some (JObj _) => False | _ => True end ->
  ExecuteRoute.execute w settings request
  = Raise (HTTPException 500 "An unexpected error occurred").
Proof.
  intros Hsend Hr Hbody. unfold ExecuteRoute.execute.
  rewrite (execute_answered _ _ _ _ _ _ _ Hsend).
  unfold MCPClient.transform, raise_for_status, response_json. rewrite Hr.
  destruct (json_body r) as [[| | | | |d]|]; try contradiction; reflexivity.
Qed.

Lemma execute_route_malformed_body_witness :
  ExecuteRoute.execute (Sample.answers 200 (Some (JArr []))) default_settings Sample.request
  = Raise (HTTPException 500 "An unexpected error occurred")
  /\ ExecuteRoute.execute (Sample.answers 200 None) default_settings Sample.request
     = Raise (HTTPException 500 "An unexpected error occurred").
Proof.
  split.
  - apply (execute_route_malformed_body (Sample.answers 200 (Some (JArr [])))
             default_settings Sample.request
             {| status_code := 200; text := ""; json_body := Some (JArr []) |}
             eq_refl eq_refl I).
  - apply (execute_route_malformed_body (Sample.answers 200 None)
             default_settings Sample.request
             {| status_code := 200; text := ""; json_body := None |}
             eq_refl eq_refl I).
Defined.

(** ** The middlewares around every route *)

Lemma set_header_status (key v : string) (r : Response) :
  response_status (set_header key v r) = response_status r.
Proof. reflexivity. Qed.

Lemma set_header_content (key v : string) (r : Response) :
  response_content (set_header key v r) = response_content r.
Proof. reflexivity. Qed.

Lemma set_header_get_same (key v : string) (r : Response) :
  headers_get key (response_headers (set_header key v r)) = Some v.
Proof. apply headers_get_set_same. Qed.

Lemma set_header_get_other (key key' v : string) (r : Response) :
  PyStr.lower key <> PyStr.lower key' ->
  headers_get key (response_headers (set_header key' v r))
  = headers_get key (response_headers r).
Proof. apply headers_get_set_other. Qed.

(** [SecurityHeadersMiddleware.dispatch] on a response it is handed. *)
Lemma security_dispatch_secured (request : Request)
    (call_next : Request -> res Response) :
  SecurityHeadersMiddleware.dispatch request call_next = secured <$> call_next request.
Proof.
  unfold SecurityHeadersMiddleware.dispatch.
  destruct (call_next request); reflexivity.
Qed.

(** The application, for a handler that returns or raises [HTTPException]. *)
Lemma app_of_answered (uuid4 : string) (handler : Request -> res json)
    (request : Request) :
  let id := RequestIDMiddleware.request_id request uuid4 in
  answered (handler (with_request_id request id)) = true ->
  exists response,
    Framework.route handler (with_request_id request id) = Ok response
    /\ app uuid4 handler request
       = secured (set_header "X-Request-ID" id response).
Proof.
  intros id Hans.
  assert (Hroute : exists response,
             Framework.route handler (with_request_id request id) = Ok response).
  { unfold Framework.route.
    destruct (handler (with_request_id request id)) as [v|[]]; try discriminate; eauto. }
  destruct Hroute as [response Hroute]. exists response. split; [exact Hroute|].
  unfold app. rewrite security_dispatch_secured.
  rewrite (dispatch_sets_request_id _ _ _ _ Hroute). reflexivity.
Qed.

(** X3. Whatever response the inner application hands to
    [SecurityHeadersMiddleware.dispatch], with whatever headers, the result
    has the same status and body, carries the five security headers with
    their fixed values, and keeps the value of every other header. *)
Theorem security_headers_on_every_response
    (request : Request) (call_next : Request -> res Response) (response : Response) :
  call_next request = Ok response ->
  exists out,
    SecurityHeadersMiddleware.dispatch request call_next = Ok out
    /\ response_status out = response_status response
    /\ response_content out = response_content response
    /\ headers_get "X-Content-Type-Options" (response_headers out) = Some "nosniff"
    /\ headers_get "X-Frame-Options" (response_headers out) = Some "DENY"
    /\ headers_get "X-XSS-Protection" (response_headers out) = Some "1; mode=block"
    /\ headers_get "Referrer-Policy" (response_headers out)
       = Some "strict-origin-when-cross-origin"
    /\ headers_get "Permissions-Policy" (response_headers out)
       = Some "geolocation=(), microphone=(), camera=()"
    /\ (forall key, ~ In (PyStr.lower key) middleware_headers ->
          headers_get key (response_headers out)
          = headers_get key (response_headers response)).
Proof.
  intros Hnext. exists (secured response).
  rewrite security_dispatch_secured, Hnext.
  split; [reflexivity|]. split; [reflexivity|]. split; [reflexivity|].
  unfold secured.
  split. { rewrite !set_header_get_other by (vm_compute; discriminate).
           apply set_header_get_same. }
  split. { rewrite !set_header_get_other by (vm_compute; discriminate).
           apply set_header_get_same. }
  split. { rewrite !set_header_get_other by (vm_compute; discriminate).
           apply set_header_get_same. }
  split. { rewrite !set_header_get_other by (vm_compute; discriminate).
           apply set_header_get_same. }
  split. { apply set_header_get_same. }
  intros key Hkey. unfold middleware_headers in Hkey. cbn [In] in Hkey.
  rewrite !set_header_get_other; [reflexivity| | | | |];
    intros Heq; apply Hkey; rewrite Heq; vm_compute; tauto.
Qed.

Lemma security_headers_on_every_response_witness :
  exists out,
    SecurityHeadersMiddleware.dispatch (Sample.get "/health" [])
      (fun _ => Ok {| response_status := 404;
                      response_headers := [("x-frame-options", "SAMEORIGIN");
                                           ("content-type", "application/json")];
                      response_content := Empty |})
    = Ok out
    /\ response_status out = 404
    /\ headers_get "X-Frame-Options" (response_headers out) = Some "DENY"
    /\ headers_get "Content-Type" (response_headers out) = Some "application/json".
Proof.
  destruct (security_headers_on_every_response (Sample.get "/health" [])
              (fun _ => Ok {| response_status := 404;
                              response_headers := [("x-frame-options", "SAMEORIGIN");
                                                   ("content-type", "application/json")];
                              response_content := Empty |})
              _ eq_refl)
    as (out & Hout & Hstatus & _ & _ & Hframe & _ & _ & _ & Hother).
  exists out. split; [exact Hout|]. split; [exact Hstatus|]. split; [exact Hframe|].
  rewrite (Hother "Content-Type"); [reflexivity|].
  vm_compute. intuition discriminate.
Defined.


(** ** The health route *)

(** X5. [GET /health] always returns, with status "healthy" and the
    version and provider of the settings; the probe has a timeout of two
    seconds whatever the settings say; the dependency [mcp] is "ok" exactly
    when MCP answered the probe with status 200, and "degraded" on every
    other status and on every exception: it is never left "unknown". *)
Theorem health_check_outcomes (w : world) (settings : Settings) (info : AppSettings) :
  let outcome := send w (MCPProbe.ping_request (MCPClient.init settings)) in
  let healthy (state : string) : res HealthResponse :=
    Ok {| health_status := "healthy";
          health_version := app_version info;
          health_llm_provider := llm_provider info;
          health_dependencies := {["mcp" := state]} |} in
  req_timeout (MCPProbe.ping_request (MCPClient.init settings)) = 2%Q
  /\ (forall r, outcome = Ok r -> status_code r = 200 ->
        Health.health_check w settings info = healthy "ok")
  /\ (forall r, outcome = Ok r -> status_code r <> 200 ->
        Health.health_check w settings info = healthy "degraded")
  /\ (forall e, outcome = Raise e ->
        Health.health_check w settings info = healthy "degraded")
  /\ (exists h, Health.health_check w settings info = Ok h
                /\ health_status h = "healthy"
                /\ (health_dependencies h !! "mcp" = Some "ok"
                    \/ health_dependencies h !! "mcp" = Some "degraded")).
Proof.
  intros outcome healthy. subst healthy.
  unfold Health.health_check, MCPProbe.ping. fold outcome.
  split; [reflexivity|].
  split; [|split; [|split]].
  - intros r -> Hr. cbn. apply Z.eqb_eq in Hr. rewrite Hr.
    rewrite insert_singleton_eq. reflexivity.
  - intros r -> Hr. cbn. apply Z.eqb_neq in Hr. rewrite Hr.
    rewrite insert_singleton_eq. reflexivity.
  - intros e ->. cbn. rewrite insert_singleton_eq. reflexivity.
  - destruct outcome as [r|e]; cbn.
    + destruct (status_code r =? 200); eexists; (split; [reflexivity|]); cbn;
        rewrite lookup_insert_eq; auto.
    + eexists; (split; [reflexivity|]); cbn; rewrite lookup_insert_eq; auto.
Qed.

Lemma health_check_outcomes_witness :
  Health.health_check (Sample.answers 200 None) default_settings default_app_settings
  = Ok {| health_status := "healthy"; health_version := "1.0.0";
          health_llm_provider := "gemini-flash-latest";
          health_dependencies := {["mcp" := "ok"]} |}
  /\ Health.health_check (Sample.answers 204 None) default_settings default_app_settings
     = Ok {| health_status := "healthy"; health_version := "1.0.0";
             health_llm_provider := "gemini-flash-latest";
             health_dependencies := {["mcp" := "degraded"]} |}
  /\ Health.health_check Sample.unreachable default_settings default_app_settings
     = Ok {| health_status := "healthy"; health_version := "1.0.0";
             health_llm_provider := "gemini-flash-latest";
             health_dependencies := {["mcp" := "degraded"]} |}.
Proof.
  split; [|split].
  - destruct (health_check_outcomes (Sample.answers 200 None) default_settings
                default_app_settings) as (_ & H & _).
    apply (H _ eq_refl). reflexivity.
  - destruct (health_check_outcomes (Sample.answers 204 None) default_settings
                default_app_settings) as (_ & _ & H & _).
    apply (H _ eq_refl). discriminate.
  - destruct (health_check_outcomes Sample.unreachable default_settings
                default_app_settings) as (_ & _ & _ & H & _).
    apply (H _ eq_refl).
Defined.

(** ** The pending states, beyond one redemption *)

Lemma split_first_found (c : ascii) (s : string) :
  PyStr.contains c s = true ->
  exists u t, PyStr.split_first c s = (u, Some t)
              /\ s = u ++ String c t /\ PyStr.contains c u = false.
Proof.
  unfold PyStr.contains. induction s as [|x s IH]; [discriminate|].
  cbn. destruct (Ascii.eqb_spec c x) as [<-|Hne].
  - intros _. rewrite Ascii.eqb_refl. exists "", s. auto.
  - intros H. destruct (IH H) as (u & t & Hsplit & -> & Hu).
    destruct (Ascii.eqb_spec x c) as [->|_]; [congruence|].
    rewrite Hsplit. exists (String x u), t. cbn.
    destruct (Ascii.eqb_spec c x); [congruence|]. auto.
Qed.

(** X6. A state that [_validate_state] accepts is either a bare UUID
    without colon, with the pending states unchanged, or ["u:t"] where [u]
    holds no colon, parses to the returned UUID, and the token [t] was
    pending for exactly the text [u]; the token is then removed. *)
Theorem validate_state_accepts_only_issued
    (state : string) (pending pending' : YouTubeAuth.pending_states) (v : UUID.t) :
  YouTubeAuth._validate_state state pending = (Ok v, pending') ->
  (PyStr.contains ":" state = false /\ UUID.parse state = Ok v /\ pending' = pending)
  \/ (exists u t, state = u ++ ":" ++ t
                  /\ PyStr.contains ":" u = false
                  /\ UUID.parse u = Ok v
                  /\ pending !! t = Some u
                  /\ pending' = delete t pending).
Proof.
  unfold YouTubeAuth._validate_state.
  destruct (PyStr.contains ":" state) eqn:Hcolon; cbn [negb].
  - destruct (split_first_found _ _ Hcolon) as (u & t & -> & -> & Hu).
    cbn [default from_option id].
    destruct (UUID.parse u) as [v'|e] eqn:Hparse; [|discriminate].
    destruct (pending !! t) as [stored|] eqn:Hstored; [|discriminate].
    destruct (String.eqb_spec stored u) as [->|]; [|discriminate].
    cbn [negb]. intros [= <- <-]. right. exists u, t. auto.
  - intros [= H <-]. left. auto.
Qed.

Lemma validate_state_accepts_only_issued_witness :
  (PyStr.contains ":" "00000000-0000-0000-0000-000000000001:tok" = false
   /\ UUID.parse "00000000-0000-0000-0000-000000000001:tok" = Ok 1%N
   /\ (∅ : gmap string string) = {["tok" := "00000000-0000-0000-0000-000000000001"]})
  \/ (exists u t, "00000000-0000-0000-0000-000000000001:tok" = u ++ ":" ++ t
                  /\ PyStr.contains ":" u = false
                  /\ UUID.parse u = Ok 1%N
                  /\ ({["tok" := "00000000-0000-0000-0000-000000000001"]}
                      : gmap string string) !! t = Some u
                  /\ (∅ : gmap string string)
                     = delete t {["tok" := "00000000-0000-0000-0000-000000000001"]}).
Proof.
  apply (validate_state_accepts_only_issued
           "00000000-0000-0000-0000-000000000001:tok"
           {["tok" := "00000000-0000-0000-0000-000000000001"]} ∅ 1%N).
  unfold YouTubeAuth._validate_state.
  change (PyStr.contains ":" "00000000-0000-0000-0000-000000000001:tok") with true.
  change (PyStr.split_first ":" "00000000-0000-0000-0000-000000000001:tok")
    with ("00000000-0000-0000-0000-000000000001", Some "tok").
  cbn [negb default from_option id].
  change (UUID.parse "00000000-0000-0000-0000-000000000001") with (Ok 1%N : res UUID.t).
  rewrite lookup_singleton_eq, delete_singleton_eq. reflexivity.
Defined.

(** X7. [_validate_state] never adds to the pending states and never
    changes the user of a token: whatever it returns or raises, every token
    pending afterwards was pending before for the same user, and at most
    the token of the state itself has gone.  When the user id part is no
    UUID, or the state holds no colon, nothing is removed at all. *)
Theorem validate_state_only_consumes_its_token
    (state : string) (pending : YouTubeAuth.pending_states) :
  let '(result, pending') := YouTubeAuth._validate_state state pending in
  let '(user_part, token) := PyStr.split_first ":" state in
  (forall t x, pending' !! t = Some x -> pending !! t = Some x)
  /\ (forall t, token <> Some t -> pending' !! t = pending !! t)
  /\ (PyStr.contains ":" state = false -> pending' = pending)
  /\ (forall e, UUID.parse user_part = Raise e -> pending' = pending).
Proof.
  unfold YouTubeAuth._validate_state.
  destruct (PyStr.contains ":" state) eqn:Hcolon; cbn [negb].
  - destruct (split_first_found _ _ Hcolon) as (u & t & -> & _ & _).
    cbn [default from_option id].
    assert (Hdel : (forall t' x, delete t pending !! t' = Some x -> pending !! t' = Some x)
                   /\ (forall t', Some t <> Some t' ->
                         delete t pending !! t' = pending !! t')).
    { split.
      - intros t' x H. apply lookup_delete_Some in H. tauto.
      - intros t' H. apply lookup_delete_ne. congruence. }
    destruct Hdel as [Hsub Hother].
    destruct (UUID.parse u) as [v|e].
    + destruct (pending !! t) as [stored|]; [destruct (negb _)|];
        (split; [exact Hsub|]; split; [exact Hother|]; split; discriminate).
    + split; [auto|]. split; [auto|]. split; auto.
  - destruct (PyStr.split_first ":" state) as [u token]. auto.
Qed.

Lemma validate_state_only_consumes_its_token_witness :
  (YouTubeAuth._validate_state "nouuid:tok" {["tok" := "x"]}).2 = {["tok" := "x"]}.
Proof.
  pose proof (validate_state_only_consumes_its_token "nouuid:tok" {["tok" := "x"]}) as H.
  destruct (YouTubeAuth._validate_state "nouuid:tok" {["tok" := "x"]}) as [result pending'].
  change (PyStr.split_first ":" "nouuid:tok") with ("nouuid", Some "tok") in H.
  destruct H as (_ & _ & _ & H).
  apply (H (ValueError "badly formed hexadecimal UUID string")). reflexivity.
Defined.

(** X8. [/auth/youtube/start] stores a token only when it returns a URL.
    A missing client id, and then a missing redirect URI, is answered 500
    before the user id is looked at, and a user id that is no UUID is
    answered 400; in these cases the pending states are unchanged.  On
    success exactly the new token is bound, to the user id as it was given,
    and every other token keeps its user. *)
Theorem start_stores_only_on_success
    (settings : Settings) (user_id state_token : string)
    (pending : YouTubeAuth.pending_states) :
  let '(result, pending') :=
    YouTubeAuth.youtube_auth_start settings user_id state_token pending in
  (google_client_id settings = "" ->
     result = Raise (HTTPException 500 "Google OAuth is not configured")
     /\ pending' = pending)
  /\ (google_client_id settings <> "" -> google_redirect_uri settings = "" ->
        result = Raise (HTTPException 500 "Google OAuth redirect URI is not configured")
        /\ pending' = pending)
  /\ (google_client_id settings <> "" -> google_redirect_uri settings <> "" ->
        forall e, UUID.parse user_id = Raise e ->
        result = Raise (HTTPException 400 "Invalid user_id format. Expected UUID.")
        /\ pending' = pending)
  /\ (forall a, result = Ok a ->
        pending' !! state_token = Some user_id
        /\ (forall t, t <> state_token -> pending' !! t = pending !! t)
        /\ google_client_id settings <> "" /\ google_redirect_uri settings <> ""
        /\ exists v, UUID.parse user_id = Ok v).
Proof.
  unfold YouTubeAuth.youtube_auth_start.
  destruct (String.eqb_spec (google_client_id settings) "") as [Hid|Hid].
  { split; [auto|]. split; [congruence|]. split; [congruence|]. discriminate. }
  destruct (String.eqb_spec (google_redirect_uri settings) "") as [Huri|Huri].
  { split; [congruence|]. split; [auto|]. split; [congruence|]. discriminate. }
  destruct (UUID.parse user_id) as [v|e] eqn:Hparse.
  - cbn. split; [congruence|]. split; [congruence|]. split; [discriminate|].
    intros a _. split; [apply lookup_insert_eq|].
    split; [intros t Ht; apply lookup_insert_ne; congruence|]. eauto.
  - destruct (parse_raises_ValueError _ _ Hparse) as [msg ->]. cbn.
    split; [congruence|]. split; [congruence|]. split; [auto|]. discriminate.
Qed.

Lemma start_stores_only_on_success_witness :
  YouTubeAuth.youtube_auth_start default_settings "550e8400-e29b-41d4-a716-446655440000"
    "tok" {["old" := "x"]}
  = (Raise (HTTPException 500 "Google OAuth is not configured"), {["old" := "x"]})
  /\ YouTubeAuth.youtube_auth_start Sample.configured "me" "tok" {["old" := "x"]}
     = (Raise (HTTPException 400 "Invalid user_id format. Expected UUID."),
        {["old" := "x"]}).
Proof.
  split.
  - pose proof (start_stores_only_on_success default_settings
                  "550e8400-e29b-41d4-a716-446655440000" "tok" {["old" := "x"]}) as H.
    destruct (YouTubeAuth.youtube_auth_start _ _ _ _) as [result pending'] eqn:E.
    destruct H as (H & _). destruct (H eq_refl) as [-> ->]. reflexivity.
  - pose proof (start_stores_only_on_success Sample.configured "me" "tok"
                  {["old" := "x"]}) as H.
    destruct (YouTubeAuth.youtube_auth_start _ _ _ _) as [result pending'] eqn:E.
    destruct H as (_ & _ & H & _).
    destruct (H ltac:(discriminate) ltac:(discriminate)
                (ValueError "badly formed hexadecimal UUID string") eq_refl) as [-> ->].
    reflexivity.
Defined.

(** ** Redirects *)

(** [quote] leaves a text of safe characters as it is. *)
Lemma quote_fixed (safe s : string) :
  PyStr.all (fun c => Urllib.always_safe c || PyStr.mem c safe) s = true ->
  Urllib.quote safe s = s.
Proof.
  induction s as [|c s IH]; [reflexivity|].
  cbn [PyStr.all Urllib.quote]. rewrite andb_true_iff. intros [Hc Hs].
  rewrite Hc, (IH Hs). reflexivity.
Qed.

Lemma quote_plus_char_redirect_safe (c : ascii) :
  PyStr.all redirect_safe (Urllib.quote_plus (String c "")) = true.
Proof. destruct c as [[] [] [] [] [] [] [] []]; reflexivity. Qed.

(** What [quote_plus] writes passes [RedirectResponse] unchanged. *)
Lemma quote_plus_redirect_safe (s : string) :
  PyStr.all redirect_safe (Urllib.quote_plus s) = true.
Proof.
  induction s as [|c s IH]; [reflexivity|].
  change (String c s) with (String c "" ++ s).
  rewrite quote_plus_app, all_app, quote_plus_char_redirect_safe, IH. reflexivity.
Qed.

Lemma urlencode_redirect_safe (params : list (string * string)) :
  PyStr.all redirect_safe (Urllib.urlencode params) = true.
Proof.
  unfold Urllib.urlencode.
  induction params as [|[k v] params IH]; [reflexivity|].
  assert (Hkv : PyStr.all redirect_safe (Urllib.quote_plus k ++ "=" ++ Urllib.quote_plus v)
                = true).
  { rewrite !all_app, !quote_plus_redirect_safe. reflexivity. }
  destruct params as [|p params]; [exact Hkv|].
  change (PyStr.all redirect_safe
            ((Urllib.quote_plus k ++ "=" ++ Urllib.quote_plus v) ++ "&"
             ++ PyStr.join "&"
                  (map (fun kv => Urllib.quote_plus kv.1 ++ "=" ++ Urllib.quote_plus kv.2)
                     (p :: params))) = true).
  rewrite (all_app _ (Urllib.quote_plus k ++ "=" ++ Urllib.quote_plus v)), Hkv.
  rewrite (all_app _ "&"), IH. reflexivity.
Qed.

(** X9. [/auth/youtube/login] follows [/auth/youtube/start]: it changes
    the pending states in the same way, fails with the same exception, and
    on success redirects with 302 to the URL that [start] returns; when the
    configured authorization endpoint holds only characters a redirect
    leaves alone, the [location] header is that URL, character for
    character: the query string is not encoded a second time. *)
Theorem login_follows_start
    (settings : Settings) (user_id state_token : string)
    (pending : YouTubeAuth.pending_states) :
  let '(started, p1) :=
    YouTubeAuth.youtube_auth_start settings user_id state_token pending in
  let '(login, p2) :=
    YouTubeLogin.youtube_auth_login settings user_id state_token pending in
  p2 = p1
  /\ (forall e, started = Raise e -> login = Raise e)
  /\ (forall a, started = Ok a ->
        login = Ok (RedirectResponse (YouTubeAuth.auth_url a) 302))
  /\ (forall a, started = Ok a ->
        PyStr.all redirect_safe (google_auth_url settings) = true ->
        login = Ok {| response_status := 302;
                      response_headers := [("location", YouTubeAuth.auth_url a)];
                      response_content := Empty |}).
Proof.
  unfold YouTubeAuth.youtube_auth_start, YouTubeLogin.youtube_auth_login.
  destruct (String.eqb (google_client_id settings) "").
  { split; [reflexivity|]. split; [intros e [= <-]; reflexivity|]. split; discriminate. }
  destruct (String.eqb (google_redirect_uri settings) "").
  { split; [reflexivity|]. split; [intros e [= <-]; reflexivity|]. split; discriminate. }
  destruct (try_except (UUID.parse user_id) _) as [v|e].
  - unfold YouTubeAuth._build_google_auth_url. cbv beta iota zeta.
    split; [reflexivity|]. split; [discriminate|].
    split; [intros a [= <-]; reflexivity|].
    intros a [= <-] Hsafe. cbn [YouTubeAuth.auth_url].
    unfold RedirectResponse. rewrite quote_fixed; [reflexivity|].
    change (fun c => Urllib.always_safe c || PyStr.mem c ":/%#?=@[]!$&'()*+,;")
      with redirect_safe.
    rewrite !all_app, Hsafe, urlencode_redirect_safe. reflexivity.
  - split; [reflexivity|]. split; [intros e' [= <-]; reflexivity|]. split; discriminate.
Qed.

Lemma login_follows_start_witness :
  exists url,
    YouTubeLogin.youtube_auth_login Sample.configured
      "550e8400-e29b-41d4-a716-446655440000" "q1w2e3r4t5y6u7i8o9p0Az" ∅
    = (Ok {| response_status := 302; response_headers := [("location", url)];
             response_content := Empty |},
       {["q1w2e3r4t5y6u7i8o9p0Az" := "550e8400-e29b-41d4-a716-446655440000"]})
    /\ (YouTubeAuth.youtube_auth_start Sample.configured
          "550e8400-e29b-41d4-a716-446655440000" "q1w2e3r4t5y6u7i8o9p0Az" ∅).1
       = Ok {| YouTubeAuth.auth_url := url |}.
Proof.
  pose proof (login_follows_start Sample.configured
                "550e8400-e29b-41d4-a716-446655440000" "q1w2e3r4t5y6u7i8o9p0Az" ∅) as H.
  destruct (YouTubeAuth.youtube_auth_start _ _ _ _) as [started p1] eqn:Es.
  destruct (YouTubeLogin.youtube_auth_login _ _ _ _) as [login p2] eqn:El.
  destruct H as (-> & _ & _ & H).
  assert (Hs : YouTubeAuth.youtube_auth_start Sample.configured
                 "550e8400-e29b-41d4-a716-446655440000" "q1w2e3r4t5y6u7i8o9p0Az" ∅
               = (Ok {| YouTubeAuth.auth_url :=
                          google_auth_url Sample.configured ++ "?"
                          ++ Urllib.urlencode
                               (YouTubeAuth.auth_params
                                  "550e8400-e29b-41d4-a716-446655440000"
                                  Sample.configured "q1w2e3r4t5y6u7i8o9p0Az") |},
                  {["q1w2e3r4t5y6u7i8o9p0Az" := "550e8400-e29b-41d4-a716-446655440000"]}))
    by reflexivity.
  rewrite Hs in Es. injection Es as <- <-.
  eexists. rewrite (H _ eq_refl eq_refl). split; reflexivity.
Defined.

(** ** Two flows at once *)

(** [start] for a UUID [uuid.UUID] accepts, with the credentials
    configured. *)
Lemma start_binds_token (settings : Settings) (u tok : string) (v : UUID.t)
    (pending : YouTubeAuth.pending_states) :
  google_client_id settings <> "" -> google_redirect_uri settings <> "" ->
  UUID.parse u = Ok v ->
  (YouTubeAuth.youtube_auth_start settings u tok pending).2 = <[tok := u]> pending.
Proof.
  intros Hid Huri Hv. unfold YouTubeAuth.youtube_auth_start.
  apply String.eqb_neq in Hid, Huri. rewrite Hid, Huri, Hv. reflexivity.
Qed.

(** X10. Two flows started one after the other with different tokens do
    not disturb each other: whichever of the two states comes back first,
    both redemptions succeed, each with its own user. *)
Theorem concurrent_flows_both_redeem
    (settings : Settings) (u1 u2 t1 t2 : string) (pending : YouTubeAuth.pending_states) :
  google_client_id settings <> "" -> google_redirect_uri settings <> "" ->
  UUID.well_formed u1 = true -> UUID.well_formed u2 = true -> t1 <> t2 ->
  let p1 := (YouTubeAuth.youtube_auth_start settings u1 t1 pending).2 in
  let p := (YouTubeAuth.youtube_auth_start settings u2 t2 p1).2 in
  exists v1 v2,
    UUID.parse u1 = Ok v1 /\ UUID.parse u2 = Ok v2
    /\ YouTubeAuth._validate_state (u1 ++ ":" ++ t1) p = (Ok v1, delete t1 p)
    /\ YouTubeAuth._validate_state (u2 ++ ":" ++ t2) (delete t1 p)
       = (Ok v2, delete t2 (delete t1 p))
    /\ YouTubeAuth._validate_state (u2 ++ ":" ++ t2) p = (Ok v2, delete t2 p)
    /\ YouTubeAuth._validate_state (u1 ++ ":" ++ t1) (delete t2 p)
       = (Ok v1, delete t1 (delete t2 p)).
Proof.
  intros Hid Huri Hu1 Hu2 Hne p1 p.
  destruct (well_formed_parses u1 Hu1) as [v1 Hv1].
  destruct (well_formed_parses u2 Hu2) as [v2 Hv2].
  pose proof (well_formed_no_colon u1 Hu1) as Hc1.
  pose proof (well_formed_no_colon u2 Hu2) as Hc2.
  assert (Hp : p = <[t2 := u2]> (<[t1 := u1]> pending)).
  { subst p p1.
    rewrite (start_binds_token _ _ _ _ _ Hid Huri Hv2),
      (start_binds_token _ _ _ _ _ Hid Huri Hv1). reflexivity. }
  assert (L1 : p !! t1 = Some u1).
  { rewrite Hp, lookup_insert_ne, lookup_insert_eq by congruence. reflexivity. }
  assert (L2 : p !! t2 = Some u2).
  { rewrite Hp, lookup_insert_eq. reflexivity. }
  exists v1, v2. split; [exact Hv1|]. split; [exact Hv2|].
  rewrite !(validate_state_token _ _ _ _ Hc1 Hv1), !(validate_state_token _ _ _ _ Hc2 Hv2).
  rewrite !lookup_delete_ne by congruence.
  rewrite L1, L2, !String.eqb_refl. auto.
Qed.

Lemma concurrent_flows_both_redeem_witness :
  exists v1 v2,
    YouTubeAuth._validate_state ("00000000-0000-0000-0000-000000000002" ++ ":" ++ "tokB")
      (delete "tokA"
         (YouTubeAuth.youtube_auth_start Sample.configured
            "00000000-0000-0000-0000-000000000002" "tokB"
            (YouTubeAuth.youtube_auth_start Sample.configured
               "00000000-0000-0000-0000-000000000001" "tokA" ∅).2).2)
    = (Ok v2,
       delete "tokB"
         (delete "tokA"
            (YouTubeAuth.youtube_auth_start Sample.configured
               "00000000-0000-0000-0000-000000000002" "tokB"
               (YouTubeAuth.youtube_auth_start Sample.configured
                  "00000000-0000-0000-0000-000000000001" "tokA" ∅).2).2))
    /\ UUID.parse "00000000-0000-0000-0000-000000000001" = Ok v1.
Proof.
  destruct (concurrent_flows_both_redeem Sample.configured
              "00000000-0000-0000-0000-000000000001"
              "00000000-0000-0000-0000-000000000002" "tokA" "tokB" ∅)
    as (v1 & v2 & H1 & _ & _ & H & _).
  - discriminate.
  - discriminate.
  - reflexivity.
  - reflexivity.
  - discriminate.
  - exists v1, v2. split; [exact H | exact H1].
Defined.

(** ** The callback *)

Lemma validate_state_raises_ValueError (state : string)
    (pending : YouTubeAuth.pending_states) (e : exn) :
  (YouTubeAuth._validate_state state pending).1 = Raise e ->
  exists msg, e = ValueError msg.
Proof.
  unfold YouTubeAuth._validate_state.
  destruct (negb _).
  - cbn. apply parse_raises_ValueError.
  - destruct (PyStr.split_first ":" state) as [u rest].
    destruct (UUID.parse u) as [v|e'] eqn:Hparse.
    + destruct (pending !! _) as [stored|]; [destruct (negb _)|]; cbn;
        intros [= <-]; eauto.
    + cbn. intros [= <-]. apply (parse_raises_ValueError _ _ Hparse).
Qed.

Lemma quote_char_redirect_safe (c : ascii) :
  PyStr.all redirect_safe (Urllib.quote "/" (String c "")) = true.
Proof. destruct c as [[] [] [] [] [] [] [] []]; reflexivity. Qed.

Lemma quote_redirect_safe (s : string) :
  PyStr.all redirect_safe (Urllib.quote "/" s) = true.
Proof.
  induction s as [|c s IH]; [reflexivity|].
  change (String c s) with (String c "" ++ s).
  rewrite quote_app, all_app, quote_char_redirect_safe, IH. reflexivity.
Qed.

Lemma unquote_quote_cons (c : ascii) (r : string) :
  Urllib.unquote_plus (Urllib.quote "/" (String c r))
  = String c (Urllib.unquote_plus (Urllib.quote "/" r)).
Proof. destruct c as [[] [] [] [] [] [] [] []]; reflexivity. Qed.

(** What [quote] writes, the receiver of the query string reads back. *)
Lemma unquote_quote (s : string) : Urllib.unquote_plus (Urllib.quote "/" s) = s.
Proof.
  induction s as [|c s IH]; [reflexivity|].
  rewrite unquote_quote_cons, IH. reflexivity.
Qed.

(** The response [error_redirect] builds. *)
Lemma error_redirect_location (detail : string) :
  YouTubeAuth.error_redirect detail
  = {| response_status := 302;
       response_headers :=
         [("location",
           "creatorpilot://auth/callback?status=error&detail=" ++ Urllib.quote "/" detail)];
       response_content := Empty |}.
Proof.
  unfold YouTubeAuth.error_redirect, RedirectResponse.
  rewrite quote_fixed; [reflexivity|].
  change (fun c => Urllib.always_safe c || PyStr.mem c ":/%#?=@[]!$&'()*+,;")
    with redirect_safe.
  rewrite !all_app, quote_redirect_safe. reflexivity.
Qed.

(** X11. When the state is refused, the callback asks nothing of Google or
    MCP: whatever the network would answer, it redirects with 302 to the
    deep link with [status=error] and the text of the [ValueError] as
    [detail], percent-encoded once, so that decoding the parameter gives
    the text back; the pending states are as [_validate_state] left
    them. *)
Theorem refused_state_redirects
    (w : world) (settings : Settings) (code state : string)
    (pending : YouTubeAuth.pending_states) (e : exn) :
  (YouTubeAuth._validate_state state pending).1 = Raise e ->
  exists msg,
    e = ValueError msg
    /\ YouTubeAuth.youtube_auth_callback w settings code state pending
       = (Ok {| response_status := 302;
                response_headers :=
                  [("location",
                    "creatorpilot://auth/callback?status=error&detail="
                    ++ Urllib.quote "/" msg)];
                response_content := Empty |},
          (YouTubeAuth._validate_state state pending).2)
    /\ Urllib.unquote_plus (Urllib.quote "/" msg) = msg.
Proof.
  intros He. destruct (validate_state_raises_ValueError _ _ _ He) as [msg ->].
  exists msg. split; [reflexivity|]. split; [|apply unquote_quote].
  unfold YouTubeAuth.youtube_auth_callback.
  destruct (YouTubeAuth._validate_state state pending) as [r p]. cbn in He. subst r.
  cbn [is_ValueError str_exn fst snd]. rewrite error_redirect_location. reflexivity.
Qed.

Lemma refused_state_redirects_witness :
  YouTubeAuth.youtube_auth_callback Sample.unreachable default_settings "code"
    "00000000-0000-0000-0000-000000000001:tok" ∅
  = (Ok {| response_status := 302;
           response_headers :=
             [("location",
               "creatorpilot://auth/callback?status=error&detail=Unknown%20or%20expired%20state%20token")];
           response_content := Empty |}, ∅).
Proof.
  destruct (refused_state_redirects Sample.unreachable default_settings "code"
              "00000000-0000-0000-0000-000000000001:tok" ∅
              (ValueError "Unknown or expired state token"))
    as (msg & Hmsg & Hcb & _).
  - reflexivity.
  - injection Hmsg as <-. rewrite Hcb. reflexivity.
Defined.

(** The deep link of a successful connection. *)
Lemma success_redirect_location (params : list (string * string)) :
  exists q,
    RedirectResponse
      (YouTubeAuth.MOBILE_DEEP_LINK ++ "?"
       ++ Urllib.urlencode (("status", "success") :: params)) 302
    = {| response_status := 302;
         response_headers := [("location", "creatorpilot://auth/callback?status=" ++ q)];
         response_content := Empty |}.
Proof.
  unfold RedirectResponse.
  assert (Hurl : exists rest,
             YouTubeAuth.MOBILE_DEEP_LINK ++ "?"
             ++ Urllib.urlencode (("status", "success") :: params)
             = "creatorpilot://auth/callback?status=" ++ rest).
  { destruct params as [|p params]; eexists; reflexivity. }
  destruct Hurl as [rest ->].
  rewrite quote_app. eexists. reflexivity.
Qed.

(** X12. When the token endpoint, if it answers with tokens at all, answers
    with a JSON object, the callback never fails: for every state and
    whatever Google and MCP do, it answers a 302 redirect to the deep link
    [creatorpilot://auth/callback] with a [status] parameter. *)
Theorem callback_always_redirects
    (w : world) (settings : Settings) (code state : string)
    (pending : YouTubeAuth.pending_states) :
  (forall tokens, YouTubeAuth._exchange_code_for_tokens w code settings = Ok tokens ->
                  is_dict tokens = true) ->
  exists q,
    (YouTubeAuth.youtube_auth_callback w settings code state pending).1
    = Ok {| response_status := 302;
            response_headers := [("location", "creatorpilot://auth/callback?status=" ++ q)];
            response_content := Empty |}.
Proof.
  intros Hdict. unfold YouTubeAuth.youtube_auth_callback.
  destruct (YouTubeAuth._validate_state state pending) as [r p] eqn:Ev.
  assert (Herr : forall detail, exists q,
             Ok (YouTubeAuth.error_redirect detail)
             = Ok {| response_status := 302;
                     response_headers :=
                       [("location", "creatorpilot://auth/callback?status=" ++ q)];
                     response_content := Empty |} :> res Response).
  { intros detail. rewrite error_redirect_location. eexists. reflexivity. }
  destruct r as [v|e].
  - cbn [fst]. unfold YouTubeAuth.connect_channel.
    destruct (YouTubeAuth._exchange_code_for_tokens w code settings) as [tokens|e] eqn:Ex;
      [|apply Herr].
    specialize (Hdict tokens eq_refl). destruct tokens; try discriminate Hdict.
    rewrite !py_get_dict, !bind_ok.
    destruct (negb (truthy _)); [apply Herr|].
    destruct (YouTubeAuth._fetch_youtube_channel _ _ _) as [[id title]|e]; [|apply Herr].
    destruct (YouTubeAuth._forward_channel_to_mcp _ _ _ _ _ _ _) as [[]|e]; [|apply Herr].
    destruct (success_redirect_location
                [("user_id", UUID.to_str v);
                 ("channel_id", py_format w id);
                 ("channel_name", py_format w title)]) as [q Hq].
    exists q. rewrite Hq. reflexivity.
  - assert (He : (YouTubeAuth._validate_state state pending).1 = Raise e)
      by (rewrite Ev; reflexivity).
    destruct (validate_state_raises_ValueError _ _ _ He) as [msg ->].
    cbn [is_ValueError fst str_exn]. apply Herr.
Qed.

Lemma callback_always_redirects_witness :
  exists q,
    (YouTubeAuth.youtube_auth_callback Sample.unreachable default_settings "code"
       "00000000-0000-0000-0000-000000000001" ∅).1
    = Ok {| response_status := 302;
            response_headers := [("location", "creatorpilot://auth/callback?status=" ++ q)];
            response_content := Empty |}.
Proof.
  apply (callback_always_redirects Sample.unreachable default_settings "code"
           "00000000-0000-0000-0000-000000000001" ∅).
  intros tokens H. discriminate H.
Defined.

(** ** The helpers of the OAuth flow *)

Lemma refusal_detail_of_body (r : http_response) :
  match (error_json ← response_json r;
         inner ← py_get error_json "error" (JStr "Unknown error");
         py_get error_json "error_description" inner) with
  | Ok d => d
  | Raise _ => JStr "Token exchange failed"
  end = refusal_detail r.
Proof.
  unfold refusal_detail, response_json.
  destruct (json_body r) as [[| | | | |d]|]; reflexivity.
Qed.

(** The browser's token exchange, once the token endpoint has answered. *)
Lemma browser_exchange_answered
    (w : world) (code : string) (settings : Settings) (r : http_response) :
  send w (token_request code settings) = Ok r ->
  YouTubeAuth._exchange_code_for_tokens w code settings
  = if status_code r =? 200 then response_json r
    else Raise (OtherError "Exception"
                  ("Token exchange failed: " ++ py_format w (refusal_detail r))).
Proof.
  intros Hsend. unfold YouTubeAuth._exchange_code_for_tokens.
  change (send w _) with (send w (token_request code settings)).
  rewrite Hsend, bind_ok, refusal_detail_of_body.
  destruct (status_code r =? 200); reflexivity.
Qed.

(** The mobile token exchange, once the token endpoint has answered. *)
Lemma mobile_exchange_answered
    (w : world) (code : string) (settings : Settings) (verifier : option string)
    (r : http_response) :
  send w (YouTubeMobile.exchange_request code settings verifier) = Ok r ->
  YouTubeMobile._exchange_mobile_code_for_tokens w code settings verifier
  = if status_code r =? 200 then response_json r
    else Raise (OtherError "Exception" (py_format w (refusal_detail r))).
Proof.
  intros Hsend. unfold YouTubeMobile._exchange_mobile_code_for_tokens.
  rewrite Hsend, bind_ok, refusal_detail_of_body.
  destruct (status_code r =? 200); reflexivity.
Qed.

(** X13. The token exchange counts every status but 200 as a refusal, a
    201 included, and never returns tokens then: it raises with the
    [error_description] of the body, else its [error], else "Unknown
    error"; a body that is no JSON object gives "Token exchange failed".
    The browser variant puts "Token exchange failed: " before that text,
    the mobile variant raises the text alone.  On a 200 both return the
    body as parsed. *)
Theorem token_exchange_refusal
    (w : world) (code : string) (settings : Settings) (verifier : option string)
    (r : http_response) :
  (send w (token_request code settings) = Ok r ->
     (status_code r <> 200 ->
        YouTubeAuth._exchange_code_for_tokens w code settings
        = Raise (OtherError "Exception"
                   ("Token exchange failed: " ++ py_format w (refusal_detail r))))
     /\ (status_code r = 200 ->
           YouTubeAuth._exchange_code_for_tokens w code settings = response_json r))
  /\ (send w (YouTubeMobile.exchange_request code settings verifier) = Ok r ->
        (status_code r <> 200 ->
           YouTubeMobile._exchange_mobile_code_for_tokens w code settings verifier
           = Raise (OtherError "Exception" (py_format w (refusal_detail r))))
        /\ (status_code r = 200 ->
              YouTubeMobile._exchange_mobile_code_for_tokens w code settings verifier
              = response_json r)).
Proof.
  split; intros Hsend.
  - rewrite (browser_exchange_answered _ _ _ _ Hsend). split; intros Hs.
    + apply Z.eqb_neq in Hs. rewrite Hs. reflexivity.
    + apply Z.eqb_eq in Hs. rewrite Hs. reflexivity.
  - rewrite (mobile_exchange_answered _ _ _ _ _ Hsend). split; intros Hs.
    + apply Z.eqb_neq in Hs. rewrite Hs. reflexivity.
    + apply Z.eqb_eq in Hs. rewrite Hs. reflexivity.
Qed.

Lemma token_exchange_refusal_witness :
  YouTubeAuth._exchange_code_for_tokens
    (Sample.answers 400
       (Some (JObj [("error", JStr "invalid_grant");
                    ("error_description", JStr "Bad Request")])))
    "code" default_settings
  = Raise (OtherError "Exception" "Token exchange failed: Bad Request")
  /\ YouTubeMobile._exchange_mobile_code_for_tokens
       (Sample.answers 201 (Some (JObj [("access_token", JStr "t")])))
       "code" default_settings None
     = Raise (OtherError "Exception" "Unknown error")
  /\ YouTubeAuth._exchange_code_for_tokens (Sample.answers 502 None) "code" default_settings
     = Raise (OtherError "Exception" "Token exchange failed: Token exchange failed").
Proof.
  split; [|split].
  - destruct (token_exchange_refusal
                (Sample.answers 400
                   (Some (JObj [("error", JStr "invalid_grant");
                                ("error_description", JStr "Bad Request")])))
                "code" default_settings None
                {| status_code := 400; text := "";
                   json_body := Some (JObj [("error", JStr "invalid_grant");
                                            ("error_description", JStr "Bad Request")]) |})
      as (H & _).
    destruct (H eq_refl) as (H' & _). apply H'. discriminate.
  - destruct (token_exchange_refusal
                (Sample.answers 201 (Some (JObj [("access_token", JStr "t")])))
                "code" default_settings None
                {| status_code := 201; text := "";
                   json_body := Some (JObj [("access_token", JStr "t")]) |})
      as (_ & H).
    destruct (H eq_refl) as (H' & _). apply H'. discriminate.
  - destruct (token_exchange_refusal (Sample.answers 502 None)
                "code" default_settings None
                {| status_code := 502; text := ""; json_body := None |})
      as (H & _).
    destruct (H eq_refl) as (H' & _). apply H'. discriminate.
Defined.

(** X14. The channel lookup returns the [id] and the [snippet.title] of
    the first item of a 200 answer and ignores the other items; an answer
    whose [items] is absent or falsy (an empty list, null) raises "No
    YouTube channel found for this account"; and a status other than 200
    never gives a channel. *)
Theorem fetch_channel_outcomes
    (w : world) (access_token : json) (settings : Settings) (r : http_response) :
  send w (channels_request w access_token settings) = Ok r ->
  (status_code r = 200 -> forall data, json_body r = Some (JObj data) ->
     (truthy (default (JArr []) (dict_lookup "items" data)) = false ->
        YouTubeAuth._fetch_youtube_channel w access_token settings
        = Raise (OtherError "Exception" "No YouTube channel found for this account"))
     /\ (forall channel others id snippet title,
           dict_lookup "items" data = Some (JArr (JObj channel :: others)) ->
           dict_lookup "id" channel = Some id ->
           dict_lookup "snippet" channel = Some (JObj snippet) ->
           dict_lookup "title" snippet = Some title ->
           YouTubeAuth._fetch_youtube_channel w access_token settings = Ok (id, title)))
  /\ (status_code r <> 200 ->
        exists e, YouTubeAuth._fetch_youtube_channel w access_token settings = Raise e).
Proof.
  intros Hsend. unfold YouTubeAuth._fetch_youtube_channel.
  change (send w _) with (send w (channels_request w access_token settings)).
  rewrite Hsend, bind_ok. split.
  - intros Hs data Hbody. apply Z.eqb_eq in Hs. rewrite Hs. cbn [negb].
    unfold response_json. rewrite Hbody, bind_ok, py_get_dict, bind_ok. split.
    + intros ->. reflexivity.
    + intros channel others id snippet title -> Hid Hsn Htitle. cbn.
      rewrite Hid. cbn. rewrite Hsn. cbn. rewrite Htitle. reflexivity.
  - intros Hs. apply Z.eqb_neq in Hs. rewrite Hs. cbn [negb].
    destruct (response_json r) as [body|e]; [|eauto]. rewrite bind_ok.
    destruct (py_get body "error" (JObj [])) as [err|e]; [|eauto]. rewrite bind_ok.
    destruct (py_get err "message" (JStr (text r))) as [d|e]; eauto.
Qed.

Lemma fetch_channel_outcomes_witness :
  YouTubeAuth._fetch_youtube_channel
    (Sample.answers 200
       (Some (JObj [("items",
                     JArr [JObj [("id", JStr "UC1");
                                 ("snippet", JObj [("title", JStr "First")])];
                           JObj [("id", JStr "UC2");
                                 ("snippet", JObj [("title", JStr "Second")])]])])))
    (JStr "token") default_settings
  = Ok (JStr "UC1", JStr "First")
  /\ YouTubeAuth._fetch_youtube_channel (Sample.answers 200 (Some (JObj [])))
       (JStr "token") default_settings
     = Raise (OtherError "Exception" "No YouTube channel found for this account").
Proof.
  split.
  - destruct (fetch_channel_outcomes
                (Sample.answers 200
                   (Some (JObj [("items",
                                 JArr [JObj [("id", JStr "UC1");
                                             ("snippet", JObj [("title", JStr "First")])];
                                       JObj [("id", JStr "UC2");
                                             ("snippet",
                                              JObj [("title", JStr "Second")])]])])))
                (JStr "token") default_settings _ eq_refl) as (H & _).
    destruct (H eq_refl _ eq_refl) as (_ & H').
    eapply H'; reflexivity.
  - destruct (fetch_channel_outcomes (Sample.answers 200 (Some (JObj [])))
                (JStr "token") default_settings _ eq_refl) as (H & _).
    destruct (H eq_refl _ eq_refl) as (H' & _).
    apply H'. reflexivity.
Defined.

Lemma as_opt_str_opt_json (o : option string) :
  Pydantic.as_opt_str (opt_json JStr o) = Some o.
Proof. destruct o; reflexivity. Qed.

(** X15. Forwarding a channel to MCP succeeds exactly when MCP answers the
    request with status 200 or 201: every other status, the rest of 2xx
    included, is a failure.  The request goes to the configured base URL
    as it is written, followed by [/channels/connect], and carries the user
    id in its 8-4-4-4-12 text.  When a field is no string, the validation
    error is raised before anything is sent. *)
Theorem forward_channel_outcomes
    (w : world) (settings : Settings) (user_id : UUID.t)
    (channel_id channel_name access_token : string) (refresh_token : option string)
    (r : http_response) :
  send w (connect_request settings user_id channel_id channel_name access_token
            refresh_token) = Ok r ->
  (YouTubeAuth._forward_channel_to_mcp w settings user_id (JStr channel_id)
     (JStr channel_name) (JStr access_token) (opt_json JStr refresh_token) = Ok tt
   <-> status_code r = 200 \/ status_code r = 201)
  /\ req_url (connect_request settings user_id channel_id channel_name access_token
                refresh_token)
     = mcp_base_url settings ++ "/channels/connect"
  /\ (forall (w' : world) (bad : json), Pydantic.as_str bad = None ->
        YouTubeAuth._forward_channel_to_mcp w' settings user_id bad
          (JStr channel_name) (JStr access_token) (opt_json JStr refresh_token)
        = Raise (ValidationError ["youtube_channel_id"])).
Proof.
  intros Hsend. split; [|split; [reflexivity|]].
  - unfold YouTubeAuth._forward_channel_to_mcp.
    cbn [Pydantic.as_str]. rewrite as_opt_str_opt_json.
    change (send w _)
      with (send w (connect_request settings user_id channel_id channel_name
                      access_token refresh_token)).
    rewrite Hsend, bind_ok.
    destruct (Z.eqb_spec (status_code r) 200) as [H200|H200];
      destruct (Z.eqb_spec (status_code r) 201) as [H201|H201]; cbn;
      split; try tauto; try discriminate; intros [?|?]; congruence.
  - intros w' bad Hbad. unfold YouTubeAuth._forward_channel_to_mcp.
    rewrite Hbad. cbn [Pydantic.as_str]. rewrite as_opt_str_opt_json. reflexivity.
Qed.

Lemma forward_channel_outcomes_witness :
  YouTubeAuth._forward_channel_to_mcp (Sample.answers 201 None) default_settings 1%N
    (JStr "UC1") (JStr "First") (JStr "token") JNull = Ok tt
  /\ YouTubeAuth._forward_channel_to_mcp (Sample.answers 204 None) default_settings 1%N
       (JStr "UC1") (JStr "First") (JStr "token") JNull <> Ok tt.
Proof.
  split.
  - destruct (forward_channel_outcomes (Sample.answers 201 None) default_settings 1%N
                "UC1" "First" "token" None _ eq_refl) as (H & _).
    apply H. right. reflexivity.
  - destruct (forward_channel_outcomes (Sample.answers 204 None) default_settings 1%N
                "UC1" "First" "token" None _ eq_refl) as (H & _).
    intros Hok. apply H in Hok. destruct Hok; discriminate.
Defined.

(** ** The mobile exchange *)

(** X16. [POST /auth/youtube/mobile/exchange]: a user id that is no UUID
    is answered 400 before anything is sent; a refusal of the token
    endpoint (any status but 200) is answered 400 with "Token exchange
    failed: " and the detail of the refusal, and a request error with 400
    and the text of the error; a 200 whose object holds no usable
    [access_token] is answered 500.  The token request is made as the
    public iOS client: its form never holds a [client_secret], and holds a
    [code_verifier] exactly when a non-empty one was given. *)
Theorem mobile_exchange_outcomes
    (w : world) (settings : Settings) (body : YouTubeMobile.MobileExchangeRequest) :
  let request := YouTubeMobile.exchange_request (YouTubeMobile.code body) settings
                   (YouTubeMobile.code_verifier body) in
  (forall e, UUID.parse (YouTubeMobile.mobile_user_id body) = Raise e ->
     forall w', YouTubeMobile.mobile_exchange w' settings body
                = Raise (HTTPException 400 "Invalid user_id format"))
  /\ (forall v r, UUID.parse (YouTubeMobile.mobile_user_id body) = Ok v ->
        send w request = Ok r -> status_code r <> 200 ->
        YouTubeMobile.mobile_exchange w settings body
        = Raise (HTTPException 400
                   ("Token exchange failed: " ++ py_format w (refusal_detail r))))
  /\ (forall v e, UUID.parse (YouTubeMobile.mobile_user_id body) = Ok v ->
        send w request = Raise e -> is_RequestError e = true ->
        YouTubeMobile.mobile_exchange w settings body
        = Raise (HTTPException 400 ("Token exchange failed: " ++ str_exn e)))
  /\ (forall v r tokens, UUID.parse (YouTubeMobile.mobile_user_id body) = Ok v ->
        send w request = Ok r -> status_code r = 200 ->
        json_body r = Some (JObj tokens) ->
        truthy (default JNull (dict_lookup "access_token" tokens)) = false ->
        YouTubeMobile.mobile_exchange w settings body
        = Raise (HTTPException 500 "Google did not return an access token"))
  /\ ~ In "client_secret" (map fst (req_data request))
  /\ (In "code_verifier" (map fst (req_data request))
      <-> exists verifier, YouTubeMobile.code_verifier body = Some verifier
                           /\ verifier <> "").
Proof.
  intros request. subst request.
  split; [|split; [|split; [|split; [|split]]]].
  - intros e He w'. unfold YouTubeMobile.mobile_exchange.
    destruct (parse_raises_ValueError _ _ He) as [msg ->]. rewrite He. reflexivity.
  - intros v r Hv Hsend Hs. unfold YouTubeMobile.mobile_exchange.
    rewrite Hv. cbn [try_except]. rewrite bind_ok.
    rewrite (mobile_exchange_answered _ _ _ _ _ Hsend).
    apply Z.eqb_neq in Hs. rewrite Hs. reflexivity.
  - intros v e Hv Hsend He. unfold YouTubeMobile.mobile_exchange.
    rewrite Hv. cbn [try_except]. rewrite bind_ok.
    unfold YouTubeMobile._exchange_mobile_code_for_tokens. rewrite Hsend. reflexivity.
  - intros v r tokens Hv Hsend Hs Hbody Hfalsy. unfold YouTubeMobile.mobile_exchange.
    rewrite Hv. cbn [try_except]. rewrite bind_ok.
    rewrite (mobile_exchange_answered _ _ _ _ _ Hsend).
    apply Z.eqb_eq in Hs. rewrite Hs.
    unfold response_json. rewrite Hbody. cbn [try_except]. rewrite bind_ok.
    rewrite !py_get_dict, !bind_ok, Hfalsy. reflexivity.
  - cbn. destruct (YouTubeMobile.code_verifier body) as [x|]; [destruct (negb _)|];
      cbn; intuition discriminate.
  - cbn. destruct (YouTubeMobile.code_verifier body) as [x|].
    + destruct (String.eqb_spec x "") as [->|Hx]; cbn.
      * split; [intuition discriminate|]. intros (y & [= <-] & Hy). congruence.
      * split; [eauto|]. auto 10.
    + cbn. split; [intuition discriminate|]. intros (y & Hy & _). discriminate.
Qed.

Lemma mobile_exchange_outcomes_witness :
  YouTubeMobile.mobile_exchange Sample.unreachable default_settings
    {| YouTubeMobile.code := "4/abc"; YouTubeMobile.code_verifier := None;
       YouTubeMobile.mobile_user_id := "me" |}
  = Raise (HTTPException 400 "Invalid user_id format")
  /\ YouTubeMobile.mobile_exchange
       (Sample.answers 400 (Some (JObj [("error", JStr "invalid_grant")])))
       default_settings
       {| YouTubeMobile.code := "4/abc"; YouTubeMobile.code_verifier := Some "v";
          YouTubeMobile.mobile_user_id := YouTubeMobile.DEFAULT_USER_ID |}
     = Raise (HTTPException 400 "Token exchange failed: invalid_grant")
  /\ YouTubeMobile.mobile_exchange (Sample.answers 200 (Some (JObj [])))
       default_settings
       {| YouTubeMobile.code := "4/abc"; YouTubeMobile.code_verifier := Some "v";
          YouTubeMobile.mobile_user_id := YouTubeMobile.DEFAULT_USER_ID |}
     = Raise (HTTPException 500 "Google did not return an access token").
Proof.
  split; [|split].
  - destruct (mobile_exchange_outcomes Sample.unreachable default_settings
                {| YouTubeMobile.code := "4/abc"; YouTubeMobile.code_verifier := None;
                   YouTubeMobile.mobile_user_id := "me" |}) as (H & _).
    apply (H (ValueError "badly formed hexadecimal UUID string") eq_refl).
  - destruct (mobile_exchange_outcomes
                (Sample.answers 400 (Some (JObj [("error", JStr "invalid_grant")])))
                default_settings
                {| YouTubeMobile.code := "4/abc"; YouTubeMobile.code_verifier := Some "v";
                   YouTubeMobile.mobile_user_id := YouTubeMobile.DEFAULT_USER_ID |})
      as (_ & H & _).
    apply (H 1%N _ eq_refl eq_refl). discriminate.
  - destruct (mobile_exchange_outcomes (Sample.answers 200 (Some (JObj [])))
                default_settings
                {| YouTubeMobile.code := "4/abc"; YouTubeMobile.code_verifier := Some "v";
                   YouTubeMobile.mobile_user_id := YouTubeMobile.DEFAULT_USER_ID |})
      as (_ & _ & _ & H & _).
    apply (H 1%N _ [] eq_refl eq_refl eq_refl eq_refl eq_refl).
Defined.

(** ** What a response of the MCP client always satisfies *)

Lemma init_returns (w : world)
    (a c t ct o m : json) (s : option bool) (e : json) (x : ExecuteResponse) :
  ExecuteResponse_init w a c t ct o m s e = Ok x ->
  Pydantic.as_str a = Some (answer x)
  /\ Pydantic.as_unit_float w c = Some (confidence x)
  /\ Pydantic.as_str_list t = Some (tools_used x)
  /\ Pydantic.as_opt_str ct = Some (content_type x)
  /\ Pydantic.as_opt_dict o = Some (tool_outputs x)
  /\ Pydantic.as_opt_dict m = Some (metadata x)
  /\ success x = s
  /\ Pydantic.as_opt_dict e = Some (error x).
Proof.
  unfold ExecuteResponse_init.
  destruct (Pydantic.as_str a); [|discriminate].
  destruct (Pydantic.as_unit_float w c); [|discriminate].
  destruct (Pydantic.as_str_list t); [|discriminate].
  destruct (Pydantic.as_opt_str ct); [|discriminate].
  destruct (Pydantic.as_opt_dict o); [|discriminate].
  destruct (Pydantic.as_opt_dict m); [|discriminate].
  destruct (Pydantic.as_opt_dict e); [|discriminate].
  intros [= <-]. cbn. auto 10.
Qed.

Lemma as_unit_float_range (w : world) (c : json) (q : Q) :
  Pydantic.as_unit_float w c = Some q -> (0 <= q)%Q /\ (q <= 1)%Q.
Proof.
  unfold Pydantic.as_unit_float.
  destruct (match c with JNum q0 => Some q0 | JBool _ | JStr _ => lax_float_of w c
                       | _ => None end) as [q0|]; [|discriminate].
  destruct (Qle_bool 0 q0) eqn:H0; [|discriminate].
  destruct (Qle_bool q0 1) eqn:H1; [|discriminate].
  cbn. intros [= <-]. split; apply Qle_bool_iff; assumption.
Qed.

(** [execute] returns only what [transform] made of an answer. *)
Lemma execute_returns (w : world) (self : MCPClient.t)
    (user_id channel_id message : string) (metadata : option dict) (x : ExecuteResponse) :
  MCPClient.execute w self user_id channel_id message metadata = Ok x ->
  exists r data,
    send w (MCPClient.execute_request self user_id channel_id message metadata) = Ok r
    /\ is_success r = true /\ json_body r = Some (JObj data)
    /\ MCPClient.transform w r = Ok x.
Proof.
  intros H.
  destruct (send w (MCPClient.execute_request self user_id channel_id message metadata))
    as [r|e] eqn:Hsend.
  - rewrite (execute_answered _ _ _ _ _ _ _ Hsend) in H.
    destruct (MCPClient.transform w r) as [y|e] eqn:Ht.
    + injection H as ->. exists r.
      unfold MCPClient.transform, raise_for_status, response_json in Ht.
      destruct (is_success r) eqn:Hr; [|discriminate].
      destruct (json_body r) as [[| | | | |data]|] eqn:Hbody; try discriminate.
      exists data. split; [reflexivity|]. split; [reflexivity|]. split; [reflexivity|].
      unfold MCPClient.transform, raise_for_status, response_json.
      rewrite Hr, Hbody. exact Ht.
    + destruct (is_TimeoutException e); [discriminate|].
      destruct (is_HTTPError e); discriminate.
  - unfold MCPClient.execute in H. rewrite Hsend in H. cbn in H.
    destruct (is_TimeoutException e); [discriminate|].
    destruct (is_HTTPError e); discriminate.
Qed.

(** X17. Whatever MCP sends, a response that [MCPClient.execute] returns
    has a confidence between 0 and 1, and is of one of two kinds: a success
    ([success] true, no error object), or the plan-limit answer ([success]
    false, confidence 0, no tools, no content type and no tool outputs, and
    an error object whose [code] is "PLAN_LIMIT_REACHED"). *)
Theorem mcp_execute_result_invariants
    (w : world) (self : MCPClient.t) (user_id channel_id message : string)
    (metadata : option dict) (x : ExecuteResponse) :
  MCPClient.execute w self user_id channel_id message metadata = Ok x ->
  (0 <= confidence x)%Q /\ (confidence x <= 1)%Q
  /\ ((success x = Some true /\ error x = None)
      \/ (success x = Some false /\ confidence x = 0%Q /\ tools_used x = []
          /\ content_type x = None /\ tool_outputs x = None
          /\ exists err, error x = Some err
                         /\ dict_lookup "code" err = Some (JStr "PLAN_LIMIT_REACHED"))).
Proof.
  intros H. destruct (execute_returns _ _ _ _ _ _ _ H) as (r & data & _ & Hr & Hbody & Ht).
  rewrite (transform_object _ _ _ Hr Hbody) in Ht.
  destruct (reports_failure data).
  - destruct (plan_limit_error data) as [err|] eqn:Hplan; [|discriminate].
    destruct (init_returns _ _ _ _ _ _ _ _ _ _ Ht)
      as (_ & Hc & Htools & Hct & Hout & _ & Hs & He).
    destruct (as_unit_float_range _ _ _ Hc) as [H0 H1].
    split; [exact H0|]. split; [exact H1|]. right.
    cbn in Hc, Htools, Hct, Hout, He.
    injection Hc as Hc. injection Htools as Htools. injection Hct as Hct.
    injection Hout as Hout. injection He as He.
    split; [auto|]. split; [auto|]. split; [auto|]. split; [auto|]. split; [auto|].
    exists err. split; [auto|].
    unfold plan_limit_error in Hplan.
    destruct (dict_lookup "error" data) as [[| | | | |err']|]; try discriminate.
    destruct (dict_lookup "code" err') as [[| | |code| |]|] eqn:Hcode;
      cbn in Hplan; try discriminate.
    destruct (String.eqb_spec code "PLAN_LIMIT_REACHED") as [->|]; [|discriminate].
    injection Hplan as <-. exact Hcode.
  - destruct (py_get _ "confidence" _) as [c|e]; [|discriminate].
    rewrite bind_ok in Ht.
    destruct (init_returns _ _ _ _ _ _ _ _ _ _ Ht) as (_ & Hc & _ & _ & _ & _ & Hs & He).
    destruct (as_unit_float_range _ _ _ Hc) as [H0 H1].
    split; [exact H0|]. split; [exact H1|]. left.
    cbn in He. injection He as He. auto.
Qed.

Lemma mcp_execute_result_invariants_witness :
  exists x,
    MCPClient.execute (Sample.answers 200 (Some Sample.plan_limit_body))
      (MCPClient.init default_settings) "u" "c" "m" None = Ok x
    /\ (0 <= confidence x)%Q /\ (confidence x <= 1)%Q
    /\ success x = Some false.
Proof.
  eexists. split; [reflexivity|].
  destruct (mcp_execute_result_invariants
              (Sample.answers 200 (Some Sample.plan_limit_body))
              (MCPClient.init default_settings) "u" "c" "m" None _ eq_refl)
    as (H0 & H1 & _).
  split; [exact H0|]. split; [exact H1|]. reflexivity.
Defined.

(** ** The CORS origins of the application *)

Lemma rstrip_space_idem (s : string) :
  PyStr.rstrip_space (PyStr.rstrip_space s) = PyStr.rstrip_space s.
Proof.
  induction s as [|c s IH]; [reflexivity|].
  cbn [PyStr.rstrip_space].
  destruct (PyStr.rstrip_space s) as [|d t] eqn:Hs.
  - destruct (PyStr.is_space c) eqn:Hc; [reflexivity|].
    cbn [PyStr.rstrip_space]. rewrite Hc. reflexivity.
  - cbn [PyStr.rstrip_space]. cbn [PyStr.rstrip_space] in IH.
    rewrite IH. reflexivity.
Qed.

(** What [rstrip] of a text with a non-blank head keeps. *)
Lemma rstrip_space_head (c : ascii) (r : string) :
  PyStr.is_space c = false ->
  exists r', PyStr.rstrip_space (String c r) = String c r'.
Proof.
  intros Hc. cbn [PyStr.rstrip_space].
  destruct (PyStr.rstrip_space r); [rewrite Hc|]; eauto.
Qed.

Lemma lstrip_space_head (s : string) :
  PyStr.lstrip_space s = ""
  \/ exists c r, PyStr.lstrip_space s = String c r /\ PyStr.is_space c = false.
Proof.
  induction s as [|c s IH]; [auto|].
  cbn [PyStr.lstrip_space]. destruct (PyStr.is_space c) eqn:Hc; [exact IH|].
  right. eauto.
Qed.

(** [strip] of a stripped text changes nothing. *)
Lemma strip_space_idem (s : string) :
  PyStr.strip_space (PyStr.strip_space s) = PyStr.strip_space s.
Proof.
  unfold PyStr.strip_space.
  destruct (lstrip_space_head s) as [->|(c & r & -> & Hc)]; [reflexivity|].
  destruct (rstrip_space_head c r Hc) as [r' Hr'].
  assert (Hl : PyStr.lstrip_space (PyStr.rstrip_space (String c r))
               = PyStr.rstrip_space (String c r)).
  { rewrite Hr'. cbn [PyStr.lstrip_space]. rewrite Hc. reflexivity. }
  rewrite Hl. apply rstrip_space_idem.
Qed.



(** ** The base URL of MCP *)

(** [rstrip("/")] takes trailing slashes away, all of them and nothing
    else. *)
Lemma rstrip_slash_split (s : string) :
  exists n, s = PyStr.rstrip "/" s ++ repeat_char "/" n
            /\ ends_with "/" (PyStr.rstrip "/" s) = false.
Proof.
  induction s as [|c s (n & Hs & Hend)]; [exists O; auto|].
  cbn [PyStr.rstrip]. destruct (PyStr.rstrip "/" s) as [|d t] eqn:Hr.
  - rewrite app_nil_l in Hs. cbn [PyStr.mem].
    destruct (Ascii.eqb_spec c "/") as [->|Hc].
    + exists (S n). rewrite app_nil_l. cbn [repeat_char]. rewrite <- Hs. auto.
    + exists n. rewrite app_cons, app_nil_l, <- Hs. split; [reflexivity|].
      cbn [ends_with]. apply Ascii.eqb_neq. exact Hc.
  - exists n. rewrite app_cons, <- Hs. split; [reflexivity|]. exact Hend.
Qed.

Lemma rstrip_slash_fixed (s : string) :
  ends_with "/" s = false -> PyStr.rstrip "/" s = s.
Proof.
  induction s as [|c s IH]; [reflexivity|].
  cbn [PyStr.rstrip]. destruct s as [|d t].
  - cbn. intros ->. reflexivity.
  - intros H. rewrite (IH H). reflexivity.
Qed.

(** X19. The routes that strip the configured base URL join it to their
    path with exactly one slash, however many slashes the setting ends
    with: the base they use ends with no slash and differs from the setting
    by trailing slashes only (and not at all when the setting ends with
    none).  The channel forward of the OAuth flow does not strip: its URL
    keeps the trailing slashes of the setting before [/channels/connect]. *)
Theorem mcp_urls_strip_trailing_slashes (settings : Settings) :
  let base := MCPClient.base_url (MCPClient.init settings) in
  exists n,
    mcp_base_url settings = base ++ repeat_char "/" n
    /\ ends_with "/" base = false
    /\ (ends_with "/" (mcp_base_url settings) = false -> base = mcp_base_url settings)
    /\ (forall u c m md,
          req_url (MCPClient.execute_request (MCPClient.init settings) u c m md)
          = base ++ "/execute")
    /\ req_url (MCPProbe.ping_request (MCPClient.init settings)) = base ++ "/execute"
    /\ (forall u p, req_url (Channel.stats_request settings u p)
                    = base ++ "/channels/" ++ u ++ "/stats")
    /\ (forall u p, req_url (Channel.top_video_request settings u p)
                    = base ++ "/analytics/top-video")
    /\ (forall u, req_url (User.status_request settings u) = base ++ "/api/v1/user/status")
    /\ (forall v c name tok refresh,
          req_url (connect_request settings v c name tok refresh)
          = base ++ repeat_char "/" n ++ "/channels/connect").
Proof.
  intros base. subst base. cbn [MCPClient.init MCPClient.base_url].
  destruct (rstrip_slash_split (mcp_base_url settings)) as (n & Hs & Hend).
  exists n. split; [exact Hs|]. split; [exact Hend|].
  split; [apply rstrip_slash_fixed|].
  repeat (split; [reflexivity|]).
  intros v c name tok refresh. cbn [connect_request req_url].
  rewrite Hs at 1. apply app_assoc.
Qed.

Lemma mcp_urls_strip_trailing_slashes_witness :
  MCPClient.base_url (MCPClient.init Sample.configured) = "http://context-hub-mcp:8001"
  /\ MCPClient.base_url (MCPClient.init default_settings) = mcp_base_url default_settings.
Proof.
  split; [reflexivity|].
  destruct (mcp_urls_strip_trailing_slashes default_settings) as (n & _ & _ & H & _).
  apply H. reflexivity.
Defined.

(** ** The text of a UUID *)

Lemma hex_value_bound (c : ascii) (d : N) :
  PyStr.hex_value c = Some d -> (d < 16)%N.
Proof.
  destruct c as [[] [] [] [] [] [] [] []]; vm_compute; intros H;
    try discriminate H; injection H as <-; reflexivity.
Qed.

Lemma hex_digit_value (d : N) :
  (d < 16)%N -> PyStr.hex_value (PyStr.hex_digit false d) = Some d.
Proof.
  intros Hd. rewrite <- (N2Nat.id d).
  assert (Hm : (N.to_nat d < 16)%nat) by lia.
  generalize dependent (N.to_nat d). intros m Hm.
  do 16 (destruct m as [|m]; [reflexivity|]). lia.
Qed.

Lemma int16_app (a b : string) (acc : N) :
  UUID.int16 acc (a ++ b)
  = match UUID.int16 acc a with Some x => UUID.int16 x b | None => None end.
Proof.
  revert acc. induction a as [|c a IH]; intros acc; [reflexivity|].
  rewrite app_cons. cbn [UUID.int16].
  destruct (PyStr.hex_value c); [apply IH|reflexivity].
Qed.

Lemma hex_of_length (k : nat) (n : N) : String.length (UUID.hex_of k n) = k.
Proof.
  revert n. induction k as [|k IH]; intros n; [reflexivity|].
  cbn [UUID.hex_of]. rewrite length_app, IH. cbn. lia.
Qed.

(** Reading back what ['%0kx'] wrote. *)
Lemma int16_hex_of (k : nat) (n acc : N) :
  UUID.int16 acc (UUID.hex_of k n)
  = Some (acc * 16 ^ N.of_nat k + n mod 16 ^ N.of_nat k)%N.
Proof.
  revert n acc. induction k as [|k IH]; intros n acc.
  - cbn. rewrite N.mod_1_r. f_equal. lia.
  - cbn [UUID.hex_of]. rewrite int16_app, IH. cbn [UUID.int16].
    rewrite hex_digit_value by (apply N.mod_lt; lia). f_equal.
    rewrite Nat2N.inj_succ, N.pow_succ_r'.
    rewrite (N.Div0.mod_mul_r n 16 (16 ^ N.of_nat k)). lia.
Qed.

Lemma hex_of_all_hex (k : nat) (n : N) :
  PyStr.all PyStr.is_hex (UUID.hex_of k n) = true.
Proof.
  revert n. induction k as [|k IH]; intros n; [reflexivity|].
  cbn [UUID.hex_of]. rewrite all_app, IH. cbn.
  unfold PyStr.is_hex. rewrite hex_digit_value by (apply N.mod_lt; lia). reflexivity.
Qed.

Lemma int16_bound (s : string) (acc n : N) :
  UUID.int16 acc s = Some n -> (n < (acc + 1) * 16 ^ N.of_nat (String.length s))%N.
Proof.
  revert acc. induction s as [|c s IH]; intros acc.
  - cbn. intros [= <-]. lia.
  - cbn [UUID.int16 String.length].
    destruct (PyStr.hex_value c) as [d|] eqn:Hd; [|discriminate].
    intros H. apply IH in H. apply hex_value_bound in Hd.
    rewrite Nat2N.inj_succ, N.pow_succ_r'. nia.
Qed.

(** The five groups of a text of 32 characters. *)
Lemma groups_of_32 (h : string) :
  String.length h = 32%nat ->
  substring 0 8 h ++ substring 8 4 h ++ substring 12 4 h ++ substring 16 4 h
  ++ substring 20 12 h = h
  /\ String.length (substring 0 8 h) = 8%nat
  /\ String.length (substring 8 4 h) = 4%nat
  /\ String.length (substring 12 4 h) = 4%nat
  /\ String.length (substring 16 4 h) = 4%nat
  /\ String.length (substring 20 12 h) = 12%nat.
Proof.
  intros H.
  do 32 (destruct h as [|? h]; [discriminate H|]).
  destruct h; [|discriminate H].
  repeat split.
Qed.

Lemma hex_run_app (n : nat) (a r : string) :
  String.length a = n -> PyStr.all PyStr.is_hex a = true ->
  UUID.hex_run n (a ++ r) = Some r.
Proof.
  revert n. induction a as [|c a IH]; intros n <-; [reflexivity|].
  cbn [PyStr.all String.length]. rewrite andb_true_iff. intros [Hc Ha].
  rewrite app_cons. cbn [UUID.hex_run]. rewrite Hc. apply IH; auto.
Qed.

Lemma dash_then_app (n : nat) (b r : string) :
  String.length b = n -> PyStr.all PyStr.is_hex b = true ->
  UUID.dash_then n (Some ("-" ++ b ++ r)) = Some r.
Proof.
  intros Hn Hb. unfold UUID.dash_then.
  change ("-" ++ b ++ r) with (String "-" (b ++ r)).
  cbv beta iota. rewrite Ascii.eqb_refl. apply hex_run_app; assumption.
Qed.



(** ** A connection from end to end *)

Lemma plain_always_safe (s : string) :
  PyStr.all plain s = true -> PyStr.all Urllib.always_safe s = true.
Proof.
  apply all_impl. intros c Hc. destruct (plain_facts c Hc) as (_ & _ & _ & H & _). exact H.
Qed.

(** The text of a UUID holds hexadecimal digits and dashes only. *)
Lemma to_str_plain (v : UUID.t) : PyStr.all plain (UUID.to_str v) = true.
Proof.
  unfold UUID.to_str. set (h := UUID.hex_of 32 v).
  apply groups_plain.
  destruct (groups_of_32 h (hex_of_length 32 v)) as (-> & _).
  apply hex_of_all_hex.
Qed.

(** The channel lookup on a 200 answer that lists a channel. *)
Lemma fetch_first_channel
    (w : world) (access_token : json) (settings : Settings) (r : http_response)
    (data channel snippet : dict) (others : list json) (id title : json) :
  send w (channels_request w access_token settings) = Ok r ->
  status_code r = 200 ->
  json_body r = Some (JObj data) ->
  dict_lookup "items" data = Some (JArr (JObj channel :: others)) ->
  dict_lookup "id" channel = Some id ->
  dict_lookup "snippet" channel = Some (JObj snippet) ->
  dict_lookup "title" snippet = Some title ->
  YouTubeAuth._fetch_youtube_channel w access_token settings = Ok (id, title).
Proof.
  intros Hsend Hs Hbody Hitems Hid Hsn Htitle.
  unfold YouTubeAuth._fetch_youtube_channel.
  change (send w _) with (send w (channels_request w access_token settings)).
  rewrite Hsend, bind_ok. apply Z.eqb_eq in Hs. rewrite Hs. cbn [negb].
  unfold response_json. rewrite Hbody, bind_ok, py_get_dict, bind_ok, Hitems. cbn.
  rewrite Hid. cbn. rewrite Hsn. cbn. rewrite Htitle. reflexivity.
Qed.

(** Forwarding strings to MCP, once MCP has answered. *)
Lemma forward_answered
    (w : world) (settings : Settings) (user_id : UUID.t)
    (channel_id channel_name access_token : string) (refresh_token : option string)
    (r : http_response) :
  send w (connect_request settings user_id channel_id channel_name access_token
            refresh_token) = Ok r ->
  YouTubeAuth._forward_channel_to_mcp w settings user_id (JStr channel_id)
    (JStr channel_name) (JStr access_token) (opt_json JStr refresh_token)
  = if (status_code r =? 200) || (status_code r =? 201) then Ok tt
    else Raise (OtherError "Exception"
                  ("MCP channel connect failed with status "
                   ++ py_format w (JNum (inject_Z (status_code r))))).
Proof.
  intros Hsend. unfold YouTubeAuth._forward_channel_to_mcp.
  cbn [Pydantic.as_str]. rewrite as_opt_str_opt_json.
  change (send w _)
    with (send w (connect_request settings user_id channel_id channel_name
                    access_token refresh_token)).
  rewrite Hsend, bind_ok.
  destruct ((status_code r =? 200) || (status_code r =? 201)); reflexivity.
Qed.

Lemma stored_status (status : Z) :
  (status =? 200) || (status =? 201) = true <-> status = 200 \/ status = 201.
Proof. rewrite orb_true_iff, !Z.eqb_eq. reflexivity. Qed.

Lemma not_stored_status (status : Z) :
  status <> 200 -> status <> 201 -> (status =? 200) || (status =? 201) = false.
Proof.
  intros H0 H1. apply Z.eqb_neq in H0, H1. rewrite H0, H1. reflexivity.
Qed.

(** The deep link of a connection that succeeded, as the [location]
    header carries it. *)
Lemma connected_redirect (w : world) (v : UUID.t) (cid name : string) :
  RedirectResponse
    (YouTubeAuth.MOBILE_DEEP_LINK ++ "?"
     ++ Urllib.urlencode [("status", "success");
                          ("user_id", UUID.to_str v);
                          ("channel_id", py_format w (JStr cid));
                          ("channel_name", py_format w (JStr name))]) 302
  = {| response_status := 302;
       response_headers :=
         [("location",
           "creatorpilot://auth/callback?status=success&user_id=" ++ UUID.to_str v
           ++ "&channel_id=" ++ Urllib.quote_plus cid
           ++ "&channel_name=" ++ Urllib.quote_plus name)];
       response_content := Empty |}.
Proof.
  unfold RedirectResponse. rewrite quote_fixed.
  - unfold Urllib.urlencode. cbn [map PyStr.join fst snd py_format].
    rewrite (quote_plus_safe (UUID.to_str v)) by apply plain_always_safe, to_str_plain.
    f_equal.
  - change (fun c => Urllib.always_safe c || PyStr.mem c ":/%#?=@[]!$&'()*+,;")
      with redirect_safe.
    rewrite !all_app, urlencode_redirect_safe. reflexivity.
Qed.

(** X21. The mobile exchange from end to end.  When the user id is a
    UUID, the token endpoint answers 200 with an access token that is a
    non-empty string (a refresh token or none), and the channels API
    answers 200 with a channel whose id and title are strings, what is
    returned depends on MCP's answer to the request to store the channel
    alone: on a 200 or 201 the route returns success with the UUID in its
    8-4-4-4-12 text and the id and title of the first channel; on any
    other status it raises 500 "Failed to save channel connection", MCP's
    status not being passed on.  The request to MCP carries the tokens
    Google returned. *)
Theorem mobile_exchange_connects
    (w : world) (settings : Settings) (body : YouTubeMobile.MobileExchangeRequest)
    (v : UUID.t) (r1 r2 r3 : http_response) (tokens data channel snippet : dict)
    (others : list json) (tok cid name : string) (refresh : option string) :
  UUID.parse (YouTubeMobile.mobile_user_id body) = Ok v ->
  send w (YouTubeMobile.exchange_request (YouTubeMobile.code body) settings
            (YouTubeMobile.code_verifier body)) = Ok r1 ->
  status_code r1 = 200 ->
  json_body r1 = Some (JObj tokens) ->
  dict_lookup "access_token" tokens = Some (JStr tok) ->
  tok <> "" ->
  default JNull (dict_lookup "refresh_token" tokens) = opt_json JStr refresh ->
  send w (channels_request w (JStr tok) settings) = Ok r2 ->
  status_code r2 = 200 ->
  json_body r2 = Some (JObj data) ->
  dict_lookup "items" data = Some (JArr (JObj channel :: others)) ->
  dict_lookup "id" channel = Some (JStr cid) ->
  dict_lookup "snippet" channel = Some (JObj snippet) ->
  dict_lookup "title" snippet = Some (JStr name) ->
  send w (connect_request settings v cid name tok refresh) = Ok r3 ->
  (status_code r3 = 200 \/ status_code r3 = 201 ->
     YouTubeMobile.mobile_exchange w settings body
     = Ok {| YouTubeMobile.mobile_success := true;
             YouTubeMobile.response_user_id := UUID.to_str v;
             YouTubeMobile.response_channel_id := cid;
             YouTubeMobile.response_channel_name := name |})
  /\ (status_code r3 <> 200 -> status_code r3 <> 201 ->
        YouTubeMobile.mobile_exchange w settings body
        = Raise (HTTPException 500 "Failed to save channel connection")).
Proof.
  intros Hv Hsend1 Hs1 Hbody1 Htok Hne Hrefresh Hsend2 Hs2 Hbody2 Hitems Hid Hsn Htitle
    Hsend3.
  assert (Hrun : YouTubeMobile.mobile_exchange w settings body
                 = if (status_code r3 =? 200) || (status_code r3 =? 201)
                   then Ok {| YouTubeMobile.mobile_success := true;
                              YouTubeMobile.response_user_id := UUID.to_str v;
                              YouTubeMobile.response_channel_id := cid;
                              YouTubeMobile.response_channel_name := name |}
                   else Raise (HTTPException 500 "Failed to save channel connection")).
  { unfold YouTubeMobile.mobile_exchange.
    rewrite Hv. cbn [try_except]. rewrite bind_ok.
    rewrite (mobile_exchange_answered _ _ _ _ _ Hsend1).
    apply Z.eqb_eq in Hs1. rewrite Hs1.
    unfold response_json. rewrite Hbody1. cbn [try_except]. rewrite bind_ok.
    rewrite !py_get_dict, !bind_ok, Htok, Hrefresh. cbn [default from_option id].
    assert (Htruthy : truthy (JStr tok) = true).
    { cbn [truthy]. destruct (String.eqb_spec tok ""); [contradiction|reflexivity]. }
    rewrite Htruthy. cbn [negb].
    rewrite (fetch_first_channel _ _ _ _ _ _ _ _ _ _
               Hsend2 Hs2 Hbody2 Hitems Hid Hsn Htitle).
    cbn [try_except]. rewrite bind_ok.
    rewrite (forward_answered _ _ _ _ _ _ _ _ Hsend3).
    destruct ((status_code r3 =? 200) || (status_code r3 =? 201)); reflexivity. }
  rewrite Hrun. split.
  - intros Hs. apply stored_status in Hs. rewrite Hs. reflexivity.
  - intros H0 H1. rewrite (not_stored_status _ H0 H1). reflexivity.
Qed.

Lemma mobile_exchange_connects_witness :
  YouTubeMobile.mobile_exchange (SampleFlow.peers 201) default_settings
    {| YouTubeMobile.code := "4/0Ab"; YouTubeMobile.code_verifier := Some "verifier";
       YouTubeMobile.mobile_user_id := "{550E8400-E29B-41D4-A716-446655440000}" |}
  = Ok {| YouTubeMobile.mobile_success := true;
          YouTubeMobile.response_user_id := "550e8400-e29b-41d4-a716-446655440000";
          YouTubeMobile.response_channel_id := "UC_x5XG1OV2P6uZZ5FSM9Ttw";
          YouTubeMobile.response_channel_name := "Cooking & Co" |}
  /\ YouTubeMobile.mobile_exchange (SampleFlow.peers 204) default_settings
       {| YouTubeMobile.code := "4/0Ab"; YouTubeMobile.code_verifier := None;
          YouTubeMobile.mobile_user_id := SampleFlow.user |}
     = Raise (HTTPException 500 "Failed to save channel connection").
Proof.
  split.
  - destruct (mobile_exchange_connects (SampleFlow.peers 201) default_settings
                {| YouTubeMobile.code := "4/0Ab";
                   YouTubeMobile.code_verifier := Some "verifier";
                   YouTubeMobile.mobile_user_id :=
                     "{550E8400-E29B-41D4-A716-446655440000}" |}
                113059749145936325402354257176981405696%N
                {| status_code := 200; text := ""; json_body := Some SampleFlow.tokens |}
                {| status_code := 200; text := ""; json_body := Some SampleFlow.channels |}
                {| status_code := 201; text := ""; json_body := None |}
                [("access_token", JStr "ya29.a0Af"); ("expires_in", JNum 3599);
                 ("refresh_token", JStr "1//0gLr")]
                [("items",
                  JArr [JObj [("id", JStr "UC_x5XG1OV2P6uZZ5FSM9Ttw");
                              ("snippet", JObj [("title", JStr "Cooking & Co")])]])]
                [("id", JStr "UC_x5XG1OV2P6uZZ5FSM9Ttw");
                 ("snippet", JObj [("title", JStr "Cooking & Co")])]
                [("title", JStr "Cooking & Co")]
                [] "ya29.a0Af" "UC_x5XG1OV2P6uZZ5FSM9Ttw" "Cooking & Co" (Some "1//0gLr")
                eq_refl eq_refl eq_refl eq_refl eq_refl ltac:(discriminate) eq_refl
                eq_refl eq_refl eq_refl eq_refl eq_refl eq_refl eq_refl eq_refl)
      as (H & _).
    apply H. right. reflexivity.
  - destruct (mobile_exchange_connects (SampleFlow.peers 204) default_settings
                {| YouTubeMobile.code := "4/0Ab"; YouTubeMobile.code_verifier := None;
                   YouTubeMobile.mobile_user_id := SampleFlow.user |}
                113059749145936325402354257176981405696%N
                {| status_code := 200; text := ""; json_body := Some SampleFlow.tokens |}
                {| status_code := 200; text := ""; json_body := Some SampleFlow.channels |}
                {| status_code := 204; text := ""; json_body := None |}
                [("access_token", JStr "ya29.a0Af"); ("expires_in", JNum 3599);
                 ("refresh_token", JStr "1//0gLr")]
                [("items",
                  JArr [JObj [("id", JStr "UC_x5XG1OV2P6uZZ5FSM9Ttw");
                              ("snippet", JObj [("title", JStr "Cooking & Co")])]])]
                [("id", JStr "UC_x5XG1OV2P6uZZ5FSM9Ttw");
                 ("snippet", JObj [("title", JStr "Cooking & Co")])]
                [("title", JStr "Cooking & Co")]
                [] "ya29.a0Af" "UC_x5XG1OV2P6uZZ5FSM9Ttw" "Cooking & Co" (Some "1//0gLr")
                eq_refl eq_refl eq_refl eq_refl eq_refl ltac:(discriminate) eq_refl
                eq_refl eq_refl eq_refl eq_refl eq_refl eq_refl eq_refl eq_refl)
      as (_ & H).
    apply H; discriminate.
Defined.

(** X22. The callback from end to end.  When the state is accepted for a
    user, the token endpoint answers 200 with an access token that is a
    non-empty string, and the channels API answers 200 with a channel whose
    id and title are strings: on a 200 or 201 of MCP the callback redirects
    with 302 to the deep link with [status=success], the user's UUID in its
    8-4-4-4-12 text, and the channel's id and title encoded once, so that
    the receiver of the link decodes exactly the id and the title Google
    gave; on any other status of MCP it redirects with the detail "Failed
    to save connection".  Either way the pending states are what
    [_validate_state] left: the token is spent even when MCP refuses. *)
Theorem callback_connects
    (w : world) (settings : Settings) (code state : string)
    (pending : YouTubeAuth.pending_states)
    (v : UUID.t) (r1 r2 r3 : http_response) (tokens data channel snippet : dict)
    (others : list json) (tok cid name : string) (refresh : option string) :
  (YouTubeAuth._validate_state state pending).1 = Ok v ->
  send w (token_request code settings) = Ok r1 ->
  status_code r1 = 200 ->
  json_body r1 = Some (JObj tokens) ->
  dict_lookup "access_token" tokens = Some (JStr tok) ->
  tok <> "" ->
  default JNull (dict_lookup "refresh_token" tokens) = opt_json JStr refresh ->
  send w (channels_request w (JStr tok) settings) = Ok r2 ->
  status_code r2 = 200 ->
  json_body r2 = Some (JObj data) ->
  dict_lookup "items" data = Some (JArr (JObj channel :: others)) ->
  dict_lookup "id" channel = Some (JStr cid) ->
  dict_lookup "snippet" channel = Some (JObj snippet) ->
  dict_lookup "title" snippet = Some (JStr name) ->
  send w (connect_request settings v cid name tok refresh) = Ok r3 ->
  let result := YouTubeAuth.youtube_auth_callback w settings code state pending in
  result.2 = (YouTubeAuth._validate_state state pending).2
  /\ (status_code r3 = 200 \/ status_code r3 = 201 ->
        result.1
        = Ok {| response_status := 302;
                response_headers :=
                  [("location",
                    "creatorpilot://auth/callback?status=success&user_id="
                    ++ UUID.to_str v
                    ++ "&channel_id=" ++ Urllib.quote_plus cid
                    ++ "&channel_name=" ++ Urllib.quote_plus name)];
                response_content := Empty |}
        /\ Urllib.unquote_plus (Urllib.quote_plus cid) = cid
        /\ Urllib.unquote_plus (Urllib.quote_plus name) = name)
  /\ (status_code r3 <> 200 -> status_code r3 <> 201 ->
        result.1
        = Ok {| response_status := 302;
                response_headers :=
                  [("location",
                    "creatorpilot://auth/callback?status=error&detail="
                    ++ "Failed%20to%20save%20connection")];
                response_content := Empty |}).
Proof.
  intros Hv Hsend1 Hs1 Hbody1 Htok Hne Hrefresh Hsend2 Hs2 Hbody2 Hitems Hid Hsn Htitle
    Hsend3 result. subst result.
  unfold YouTubeAuth.youtube_auth_callback.
  destruct (YouTubeAuth._validate_state state pending) as [validated pending'] eqn:Ev.
  cbn [fst snd] in Hv |- *. subst validated. cbn [fst snd].
  split; [reflexivity|].
  assert (Hrun : YouTubeAuth.connect_channel w settings code v
                 = if (status_code r3 =? 200) || (status_code r3 =? 201)
                   then Ok (RedirectResponse
                              (YouTubeAuth.MOBILE_DEEP_LINK ++ "?"
                               ++ Urllib.urlencode
                                    [("status", "success");
                                     ("user_id", UUID.to_str v);
                                     ("channel_id", py_format w (JStr cid));
                                     ("channel_name", py_format w (JStr name))]) 302)
                   else Ok (YouTubeAuth.error_redirect "Failed to save connection")).
  { unfold YouTubeAuth.connect_channel.
    rewrite (browser_exchange_answered _ _ _ _ Hsend1).
    apply Z.eqb_eq in Hs1. rewrite Hs1.
    unfold response_json. rewrite Hbody1.
    rewrite !py_get_dict, !bind_ok, Htok, Hrefresh. cbn [default from_option id].
    assert (Htruthy : truthy (JStr tok) = true).
    { cbn [truthy]. destruct (String.eqb_spec tok ""); [contradiction|reflexivity]. }
    rewrite Htruthy. cbn [negb].
    rewrite (fetch_first_channel _ _ _ _ _ _ _ _ _ _
               Hsend2 Hs2 Hbody2 Hitems Hid Hsn Htitle).
    rewrite (forward_answered _ _ _ _ _ _ _ _ Hsend3).
    destruct ((status_code r3 =? 200) || (status_code r3 =? 201)); reflexivity. }
  rewrite Hrun. split.
  - intros Hs. apply stored_status in Hs. rewrite Hs.
    rewrite connected_redirect, !unquote_quote_plus. auto.
  - intros H0 H1. rewrite (not_stored_status _ H0 H1).
    rewrite error_redirect_location. reflexivity.
Qed.

Lemma callback_connects_witness :
  (YouTubeAuth.youtube_auth_callback (SampleFlow.peers 200) default_settings "4/0Ab"
     (SampleFlow.user ++ ":" ++ "tok") {["tok" := SampleFlow.user]}).1
  = Ok {| response_status := 302;
          response_headers :=
            [("location",
              "creatorpilot://auth/callback?status=success&user_id="
              ++ "550e8400-e29b-41d4-a716-446655440000"
              ++ "&channel_id=UC_x5XG1OV2P6uZZ5FSM9Ttw"
              ++ "&channel_name=Cooking+%26+Co")];
          response_content := Empty |}.
Proof.
  assert (Hstate : (YouTubeAuth._validate_state (SampleFlow.user ++ ":" ++ "tok")
                      ({["tok" := SampleFlow.user]} : YouTubeAuth.pending_states)).1
                   = Ok 113059749145936325402354257176981405696%N).
  { rewrite (validate_state_token SampleFlow.user "tok"
               113059749145936325402354257176981405696%N _ eq_refl eq_refl).
    rewrite lookup_singleton_eq. reflexivity. }
  destruct (callback_connects (SampleFlow.peers 200) default_settings "4/0Ab"
              (SampleFlow.user ++ ":" ++ "tok")
              ({["tok" := SampleFlow.user]} : YouTubeAuth.pending_states)
              113059749145936325402354257176981405696%N
              {| status_code := 200; text := ""; json_body := Some SampleFlow.tokens |}
              {| status_code := 200; text := ""; json_body := Some SampleFlow.channels |}
              {| status_code := 200; text := ""; json_body := None |}
              [("access_token", JStr "ya29.a0Af"); ("expires_in", JNum 3599);
               ("refresh_token", JStr "1//0gLr")]
              [("items",
                JArr [JObj [("id", JStr "UC_x5XG1OV2P6uZZ5FSM9Ttw");
                            ("snippet", JObj [("title", JStr "Cooking & Co")])]])]
              [("id", JStr "UC_x5XG1OV2P6uZZ5FSM9Ttw");
               ("snippet", JObj [("title", JStr "Cooking & Co")])]
              [("title", JStr "Cooking & Co")]
              [] "ya29.a0Af" "UC_x5XG1OV2P6uZZ5FSM9Ttw" "Cooking & Co" (Some "1//0gLr")
              Hstate eq_refl eq_refl eq_refl eq_refl
              ltac:(discriminate) eq_refl
              eq_refl eq_refl eq_refl eq_refl eq_refl eq_refl eq_refl eq_refl)
    as (_ & H & _).
  destruct (H (or_introl eq_refl)) as (Hloc & _).
  rewrite Hloc. reflexivity.
Defined.

(** X23. Once the state is accepted and the token endpoint, where it
    answers with tokens, answers with an object, the callback has two kinds
    of answer only.  It redirects to the success link only after the
    channel lookup returned a channel and MCP took the request to store it;
    otherwise it redirects to the error link with one of four fixed
    details: what Google or MCP said, and the text of the exception, never
    reach the link. *)
Theorem callback_details_are_fixed
    (w : world) (settings : Settings) (code state : string)
    (pending : YouTubeAuth.pending_states) (v : UUID.t) :
  (YouTubeAuth._validate_state state pending).1 = Ok v ->
  (forall tokens, YouTubeAuth._exchange_code_for_tokens w code settings = Ok tokens ->
                  is_dict tokens = true) ->
  let reply := (YouTubeAuth.youtube_auth_callback w settings code state pending).1 in
  (exists access_token refresh_token id title,
     YouTubeAuth._fetch_youtube_channel w access_token settings = Ok (id, title)
     /\ YouTubeAuth._forward_channel_to_mcp w settings v id title access_token
          refresh_token = Ok tt
     /\ reply
        = Ok (RedirectResponse
                (YouTubeAuth.MOBILE_DEEP_LINK ++ "?"
                 ++ Urllib.urlencode [("status", "success");
                                      ("user_id", UUID.to_str v);
                                      ("channel_id", py_format w id);
                                      ("channel_name", py_format w title)]) 302))
  \/ (exists detail,
        In detail ["Token exchange failed"; "No access token received";
                   "Failed to fetch channel info"; "Failed to save connection"]
        /\ reply
           = Ok {| response_status := 302;
                   response_headers :=
                     [("location",
                       "creatorpilot://auth/callback?status=error&detail="
                       ++ Urllib.quote "/" detail)];
                   response_content := Empty |}).
Proof.
  intros Hv Hdict reply. subst reply.
  unfold YouTubeAuth.youtube_auth_callback.
  destruct (YouTubeAuth._validate_state state pending) as [validated pending'].
  cbn [fst] in Hv. subst validated. cbn [fst].
  unfold YouTubeAuth.connect_channel.
  destruct (YouTubeAuth._exchange_code_for_tokens w code settings) as [tokens|e] eqn:Ex.
  - specialize (Hdict tokens eq_refl). destruct tokens; try discriminate Hdict.
    rewrite !py_get_dict, !bind_ok.
    destruct (negb (truthy _)).
    + right. exists "No access token received".
      rewrite error_redirect_location. cbn [In]. auto.
    + destruct (YouTubeAuth._fetch_youtube_channel _ _ _) as [[id title]|e] eqn:Ef.
      * destruct (YouTubeAuth._forward_channel_to_mcp _ _ _ _ _ _ _) as [[]|e] eqn:Em.
        -- left. eauto 10.
        -- right. exists "Failed to save connection".
           rewrite error_redirect_location. cbn [In]. auto 10.
      * right. exists "Failed to fetch channel info".
        rewrite error_redirect_location. cbn [In]. auto 10.
  - right. exists "Token exchange failed".
    rewrite error_redirect_location. cbn [In]. auto.
Qed.

Lemma callback_details_are_fixed_witness :
  exists detail,
    In detail ["Token exchange failed"; "No access token received";
               "Failed to fetch channel info"; "Failed to save connection"]
    /\ (YouTubeAuth.youtube_auth_callback
          (Sample.answers 401
             (Some (JObj [("error", JStr "invalid_client");
                          ("error_description", JStr "The OAuth client was not found.")])))
          default_settings "4/0Ab" "00000000-0000-0000-0000-000000000001" ∅).1
       = Ok {| response_status := 302;
               response_headers :=
                 [("location",
                   "creatorpilot://auth/callback?status=error&detail="
                   ++ Urllib.quote "/" detail)];
               response_content := Empty |}.
Proof.
  destruct (callback_details_are_fixed
              (Sample.answers 401
                 (Some (JObj [("error", JStr "invalid_client");
                              ("error_description",
                               JStr "The OAuth client was not found.")])))
              default_settings "4/0Ab" "00000000-0000-0000-0000-000000000001"
              (∅ : YouTubeAuth.pending_states) 1%N eq_refl)
    as [(a & r & i & t & _ & _ & H)|H].
  - intros tokens Htokens. discriminate Htokens.
  - discriminate H.
  - exact H.
Defined.
